(** * BuildOwnVersionInternet: router forwarding and cTCP in Rocq

    A shallow embedding of the core logic of
    - [lab1/router/sr_router.c]: IP handling, longest-prefix route lookup,
      ICMP generation and the ARP side of the software router;
    - [lab3/ctcp.c]: the cTCP send and receive pipelines and the
      retransmission timer;
    - [lab3/ctcp_bbr.c]: the BBR-style congestion controller and its
      bandwidth and RTT filters.

    Machine integers are [Z] with their wrap-around written out, linked lists
    are [list], structs are records.  Header fields hold the value the code
    obtains after [ntohs]/[ntohl]; IPv4 addresses and masks, which the router
    copies, masks and compares without conversion, hold the raw [s_addr]
    word as the host reads it. *)

From Stdlib Require Import String ZArith List Bool Lia Permutation.
Import ListNotations.
Open Scope Z_scope.

(** ** Fixed-width arithmetic *)

Definition u8 (x : Z) : Z := x mod 2 ^ 8.
Definition u16 (x : Z) : Z := x mod 2 ^ 16.
Definition u32 (x : Z) : Z := x mod 2 ^ 32.
(** [size_t] and [unsigned long] on the LP64 targets of the labs. *)
Definition size_t (x : Z) : Z := x mod 2 ^ 64.

(** Big-endian bytes of a 16-bit field. *)
Definition be16 (v : Z) : list Z := [(v / 2 ^ 8) mod 2 ^ 8; v mod 2 ^ 8].
(** The bytes in memory of a 32-bit word of the host; the lab targets
    (x86) are little-endian. *)
Definition host32 (v : Z) : list Z :=
  [v mod 2 ^ 8; (v / 2 ^ 8) mod 2 ^ 8; (v / 2 ^ 16) mod 2 ^ 8; (v / 2 ^ 24) mod 2 ^ 8].

(** The 16-bit field found at byte offset [off] of a buffer. *)
Definition get16 (buf : list Z) (off : nat) : Z :=
  nth off buf 0 * 2 ^ 8 + nth (S off) buf 0.

(* ================================================================= *)
(** * The router: [sr_router.c] *)

Module Router.

(** Modelled from the spec: the protocol constants of [sr_protocol.h], which
    is not part of the sources (Ethernet II header of 14 bytes, IPv4 header
    with IHL = 5, ICMP type-3 layout with 28 bytes of data). *)
Definition sizeof_sr_ethernet_hdr_t : Z := 14.
Definition sizeof_sr_ip_hdr_t : Z := 20.
Definition sizeof_sr_icmp_t3_hdr_t : Z := 36.
Definition ICMP_DATA_SIZE : nat := 28.
Definition ethertype_ip : Z := 0x0800.
Definition ip_protocol_icmp : Z := 1.
Definition IP_DF : Z := 0x4000.

Definition mac := list Z.

(** [struct sr_if]: one interface of the router. *)
Record sr_if := mk_if { name : string; addr : mac; ip : Z }.

(** [struct sr_rt]: one routing-table entry. *)
Record sr_rt := mk_rt { dest : Z; gw : Z; mask : Z; interface : string }.

Record sr_arpentry := mk_arpentry { arp_mac : mac; arp_ip : Z }.

(** [struct sr_instance], restricted to what the IP path reads. *)
Record sr_instance := mk_sr { if_list : list sr_if; routing_table : list sr_rt }.

Record sr_ethernet_hdr := mk_eth
  { ether_dhost : mac; ether_shost : mac; ether_type : Z }.

Record sr_ip_hdr := mk_ip
  { ip_hl : Z; ip_v : Z; ip_tos : Z; ip_len : Z; ip_id : Z; ip_off : Z;
    ip_ttl : Z; ip_p : Z; ip_sum : Z; ip_src : Z; ip_dst : Z }.

Record sr_icmp_t3_hdr := mk_icmp
  { icmp_type : Z; icmp_code : Z; icmp_sum : Z; unused : Z; next_mtu : Z;
    data : list Z }.

(** A frame buffer seen through the header overlays of the code: the Ethernet
    header, the IP header behind it and the bytes that follow. *)
Record frame := mk_frame
  { eth : sr_ethernet_hdr; iph : sr_ip_hdr; body : list Z }.

Definition set_ip_sum (h : sr_ip_hdr) (v : Z) : sr_ip_hdr :=
  mk_ip (ip_hl h) (ip_v h) (ip_tos h) (ip_len h) (ip_id h) (ip_off h)
        (ip_ttl h) (ip_p h) v (ip_src h) (ip_dst h).

Definition set_ip_ttl (h : sr_ip_hdr) (v : Z) : sr_ip_hdr :=
  mk_ip (ip_hl h) (ip_v h) (ip_tos h) (ip_len h) (ip_id h) (ip_off h)
        v (ip_p h) (ip_sum h) (ip_src h) (ip_dst h).

Definition set_icmp_sum (h : sr_icmp_t3_hdr) (v : Z) : sr_icmp_t3_hdr :=
  mk_icmp (icmp_type h) (icmp_code h) v (unused h) (next_mtu h) (data h).

Definition set_iph (p : frame) (h : sr_ip_hdr) : frame :=
  mk_frame (eth p) h (body p).

Definition set_eth (p : frame) (e : sr_ethernet_hdr) : frame :=
  mk_frame e (iph p) (body p).

(** The 20 bytes of an IP header as they lie in the buffer. *)
Definition ip_bytes (h : sr_ip_hdr) : list Z :=
  [u8 (ip_v h * 16 + ip_hl h); ip_tos h] ++ be16 (ip_len h) ++ be16 (ip_id h)
  ++ be16 (ip_off h) ++ [ip_ttl h; ip_p h] ++ be16 (ip_sum h)
  ++ host32 (ip_src h) ++ host32 (ip_dst h).

(** The bytes of an ICMP type-3 header: 8 bytes followed by its data. *)
Definition icmp_bytes (h : sr_icmp_t3_hdr) : list Z :=
  [icmp_type h; icmp_code h] ++ be16 (icmp_sum h) ++ be16 (unused h)
  ++ be16 (next_mtu h) ++ data h.

(** What the router does to the outside world during one callback. *)
Inductive event :=
| ArpLookup (ip : Z)
| SendPacket (buf : frame) (len : Z) (iface : string)
| QueueReq (ip : Z) (buf : frame) (len : Z) (iface : string).

(** The functions of [sr_utils.c], [sr_if.c] and [sr_arpcache.c] the IP path
    calls; none of them is part of the sources, so they are parameters. *)
Class RouterLib := {
  cksum : list Z -> Z;
  sr_get_interface : sr_instance -> string -> option sr_if;
  sr_arpcache_lookup : sr_instance -> Z -> option sr_arpentry
}.

(** The loop of [sr_rt_for_dst], with [best_rt] and [longest_mask] as
    accumulators. *)
Fixpoint rt_scan (rt_walker : list sr_rt) (dst : Z)
         (best_rt : option sr_rt) (longest_mask : Z) : option sr_rt :=
  match rt_walker with
  | [] => best_rt
  | r :: next =>
      let d1 := Z.land (mask r) dst in
      if (d1 =? dest r) && ((longest_mask =? 0) || (mask r >? longest_mask))
      then rt_scan next dst (Some r) (mask r)
      else rt_scan next dst best_rt longest_mask
  end.

Definition sr_rt_for_dst (sr : sr_instance) (dst : Z) : option sr_rt :=
  rt_scan (routing_table sr) dst None 0.

Section WithLib.
Context {lib : RouterLib}.

(** [sr_send_icmp]: [None] stands for the null dereference the code performs
    when the interface name is unknown. *)
Definition sr_send_icmp (sr : sr_instance) (packet : frame)
           (icmp_type icmp_code : Z) (interface : string) : option (list event) :=
  let ethernet_hdr := eth packet in
  let ip_hdr := iph packet in
  (* icmp_t3_hdr overlays the bytes behind the IP header *)
  let in_unused := get16 (body packet) 4 in
  let in_next_mtu := get16 (body packet) 6 in
  match sr_get_interface sr interface with
  | None => None
  | Some rec_iface =>
      let len := sizeof_sr_ethernet_hdr_t + sizeof_sr_ip_hdr_t
                 + sizeof_sr_icmp_t3_hdr_t in
      let icmp_hdr :=
        mk_icmp icmp_type icmp_code 0 in_unused in_next_mtu
                (firstn ICMP_DATA_SIZE (ip_bytes ip_hdr ++ body packet)) in
      let icmp_hdr := set_icmp_sum icmp_hdr (cksum (icmp_bytes icmp_hdr)) in
      let ip_icmp_hdr :=
        mk_ip 5 (ip_v ip_hdr) (ip_tos ip_hdr)
              (sizeof_sr_icmp_t3_hdr_t + sizeof_sr_ip_hdr_t)
              (ip_id ip_hdr) IP_DF 60 ip_protocol_icmp 0
              (ip rec_iface) (ip_src ip_hdr) in
      let ip_icmp_hdr :=
        set_ip_sum ip_icmp_hdr (cksum (ip_bytes ip_icmp_hdr)) in
      let ethernet_icmp_hdr :=
        mk_eth (ether_shost ethernet_hdr) (addr rec_iface) ethertype_ip in
      Some [SendPacket (mk_frame ethernet_icmp_hdr ip_icmp_hdr (icmp_bytes icmp_hdr))
                       len interface]
  end.

(** [sr_send_icmp_t3]: as above with [unused = 0] and [next_mtu = 1500]. *)
Definition sr_send_icmp_t3 (sr : sr_instance) (packet : frame)
           (icmp_type icmp_code : Z) (interface : string) : option (list event) :=
  let ethernet_hdr := eth packet in
  let ip_hdr := iph packet in
  match sr_get_interface sr interface with
  | None => None
  | Some rec_if =>
      let len := sizeof_sr_ethernet_hdr_t + sizeof_sr_ip_hdr_t
                 + sizeof_sr_icmp_t3_hdr_t in
      let icmp_hdr :=
        mk_icmp icmp_type icmp_code 0 0 1500
                (firstn ICMP_DATA_SIZE (ip_bytes ip_hdr ++ body packet)) in
      let icmp_hdr := set_icmp_sum icmp_hdr (cksum (icmp_bytes icmp_hdr)) in
      let ip_icmp_hdr :=
        mk_ip 5 (ip_v ip_hdr) (ip_tos ip_hdr)
              (sizeof_sr_icmp_t3_hdr_t + sizeof_sr_ip_hdr_t)
              (ip_id ip_hdr) IP_DF 60 ip_protocol_icmp 0
              (ip rec_if) (ip_src ip_hdr) in
      let ip_icmp_hdr :=
        set_ip_sum ip_icmp_hdr (cksum (ip_bytes ip_icmp_hdr)) in
      let ethernet_icmp_hdr :=
        mk_eth (ether_shost ethernet_hdr) (addr rec_if) ethertype_ip in
      Some [SendPacket (mk_frame ethernet_icmp_hdr ip_icmp_hdr (icmp_bytes icmp_hdr))
                       len interface]
  end.

(** [sr_handle_ip].  The buffer is changed in place on the transit path (TTL,
    checksum, Ethernet addresses); the events carry the buffer as it is when
    the call is made. *)
Definition sr_handle_ip (sr : sr_instance) (packet : frame) (len : Z)
           (interface : string) : option (list event) :=
  if size_t (len - sizeof_sr_ethernet_hdr_t) <? sizeof_sr_ip_hdr_t then Some []
  else
    let ip_hdr := iph packet in
    let ip_sum0 := ip_sum ip_hdr in
    if negb (ip_sum0 =? cksum (ip_bytes (set_ip_sum ip_hdr 0))) then Some []
    else
      let ip_dst0 := ip_dst ip_hdr in
      let for_me := existsb (fun i => ip i =? ip_dst0) (if_list sr) in
      if for_me then
        let ip_p0 := ip_p ip_hdr in
        if ip_p0 =? ip_protocol_icmp
        then sr_send_icmp sr packet 0 0 interface
        else sr_send_icmp_t3 sr packet 3 3 interface
      else
        let ip_hdr := set_ip_ttl ip_hdr (u8 (ip_ttl ip_hdr - 1)) in
        if ip_ttl ip_hdr =? 0
        then sr_send_icmp_t3 sr (set_iph packet ip_hdr) 11 0 interface
        else
          let ip_hdr := set_ip_sum ip_hdr 0 in
          let ip_hdr := set_ip_sum ip_hdr (cksum (ip_bytes ip_hdr)) in
          let packet := set_iph packet ip_hdr in
          match sr_rt_for_dst sr (ip_dst ip_hdr) with
          | None => sr_send_icmp_t3 sr packet 3 0 interface
          | Some out_rt =>
              let if_entry := sr_get_interface sr (Router.interface out_rt) in
              match sr_arpcache_lookup sr (gw out_rt) with
              | Some entry =>
                  match if_entry with
                  | None => None
                  | Some if_entry =>
                      let ethernet_hdr :=
                        mk_eth (arp_mac entry) (addr if_entry)
                               (ether_type (eth packet)) in
                      Some [ArpLookup (gw out_rt);
                            SendPacket (set_eth packet ethernet_hdr) len
                                       (Router.interface out_rt)]
                  end
              | None =>
                  Some [ArpLookup (gw out_rt);
                        QueueReq (gw out_rt) packet len (Router.interface out_rt)]
              end
          end.

End WithLib.

End Router.

(* ================================================================= *)
(** * The transport: [ctcp.c] *)

Module Ctcp.

(** Modelled from the spec: the constants of [ctcp_sys.h], which is not part
    of the sources (header of 20 bytes, flag bits ACK = 0x10 and FIN = 0x1,
    at most 1440 bytes of data in a segment). *)
Definition sizeof_ctcp_segment_t : Z := 20.
Definition FIN : Z := 0x1.
Definition ACK : Z := 0x10.
Definition MAX_SEG_DATA_SIZE : Z := 1440.

(** [ctcp_segment_t]; the fields hold the decoded (host order) values. *)
Record ctcp_segment := mk_seg
  { seg_seqno : Z; seg_ackno : Z; seg_len : Z; seg_flags : Z; seg_window : Z;
    seg_cksum : Z; seg_data : list Z }.

(** [ctcp_config_t]. *)
Record ctcp_config := mk_cfg
  { recv_window : Z; send_window : Z; timer : Z; rt_timeout : Z }.

(** Every call into the substrate, in the order the calls are made. *)
Inductive io_event :=
| ConnSend (seg : ctcp_segment) (len : Z)
| ConnOutput (buf : list Z)
| ConnBufspace (space : Z)
| ConnInput (len : Z) (buf : list Z)
| CurrentTime (now : Z).

(** [struct ctcp_state]; [conn] is the history of the connection object. *)
Record ctcp_state := mk_state
  { conn : list io_event;
    cfg : ctcp_config;
    seqno : Z;
    ackno : Z;
    retransmition : Z;
    last_retransmit_time : Z;
    send_fin : bool;
    receive_fin : bool;
    receive_ack_fin : bool;
    unacked : list ctcp_segment;
    unoutput : list ctcp_segment }.

Definition set_conn (s : ctcp_state) (c : list io_event) : ctcp_state :=
  mk_state c (cfg s) (seqno s) (ackno s) (retransmition s)
           (last_retransmit_time s) (send_fin s) (receive_fin s)
           (receive_ack_fin s) (unacked s) (unoutput s).

Definition set_seqno (s : ctcp_state) (v : Z) : ctcp_state :=
  mk_state (conn s) (cfg s) v (ackno s) (retransmition s)
           (last_retransmit_time s) (send_fin s) (receive_fin s)
           (receive_ack_fin s) (unacked s) (unoutput s).

Definition set_ackno (s : ctcp_state) (v : Z) : ctcp_state :=
  mk_state (conn s) (cfg s) (seqno s) v (retransmition s)
           (last_retransmit_time s) (send_fin s) (receive_fin s)
           (receive_ack_fin s) (unacked s) (unoutput s).

Definition set_retransmition (s : ctcp_state) (v : Z) : ctcp_state :=
  mk_state (conn s) (cfg s) (seqno s) (ackno s) v
           (last_retransmit_time s) (send_fin s) (receive_fin s)
           (receive_ack_fin s) (unacked s) (unoutput s).

Definition set_last_retransmit_time (s : ctcp_state) (v : Z) : ctcp_state :=
  mk_state (conn s) (cfg s) (seqno s) (ackno s) (retransmition s)
           v (send_fin s) (receive_fin s)
           (receive_ack_fin s) (unacked s) (unoutput s).

Definition set_send_fin (s : ctcp_state) (v : bool) : ctcp_state :=
  mk_state (conn s) (cfg s) (seqno s) (ackno s) (retransmition s)
           (last_retransmit_time s) v (receive_fin s)
           (receive_ack_fin s) (unacked s) (unoutput s).

Definition set_receive_fin (s : ctcp_state) (v : bool) : ctcp_state :=
  mk_state (conn s) (cfg s) (seqno s) (ackno s) (retransmition s)
           (last_retransmit_time s) (send_fin s) v
           (receive_ack_fin s) (unacked s) (unoutput s).

Definition set_receive_ack_fin (s : ctcp_state) (v : bool) : ctcp_state :=
  mk_state (conn s) (cfg s) (seqno s) (ackno s) (retransmition s)
           (last_retransmit_time s) (send_fin s) (receive_fin s)
           v (unacked s) (unoutput s).

Definition set_unacked (s : ctcp_state) (v : list ctcp_segment) : ctcp_state :=
  mk_state (conn s) (cfg s) (seqno s) (ackno s) (retransmition s)
           (last_retransmit_time s) (send_fin s) (receive_fin s)
           (receive_ack_fin s) v (unoutput s).

Definition set_unoutput (s : ctcp_state) (v : list ctcp_segment) : ctcp_state :=
  mk_state (conn s) (cfg s) (seqno s) (ackno s) (retransmition s)
           (last_retransmit_time s) (send_fin s) (receive_fin s)
           (receive_ack_fin s) (unacked s) v.

(** Record one substrate call on the connection. *)
Definition call (s : ctcp_state) (e : io_event) : ctcp_state :=
  set_conn s (conn s ++ [e]).

Definition set_seg_cksum (g : ctcp_segment) (v : Z) : ctcp_segment :=
  mk_seg (seg_seqno g) (seg_ackno g) (seg_len g) (seg_flags g) (seg_window g)
         v (seg_data g).

(** [segment->flags & htonl(FIN) != 0] and the same for ACK. *)
Definition has_fin (g : ctcp_segment) : bool :=
  negb (Z.land (seg_flags g) FIN =? 0).
Definition has_ack (g : ctcp_segment) : bool :=
  negb (Z.land (seg_flags g) ACK =? 0).

(** [ntohs(segment->len) - sizeof(ctcp_segment_t) > 0], a comparison the C
    code makes in [size_t]. *)
Definition has_payload (g : ctcp_segment) : bool :=
  size_t (seg_len g - sizeof_ctcp_segment_t) >? 0.

(** The substrate of [ctcp_sys.h] and [ctcp_utils.h], not part of the
    sources: the checksum of the first [len] bytes of a segment, and the
    answers of the connection given the calls made on it so far. *)
Class CtcpLib := {
  cksum : ctcp_segment -> Z -> Z;
  conn_bufspace : list io_event -> Z;
  conn_input : list io_event -> Z -> Z * list Z;
  current_time : list io_event -> Z
}.

(** [ctcp_init] for a connection that could be established: the state it
    returns, on a connection without history. *)
Definition ctcp_init (cfg : ctcp_config) : ctcp_state :=
  mk_state [] cfg 1 1 0 0 false false false [] [].

(** [on_air]: the accumulator is a [uint16_t]. *)
Definition on_air (state : ctcp_state) : Z :=
  let data_len := 0 in
  match unacked state with
  | [] => data_len
  | front :: _ =>
      let back := last (unacked state) front in
      let data_len := u16 (u32 (data_len + u32 (seg_seqno back - seg_seqno front))) in
      let data_len := u16 (size_t (data_len + size_t (seg_len back - sizeof_ctcp_segment_t))) in
      data_len
  end.

Section WithLib.
Context {lib : CtcpLib}.

Definition corrupted (segment : ctcp_segment) : bool :=
  let net_cksum := seg_cksum segment in
  let len := seg_len segment in
  let host_cksum := cksum (set_seg_cksum segment 0) len in
  negb (net_cksum =? host_cksum).

Definition send_ack_segment (state : ctcp_state) : ctcp_state :=
  let ack_len := sizeof_ctcp_segment_t in
  let ack := mk_seg (seqno state) (ackno state) ack_len ACK
                    (u16 (recv_window (cfg state))) 0 [] in
  let ack := set_seg_cksum ack (cksum ack ack_len) in
  call state (ConnSend ack ack_len).

Definition send_fin_segment (state : ctcp_state) : ctcp_segment * ctcp_state :=
  let fin_len := sizeof_ctcp_segment_t in
  let fin := mk_seg (seqno state) (ackno state) fin_len FIN
                    (u16 (recv_window (cfg state))) 0 [] in
  let fin := set_seg_cksum fin (cksum fin fin_len) in
  (fin, call state (ConnSend fin fin_len)).

Definition send_data_segment (state : ctcp_state) (buf : list Z) (len : Z)
  : ctcp_segment * ctcp_state :=
  let seg_len := u16 (sizeof_ctcp_segment_t + len) in
  let seg := mk_seg (seqno state) (ackno state) seg_len ACK
                    (u16 (recv_window (cfg state))) 0
                    (firstn (Z.to_nat len) buf) in
  let seg := set_seg_cksum seg (cksum seg seg_len) in
  (seg, call state (ConnSend seg seg_len)).

(** [ctcp_read].  In the FIN branch the source breaks off in the middle of
    the statement that fills the local [bbr_fin] record; the record is never
    stored, so only its reading of the clock is kept, and the [ll_add] that
    follows is read as a statement of its own, as in the data branch. *)
Definition ctcp_read (state : ctcp_state) : ctcp_state :=
  if send_window (cfg state) <=? on_air state then state
  else if send_fin state then state
  else
    let buf_len := MAX_SEG_DATA_SIZE in
    let '(len, buf) := conn_input (conn state) buf_len in
    let state := call state (ConnInput len buf) in
    if len =? 0 then state
    else if len =? -1 then
      let '(fin, state) := send_fin_segment state in
      let state := set_seqno state (u32 (seqno state + 1)) in
      let state := set_send_fin state true in
      let state := set_retransmition state 0 in
      let now := current_time (conn state) in
      let state := call state (CurrentTime now) in
      let state := set_last_retransmit_time state now in
      (* bbr_fin->send_time = current_time() *)
      let state := call state (CurrentTime (current_time (conn state))) in
      set_unacked state (unacked state ++ [fin])
    else
      let '(segment, state) := send_data_segment state buf len in
      let state := set_seqno state (u32 (seqno state + len)) in
      let state := set_retransmition state 0 in
      let now := current_time (conn state) in
      let state := call state (CurrentTime now) in
      let state := set_last_retransmit_time state now in
      set_unacked state (unacked state ++ [segment]).

(** How the loop of [ctcp_output] is left. *)
Inductive loop_exit := LoopDone | LoopBreak | LoopReturn.

(** The [while] loop of [ctcp_output] over the unoutput list [q]. *)
Fixpoint ctcp_output_loop (q : list ctcp_segment) (state : ctcp_state)
         (has_output : bool) : loop_exit * ctcp_state * bool :=
  match q with
  | [] => (LoopDone, set_unoutput state [], has_output)
  | unoutput_segment :: rest =>
      if ackno state =? seg_seqno unoutput_segment then
        let buf_space := conn_bufspace (conn state) in
        let state := call state (ConnBufspace buf_space) in
        let data_len := u16 (size_t (seg_len unoutput_segment - sizeof_ctcp_segment_t)) in
        if buf_space <? data_len then
          (LoopReturn, set_unoutput state q, has_output)
        else
          let state :=
            call state (ConnOutput (firstn (Z.to_nat data_len)
                                           (seg_data unoutput_segment))) in
          let state := set_ackno state (u32 (ackno state + data_len)) in
          let state :=
            if has_fin unoutput_segment then
              call (set_ackno state (u32 (ackno state + 1))) (ConnOutput [])
            else state in
          ctcp_output_loop rest state true
      else (LoopBreak, set_unoutput state q, has_output)
  end.

Definition ctcp_output (state : ctcp_state) : ctcp_state :=
  match ctcp_output_loop (unoutput state) state false with
  | (LoopReturn, state, _) => state
  | (_, state, has_output) =>
      if has_output then send_ack_segment state else state
  end.

(** The loop of [ctcp_receive] that removes the acknowledged segments from
    the front of the unacked list. *)
Fixpoint remove_acked (q : list ctcp_segment) (ack : Z) : list ctcp_segment :=
  match q with
  | [] => []
  | unacked_segment :: rest =>
      if seg_seqno unacked_segment <? ack then remove_acked rest ack
      else q
  end.

(** The walk of [ctcp_receive] over the neighbouring nodes of the unoutput
    list, from [current] to the last node. *)
Fixpoint insert_walk (segment current : ctcp_segment) (rest : list ctcp_segment)
  : list ctcp_segment :=
  match rest with
  | [] => [current]
  | next :: rest' =>
      if (seg_seqno segment >? seg_seqno current)
         && (seg_seqno segment <? seg_seqno next)
      then current :: segment :: insert_walk segment next rest'
      else current :: insert_walk segment next rest'
  end.

Definition insert_unoutput (segment : ctcp_segment) (q : list ctcp_segment)
  : list ctcp_segment :=
  match q with
  | [] => [segment]
  | first :: rest =>
      let last_seg := last q first in
      if seg_seqno segment <? seg_seqno first then segment :: q
      else if seg_seqno segment >? seg_seqno last_seg then q ++ [segment]
      else insert_walk segment first rest
  end.

(** The block of [ctcp_receive] headed "Deal with duplicate segment issue":
    the walk visits as many nodes as the [uint16_t] counter [ind] says. *)
Definition duplicate_in_unoutput (state : ctcp_state) (segment : ctcp_segment)
  : bool :=
  let ind := u16 (Z.of_nat (length (unoutput state))) in
  existsb (fun unoutput_segment =>
             seg_seqno unoutput_segment =? seg_seqno segment)
          (firstn (Z.to_nat ind) (unoutput state)).

(** The block of [ctcp_receive] headed "Deal with ACK segment". *)
Definition ctcp_receive_ack (state : ctcp_state) (segment : ctcp_segment)
  : ctcp_state :=
  if has_ack segment then
    let state :=
      set_unacked state (remove_acked (unacked state) (seg_ackno segment)) in
    if send_fin state then set_receive_ack_fin state true else state
  else state.

(** The block headed "If receive FIN segment". *)
Definition ctcp_receive_fin (state : ctcp_state) (segment : ctcp_segment)
  : ctcp_state :=
  if has_fin segment then set_receive_fin state true else state.

(** The block headed "Insert segment with data into unoutput". *)
Definition ctcp_receive_insert (state : ctcp_state) (segment : ctcp_segment)
  : ctcp_state :=
  if has_payload segment || has_fin segment
  then set_unoutput state (insert_unoutput segment (unoutput state))
  else state.

(** [ctcp_receive]; the parameter [len] is not read by the code.  The two
    nested tests of the stale-segment block are written as one conjunction:
    the block returns only when both hold. *)
Definition ctcp_receive (state : ctcp_state) (segment : ctcp_segment) (len : Z)
  : ctcp_state :=
  if corrupted segment then state
  else if (seg_seqno segment <? ackno state)
          && (has_payload segment || has_fin segment)
  then send_ack_segment state
  else if duplicate_in_unoutput state segment
  then send_ack_segment state
  else
    let state := ctcp_receive_ack state segment in
    let state := ctcp_receive_fin state segment in
    let state := ctcp_receive_insert state segment in
    ctcp_output state.

End WithLib.

End Ctcp.

(* ================================================================= *)
(** * The congestion controller: [ctcp_bbr.c] *)

Module Bbr.

Inductive bbr_mode := BBR_STARTUP | BBR_DRAIN | BBR_PROBE_BW | BBR_PROBE_RTT.

Definition bbr_mode_eqb (a b : bbr_mode) : bool :=
  match a, b with
  | BBR_STARTUP, BBR_STARTUP | BBR_DRAIN, BBR_DRAIN
  | BBR_PROBE_BW, BBR_PROBE_BW | BBR_PROBE_RTT, BBR_PROBE_RTT => true
  | _, _ => false
  end.

(** [ctcp_bbr.h] *)
Definition BBR_SCALE : Z := 8.
Definition BBR_UNIT : Z := Z.shiftl 1 BBR_SCALE.
Definition CYCLE_LEN : Z := 8.
Definition BBR_RTT_RTTS : nat := 10.

(** The tunables of [ctcp_bbr.c].  The gains are [float] variables whose
    initialisers are quotients of [int] constants: the division is the
    integer one, so each holds a whole number, written here as the code
    writes it. *)
Definition bbr_probe_rtt_mode_ms : Z := 200.
Definition bbr_high_gain : Z := 2885 / 1000.
Definition bbr_drain_gain : Z := 1000 / 2885.
Definition bbr_cwnd_gain : Z := 2.
Definition bbr_pacing_gain : list Z := [5 / 4; 3 / 4; 1; 1; 1; 1; 1; 1].
Definition bbr_cycle_rand : Z := 7.
Definition bbr_cwnd_min_target : Z := 4.
Definition bbr_full_bw_cnt : Z := 3.

(** [struct bbr_state] *)
Record bbr_state := mk_bbr
  { pacing_gain : Z;
    cwnd_gain : Z;
    mode : bbr_mode;
    max_btlbw : Z;
    max_btlbw_stamp : Z;
    min_rtt_us : Z;
    min_rtt_stamp : Z;
    pacing_rate : Z;
    cwnd : Z;
    BtlBwFilter : list Z;
    RTpropFilter : list Z;
    cycle_idx : Z;
    full_bw : Z;
    full_bw_cnt : Z;
    inflight : Z;
    probe_rtt_done_stamp : Z;
    restore_cwnd : bool;
    prior_cwnd : Z;
    delivered_time : Z;
    delivered : Z;
    next_send_time : Z }.

Definition set_gains (b : bbr_state) (m : bbr_mode) (pg cg : Z) : bbr_state :=
  mk_bbr pg cg m (max_btlbw b) (max_btlbw_stamp b) (min_rtt_us b)
         (min_rtt_stamp b) (pacing_rate b) (cwnd b) (BtlBwFilter b)
         (RTpropFilter b) (cycle_idx b) (full_bw b) (full_bw_cnt b)
         (inflight b) (probe_rtt_done_stamp b) (restore_cwnd b) (prior_cwnd b)
         (delivered_time b) (delivered b) (next_send_time b).

Definition set_pacing_gain (b : bbr_state) (pg : Z) : bbr_state :=
  set_gains b (mode b) pg (cwnd_gain b).

Definition set_cycle_idx (b : bbr_state) (v : Z) : bbr_state :=
  mk_bbr (pacing_gain b) (cwnd_gain b) (mode b) (max_btlbw b)
         (max_btlbw_stamp b) (min_rtt_us b) (min_rtt_stamp b) (pacing_rate b)
         (cwnd b) (BtlBwFilter b) (RTpropFilter b) v (full_bw b)
         (full_bw_cnt b) (inflight b) (probe_rtt_done_stamp b)
         (restore_cwnd b) (prior_cwnd b) (delivered_time b) (delivered b)
         (next_send_time b).

Definition set_min_rtt (b : bbr_state) (rtt : Z) (filter : list Z) (stamp : Z)
  : bbr_state :=
  mk_bbr (pacing_gain b) (cwnd_gain b) (mode b) (max_btlbw b)
         (max_btlbw_stamp b) rtt stamp (pacing_rate b)
         (cwnd b) (BtlBwFilter b) filter (cycle_idx b) (full_bw b)
         (full_bw_cnt b) (inflight b) (probe_rtt_done_stamp b)
         (restore_cwnd b) (prior_cwnd b) (delivered_time b) (delivered b)
         (next_send_time b).

Definition set_probe_rtt_done_stamp (b : bbr_state) (v : Z) : bbr_state :=
  mk_bbr (pacing_gain b) (cwnd_gain b) (mode b) (max_btlbw b)
         (max_btlbw_stamp b) (min_rtt_us b) (min_rtt_stamp b) (pacing_rate b)
         (cwnd b) (BtlBwFilter b) (RTpropFilter b) (cycle_idx b) (full_bw b)
         (full_bw_cnt b) (inflight b) v
         (restore_cwnd b) (prior_cwnd b) (delivered_time b) (delivered b)
         (next_send_time b).

Definition set_cwnd_restore (b : bbr_state) (w : Z) (restore : bool) (prior : Z)
  : bbr_state :=
  mk_bbr (pacing_gain b) (cwnd_gain b) (mode b) (max_btlbw b)
         (max_btlbw_stamp b) (min_rtt_us b) (min_rtt_stamp b) (pacing_rate b)
         w (BtlBwFilter b) (RTpropFilter b) (cycle_idx b) (full_bw b)
         (full_bw_cnt b) (inflight b) (probe_rtt_done_stamp b)
         restore prior (delivered_time b) (delivered b)
         (next_send_time b).

(** Store into one slot of a C array; an index outside the array leaves it
    as it is. *)
Fixpoint array_set (a : list Z) (i : nat) (v : Z) : list Z :=
  match a, i with
  | [], _ => []
  | _ :: a', O => v :: a'
  | x :: a', S i' => x :: array_set a' i' v
  end.

Definition bbr_advance_cycle_phase (bbr : bbr_state) : bbr_state :=
  let bbr := set_cycle_idx bbr (Z.rem (cycle_idx bbr + 1) (CYCLE_LEN - 1)) in
  set_pacing_gain bbr (nth (Z.to_nat (cycle_idx bbr)) bbr_pacing_gain 0).

Definition bbr_update_cycle_phase (bbr : bbr_state) (bw_sample rtt_sample : Z)
  : bbr_state :=
  if bbr_mode_eqb (mode bbr) BBR_PROBE_BW then bbr_advance_cycle_phase bbr
  else bbr.

(** [full_bw_cnt] is an [int] compared with a [uint32_t]. *)
Definition bbr_full_bw_reached (bbr : bbr_state) : bool :=
  u32 (full_bw_cnt bbr) >=? bbr_full_bw_cnt.

Definition bbr_reset_startup_mode (bbr : bbr_state) : bbr_state :=
  set_gains bbr BBR_STARTUP bbr_high_gain bbr_high_gain.

Definition bbr_reset_drain_mode (bbr : bbr_state) : bbr_state :=
  set_gains bbr BBR_STARTUP bbr_drain_gain bbr_high_gain.

(** [rand_value] is what the call of [rand()] returns. *)
Definition bbr_reset_probe_bw_mode (bbr : bbr_state) (rand_value : Z) : bbr_state :=
  let bbr := set_gains bbr BBR_PROBE_BW BBR_UNIT bbr_cwnd_gain in
  set_cycle_idx bbr (u32 (CYCLE_LEN - 1 - u32 rand_value mod bbr_cycle_rand)).

Definition bbr_reset_mode (bbr : bbr_state) (rand_value : Z) : bbr_state :=
  if negb (bbr_full_bw_reached bbr) then bbr_reset_startup_mode bbr
  else bbr_reset_probe_bw_mode bbr rand_value.

Definition bbr_save_cwnd (bbr : bbr_state) : bbr_state :=
  set_cwnd_restore bbr (cwnd bbr) true (cwnd bbr).

(** [rand_value] is what [rand()] returns if it is called. *)
Definition bbr_check_drain (bbr : bbr_state) (bw_sample rtt_sample : Z)
           (rand_value : Z) : bbr_state :=
  let bbr :=
    if bbr_mode_eqb (mode bbr) BBR_STARTUP && bbr_full_bw_reached bbr
    then set_gains bbr BBR_DRAIN bbr_drain_gain bbr_high_gain
    else bbr in
  if bbr_mode_eqb (mode bbr) BBR_DRAIN && (inflight bbr <=? cwnd bbr)
  then bbr_reset_probe_bw_mode bbr rand_value
  else bbr.

(** The [for] loop of [bbr_update_min_rtt] over the indices [idx]. *)
Fixpoint min_rtt_loop (idx : list nat) (filter : list Z) (min_rtt : Z)
  : list Z * Z :=
  match idx with
  | [] => (filter, min_rtt)
  | i :: idx' =>
      let filter := array_set filter i (nth (i + 1) filter 0) in
      let min_rtt := if min_rtt >? nth i filter 0 then nth i filter 0 else min_rtt in
      min_rtt_loop idx' filter min_rtt
  end.

(** The first half of [bbr_update_min_rtt]: the filter is shifted and
    PROBE_RTT is entered when it is found expired.  [t1] and [t2] are what
    [current_time()] returns at its first and second call site. *)
Definition bbr_enter_probe_rtt (bbr : bbr_state) (rtt_sample : Z) (t1 t2 : Z)
  : bbr_state :=
  let last_min_rtt_us := min_rtt_us bbr in
  (* BBR_BW_RTTS - 1 expands to CYCLE_LEN + 2 - 1 *)
  let '(filter, min_rtt) :=
    min_rtt_loop (seq 0 (Z.to_nat (CYCLE_LEN + 2 - 1))) (RTpropFilter bbr) rtt_sample in
  let filter := array_set filter (Z.to_nat (CYCLE_LEN + 2 - 1)) rtt_sample in
  let bbr := set_min_rtt bbr min_rtt filter t1 in
  let filter_expired := min_rtt_us bbr >? last_min_rtt_us in
  if (bbr_probe_rtt_mode_ms >? 0) && filter_expired
     && negb (bbr_mode_eqb (mode bbr) BBR_PROBE_RTT)
  then
    let bbr := set_gains bbr BBR_PROBE_RTT BBR_UNIT BBR_UNIT in
    let bbr := bbr_save_cwnd bbr in
    set_probe_rtt_done_stamp bbr (bbr_probe_rtt_mode_ms + t2)
  else bbr.

(** The second half of [bbr_update_min_rtt]: leaving PROBE_RTT.  [t3] is what
    [current_time()] returns in the condition. *)
Definition bbr_exit_probe_rtt (bbr : bbr_state) (t3 : Z) (rand_value : Z)
  : bbr_state :=
  if bbr_mode_eqb (mode bbr) BBR_PROBE_RTT && (probe_rtt_done_stamp bbr >=? t3)
  then
    let bbr := bbr_reset_mode bbr rand_value in
    if restore_cwnd bbr then
      set_cwnd_restore bbr
        (if cwnd bbr >? prior_cwnd bbr then cwnd bbr else prior_cwnd bbr)
        false (prior_cwnd bbr)
    else bbr
  else bbr.

Definition bbr_update_min_rtt (bbr : bbr_state) (rtt_sample : Z)
           (t1 t2 t3 : Z) (rand_value : Z) : bbr_state :=
  bbr_exit_probe_rtt (bbr_enter_probe_rtt bbr rtt_sample t1 t2) t3 rand_value.

End Bbr.

(* ================================================================= *)
(** * The router, continued: the ARP side of [sr_router.c] *)

Module Arp.
Import Router.

(** Modelled from the spec: the ARP constants of [sr_protocol.h], which is
    not part of the sources (ARP for Ethernet and IPv4: a header of 28
    bytes, request = 1, reply = 2). *)
Definition sizeof_sr_arp_hdr_t : Z := 28.
Definition ethertype_arp : Z := 0x0806.
Definition arp_op_request : Z := 1.
Definition arp_op_reply : Z := 2.
Definition arp_hrd_ethernet : Z := 1.
Definition ETHER_ADDR_LEN : Z := 6.

Record sr_arp_hdr := mk_arp
  { ar_hrd : Z; ar_pro : Z; ar_hln : Z; ar_pln : Z; ar_op : Z;
    ar_sha : mac; ar_sip : Z; ar_tha : mac; ar_tip : Z }.

(** A frame buffer seen through the ARP overlay. *)
Record arp_frame := mk_arp_frame { a_eth : sr_ethernet_hdr; a_arp : sr_arp_hdr }.

(** [struct sr_packet]: a packet waiting for an ARP reply. *)
Record sr_packet := mk_packet { pkt_buf : frame; pkt_len : Z; pkt_iface : string }.

(** [struct sr_arpreq], restricted to what [sr_router.c] reads. *)
Record sr_arpreq := mk_arpreq { req_ip : Z; packets : list sr_packet }.

(** What the ARP path does to the outside world during one callback. *)
Inductive arp_effect :=
| CacheInsert (m : mac) (ip : Z)
| SendArp (buf : arp_frame) (len : Z) (iface : string)
| SendQueued (buf : frame) (len : Z) (iface : string)
| ReqDestroy (req : sr_arpreq).

(** [sr_arpcache_insert] of [sr_arpcache.c], not part of the sources: the
    pending request for the inserted address, if there is one. *)
Class ArpLib := {
  arp_router_lib :: RouterLib;
  sr_arpcache_insert : sr_instance -> mac -> Z -> option sr_arpreq
}.

Section WithLib.
Context {lib : ArpLib}.

(** [sr_handle_arp_reply]; [None] stands for the null dereference of an
    unknown interface. *)
Definition sr_handle_arp_reply (sr : sr_instance) (arp_hdr : sr_arp_hdr)
           (interface : string) : option (list arp_effect) :=
  match sr_get_interface sr interface with
  | None => None
  | Some iface =>
      if ip iface =? ar_tip arp_hdr then
        let mac := ar_sha arp_hdr in
        let ip := ar_sip arp_hdr in
        let req := sr_arpcache_insert sr mac ip in
        match req with
        | Some req =>
            Some (CacheInsert mac ip
                  :: map (fun packet =>
                            let ethernet_hdr :=
                              mk_eth mac (addr iface)
                                     (ether_type (eth (pkt_buf packet))) in
                            SendQueued (set_eth (pkt_buf packet) ethernet_hdr)
                                       (pkt_len packet) (name iface))
                         (packets req)
                  ++ [ReqDestroy req])
        | None => Some [CacheInsert mac ip]
        end
      else Some []
  end.

(** [sr_send_arp_reply] *)
Definition sr_send_arp_reply (sr : sr_instance) (rec_packet : arp_frame)
           (rec_len : Z) (interface : string) : option (list arp_effect) :=
  match sr_get_interface sr interface with
  | None => None
  | Some iface =>
      let ip := ip iface in
      let mac := addr iface in
      let rec_ethernet_hdr := a_eth rec_packet in
      let rec_arp_hdr := a_arp rec_packet in
      let len := sizeof_sr_ethernet_hdr_t + sizeof_sr_arp_hdr_t in
      let arp_hdr :=
        mk_arp (ar_hrd rec_arp_hdr) (ar_pro rec_arp_hdr) (ar_hln rec_arp_hdr)
               (ar_pln rec_arp_hdr) arp_op_reply
               mac ip (ar_sha rec_arp_hdr) (ar_sip rec_arp_hdr) in
      let ethernet_hdr :=
        mk_eth (ether_shost rec_ethernet_hdr) mac ethertype_arp in
      Some [SendArp (mk_arp_frame ethernet_hdr arp_hdr) len interface]
  end.

(** [sr_send_arp_req]; [None] stands for the null dereference of an empty
    packet list or of an unknown interface. *)
Definition sr_send_arp_req (sr : sr_instance) (req : sr_arpreq)
  : option (list arp_effect) :=
  match packets req with
  | [] => None
  | first :: _ =>
      match sr_get_interface sr (pkt_iface first) with
      | None => None
      | Some iface =>
          let len := sizeof_sr_ethernet_hdr_t + sizeof_sr_arp_hdr_t in
          let arp_hdr :=
            mk_arp arp_hrd_ethernet ethertype_ip ETHER_ADDR_LEN 4 arp_op_request
                   (addr iface) (ip iface)
                   (repeat 0x00 (Z.to_nat ETHER_ADDR_LEN)) (req_ip req) in
          let ethernet_hdr :=
            mk_eth (repeat 0xff (Z.to_nat ETHER_ADDR_LEN)) (addr iface)
                   ethertype_arp in
          Some [SendArp (mk_arp_frame ethernet_hdr arp_hdr) len (name iface)]
      end
  end.

(** [sr_handle_arp] *)
Definition sr_handle_arp (sr : sr_instance) (packet : arp_frame) (len : Z)
           (interface : string) : option (list arp_effect) :=
  if size_t (len - sizeof_sr_ethernet_hdr_t) <? sizeof_sr_arp_hdr_t then Some []
  else
    let arp_hdr := a_arp packet in
    let ar_op := ar_op arp_hdr in
    if ar_op =? arp_op_reply then sr_handle_arp_reply sr arp_hdr interface
    else if ar_op =? arp_op_request
    then sr_send_arp_reply sr packet len interface
    else Some [].

End WithLib.

End Arp.

(* ================================================================= *)
(** * The transport, continued: [ctcp_timer] *)

Module CtcpTimer.
Import Ctcp.

(** What one turn of the loop of [ctcp_timer] does to a connection:
    it stays in [state_list], it is torn down after the FIN handshake
    ([ctcp_destroy] at the end of the turn), or it is given up after five
    retransmissions ([ctcp_destroy] at the head of the turn; the statements
    that follow in the source read the state just freed and are not
    modelled). *)
Inductive timer_outcome :=
| Running (state : ctcp_state)
| TornDown (state : ctcp_state)
| GivenUp (state : ctcp_state).

Section WithLib.
Context {lib : CtcpLib}.

(** The retransmission block of the loop body, for a connection with a
    retransmission count other than five. *)
Definition ctcp_timer_retransmit (state_walker : ctcp_state) : ctcp_state :=
  match unacked state_walker with
  | [] => state_walker
  | first_unacked_segment :: _ =>
      let rt_timeout := rt_timeout (cfg state_walker) in
      let now := current_time (conn state_walker) in
      let state_walker := call state_walker (CurrentTime now) in
      if now - last_retransmit_time state_walker >=? rt_timeout then
        let len := u16 (seg_len first_unacked_segment) in
        let state_walker :=
          call state_walker (ConnSend first_unacked_segment len) in
        let state_walker :=
          set_retransmition state_walker (u16 (retransmition state_walker + 1)) in
        let now := current_time (conn state_walker) in
        let state_walker := call state_walker (CurrentTime now) in
        set_last_retransmit_time state_walker now
      else state_walker
  end.

(** The [while] loop of the teardown block: every unoutput segment is handed
    to [conn_send]. *)
Definition ctcp_timer_flush (state_walker : ctcp_state) : ctcp_state :=
  set_unoutput
    (fold_left (fun st unoutput_segment =>
                  call st (ConnSend unoutput_segment
                                    (u16 (seg_len unoutput_segment))))
               (unoutput state_walker) state_walker)
    [].

(** The body of the loop of [ctcp_timer] for one connection. *)
Definition ctcp_timer_state (state_walker : ctcp_state) : timer_outcome :=
  if negb (length (unacked state_walker) =? 0)%nat
     && (retransmition state_walker =? 5)
  then GivenUp state_walker
  else
    let state_walker := ctcp_timer_retransmit state_walker in
    if send_fin state_walker && receive_ack_fin state_walker
       && receive_fin state_walker
    then TornDown (ctcp_timer_flush state_walker)
    else Running state_walker.

(** [ctcp_timer]: the walk over [state_list]. *)
Definition ctcp_timer (state_list : list ctcp_state) : list timer_outcome :=
  map ctcp_timer_state state_list.

(** [n] ticks of the timer on one connection, as long as it stays in the
    list. *)
Fixpoint ticks (n : nat) (state : ctcp_state) : timer_outcome :=
  match n with
  | O => Running state
  | S n' =>
      match ctcp_timer_state state with
      | Running state' => ticks n' state'
      | gone => gone
      end
  end.

End WithLib.

End CtcpTimer.

(* ================================================================= *)
(** * The congestion controller, continued: the bandwidth filter *)

Module BbrFilter.
Import Bbr.

(** The [for] loop of [bbr_update_bw] over the indices [idx]. *)
Fixpoint max_bw_loop (idx : list nat) (filter : list Z) (max_btlbw : Z)
  : list Z * Z :=
  match idx with
  | [] => (filter, max_btlbw)
  | ind_bw :: idx' =>
      let filter := array_set filter ind_bw (nth (ind_bw + 1) filter 0) in
      let max_btlbw :=
        if max_btlbw <? nth ind_bw filter 0 then nth ind_bw filter 0
        else max_btlbw in
      max_bw_loop idx' filter max_btlbw
  end.

(** [bbr_update_bw]; [now] is what [current_time()] returns. *)
Definition bbr_update_bw (bbr : bbr_state) (bw_sample : Z) (now : Z) : bbr_state :=
  (* BBR_BW_RTTS - 1 expands to CYCLE_LEN + 2 - 1 *)
  let '(filter, max_bw) :=
    max_bw_loop (seq 0 (Z.to_nat (CYCLE_LEN + 2 - 1))) (BtlBwFilter bbr) bw_sample in
  let filter := array_set filter (Z.to_nat (CYCLE_LEN + 2 - 1)) bw_sample in
  mk_bbr (pacing_gain bbr) (cwnd_gain bbr) (mode bbr) max_bw now
         (min_rtt_us bbr) (min_rtt_stamp bbr) (pacing_rate bbr) (cwnd bbr)
         filter (RTpropFilter bbr) (cycle_idx bbr) (full_bw bbr)
         (full_bw_cnt bbr) (inflight bbr) (probe_rtt_done_stamp bbr)
         (restore_cwnd bbr) (prior_cwnd bbr) (delivered_time bbr)
         (delivered bbr) (next_send_time bbr).

(** [bbr_bw] and [bbr_rtt] *)
Definition bbr_bw (bbr : bbr_state) : Z := max_btlbw bbr.
Definition bbr_rtt (bbr : bbr_state) : Z := min_rtt_us bbr.

End BbrFilter.

(* ================================================================= *)
(** * Vocabulary of the statements and concrete scenarios *)

Section RouterVocabulary.
Import Router.

(** Entry [r] matches destination [dst]. *)
Definition matches (dst : Z) (r : sr_rt) : Prop := Z.land (mask r) dst = dest r.

(** Masks are [uint32_t] words. *)
Definition masks_unsigned (t : list sr_rt) : Prop :=
  Forall (fun r => 0 <= mask r) t.

(** The accumulators of the scan: nothing selected yet, or the selected
    entry together with its mask. *)
Definition scan_acc (best : option sr_rt) (m : Z) : Prop :=
  match best with
  | None => m = 0
  | Some b => m = mask b /\ 0 <= m
  end.

(** The frame passes the length and checksum tests of [sr_handle_ip]. *)
Definition ip_accepted {lib : RouterLib} (packet : frame) (len : Z) : Prop :=
  sizeof_sr_ip_hdr_t <= size_t (len - sizeof_sr_ethernet_hdr_t)
  /\ ip_sum (iph packet) = cksum (ip_bytes (set_ip_sum (iph packet) 0)).

(** The destination is one of the router's interface addresses. *)
Definition for_me (sr : sr_instance) (packet : frame) : Prop :=
  exists i, In i (if_list sr) /\ ip i = ip_dst (iph packet).

(** The buffer of a transit packet when the route is looked up: TTL
    decremented and header checksum recomputed. *)
Definition transit_packet {lib : RouterLib} (packet : frame) : frame :=
  let ip_hdr := set_ip_ttl (iph packet) (u8 (ip_ttl (iph packet) - 1)) in
  let ip_hdr := set_ip_sum ip_hdr 0 in
  set_iph packet (set_ip_sum ip_hdr (cksum (ip_bytes ip_hdr))).

(** The next hop as the specification words it: the gateway of the route,
    or the destination of the packet when the gateway is zero. *)
Definition spec_next_hop (out_rt : sr_rt) (packet : frame) : Z :=
  if gw out_rt =? 0 then ip_dst (iph packet) else gw out_rt.

(** The raw [s_addr] word of the address [a.b.c.d] on a little-endian host. *)
Definition ipv4 (a b c d : Z) : Z := a + b * 2 ^ 8 + c * 2 ^ 16 + d * 2 ^ 24.

(** Modelled from the spec: [cksum] of [sr_utils.c], which is not part of the
    sources, as the one's-complement sum of the 16-bit words of the buffer.
    It only serves to run the model on concrete frames. *)
Fixpoint sum16 (l : list Z) : Z :=
  match l with
  | hi :: lo :: rest => hi * 2 ^ 8 + lo + sum16 rest
  | [hi] => hi * 2 ^ 8
  | [] => 0
  end.

Definition fold16 (s : Z) : Z := s / 2 ^ 16 + s mod 2 ^ 16.

Definition inet_cksum (l : list Z) : Z :=
  let c := 2 ^ 16 - 1 - fold16 (fold16 (u32 (sum16 l))) in
  if c =? 0 then 0xffff else c.

(** Modelled from the spec: [sr_get_interface] of [sr_if.c] and
    [sr_arpcache_lookup] of [sr_arpcache.c], which are not part of the
    sources: the interface of that name, and the cached entry for an address
    (here for a cache whose entries are all fresh). *)
Definition lib_with_cache (cache : list sr_arpentry) : RouterLib :=
  {| cksum := inet_cksum;
     sr_get_interface := fun sr n =>
       find (fun i => String.eqb (name i) n) (if_list sr);
     sr_arpcache_lookup := fun _ a => find (fun e => arp_ip e =? a) cache |}.

(** A router with two interfaces. *)
Definition eth0 : sr_if := mk_if "eth0" [0xbb; 0; 0; 0; 0; 1] (ipv4 10 0 1 1).
Definition eth1 : sr_if := mk_if "eth1" [0xbb; 0; 0; 0; 0; 2] (ipv4 10 0 2 1).

Definition finish_ip (h : sr_ip_hdr) : sr_ip_hdr :=
  set_ip_sum h (inet_cksum (ip_bytes (set_ip_sum h 0))).

(** Scenario 1: an Echo Request from 10.0.1.2 to the interface 10.0.1.1. *)
Definition echo_sr : sr_instance :=
  mk_sr [eth0; eth1]
        [mk_rt (ipv4 192 168 2 0) (ipv4 10 0 2 254) (ipv4 255 255 255 0) "eth1"].

Definition echo_request : frame :=
  mk_frame (mk_eth [0xbb; 0; 0; 0; 0; 1] [0xaa; 0; 0; 0; 0; 1] ethertype_ip)
           (finish_ip (mk_ip 5 4 0 36 7 0 64 ip_protocol_icmp 0
                             (ipv4 10 0 1 2) (ipv4 10 0 1 1)))
           [8; 0; 0xf7; 0xfd; 0; 1; 0; 1; 1; 2; 3; 4; 5; 6; 7; 8].

(** An ICMP message of another type (3, Destination Unreachable) addressed
    to the same interface. *)
Definition icmp_error_to_router : frame :=
  mk_frame (eth echo_request) (iph echo_request)
           [3; 1; 0; 0; 0; 0; 0; 0; 1; 2; 3; 4; 5; 6; 7; 8].

(** A routing table whose route to 192.168.2.0/24 names no gateway, and a
    transit packet for 192.168.2.5. *)
Definition direct_route : sr_rt :=
  mk_rt (ipv4 192 168 2 0) 0 (ipv4 255 255 255 0) "eth1".

Definition direct_sr : sr_instance := mk_sr [eth0; eth1] [direct_route].

Definition transit_frame : frame :=
  mk_frame (mk_eth [0xbb; 0; 0; 0; 0; 1] [0xaa; 0; 0; 0; 0; 1] ethertype_ip)
           (finish_ip (mk_ip 5 4 0 36 9 0 64 17 0
                             (ipv4 10 0 1 2) (ipv4 192 168 2 5)))
           [0; 53; 0; 53; 0; 16; 0; 0; 1; 2; 3; 4; 5; 6; 7; 8].

(** Scenario 2: the same destination behind the gateway 10.0.2.254. *)
Definition gateway_route : sr_rt :=
  mk_rt (ipv4 192 168 2 0) (ipv4 10 0 2 254) (ipv4 255 255 255 0) "eth1".

Definition gateway_sr : sr_instance := mk_sr [eth0; eth1] [gateway_route].

(** Two default routes. *)
Definition default_a : sr_rt := mk_rt 0 (ipv4 10 0 1 254) 0 "eth0".
Definition default_b : sr_rt := mk_rt 0 (ipv4 10 0 2 254) 0 "eth1".
Definition two_defaults_sr : sr_instance := mk_sr [eth0; eth1] [default_a; default_b].

(** Two routes to the same /24. *)
Definition tie_a : sr_rt :=
  mk_rt (ipv4 192 168 2 0) (ipv4 10 0 1 254) (ipv4 255 255 255 0) "eth0".
Definition tie_b : sr_rt :=
  mk_rt (ipv4 192 168 2 0) (ipv4 10 0 2 254) (ipv4 255 255 255 0) "eth1".
Definition two_ties_sr : sr_instance := mk_sr [eth0; eth1] [tie_a; tie_b].

End RouterVocabulary.

Section CtcpVocabulary.
Import Ctcp.

(** Payload length of a segment: its length field less the header. *)
Definition data_len (g : ctcp_segment) : Z := seg_len g - sizeof_ctcp_segment_t.

(** Bytes in flight as the specification words them:
    (last.seqno + last.data_len) - first.seqno, and 0 for an empty queue. *)
Definition spec_bytes_in_flight (q : list ctcp_segment) : Z :=
  match q with
  | [] => 0
  | first :: _ =>
      let back := last q first in
      (seg_seqno back + data_len back) - seg_seqno first
  end.

(** The segments handed to [conn_send], the buffers handed to [conn_output],
    and the bytes the sink has received, in the order of the calls. *)
Fixpoint sent_segments (h : list io_event) : list ctcp_segment :=
  match h with
  | [] => []
  | ConnSend g _ :: h' => g :: sent_segments h'
  | _ :: h' => sent_segments h'
  end.

Fixpoint output_writes (h : list io_event) : list (list Z) :=
  match h with
  | [] => []
  | ConnOutput buf :: h' => buf :: output_writes h'
  | _ :: h' => output_writes h'
  end.

Definition delivered_bytes (h : list io_event) : list Z :=
  concat (output_writes h).

(** A pure ACK carrying [ack]: header only, ACK as its only flag. *)
Definition pure_ack (g : ctcp_segment) (ack : Z) : Prop :=
  seg_ackno g = ack /\ seg_flags g = ACK
  /\ seg_len g = sizeof_ctcp_segment_t /\ seg_data g = [].

(** The segment reaches the ACK block of [ctcp_receive]: it is neither
    corrupted, nor answered as stale, nor as a duplicate. *)
Definition reaches_ack_block {lib : CtcpLib} (state : ctcp_state)
           (segment : ctcp_segment) : Prop :=
  corrupted segment = false
  /\ (seg_seqno segment <? ackno state) && (has_payload segment || has_fin segment) = false
  /\ duplicate_in_unoutput state segment = false.

(** The fields [ctcp_output] leaves alone. *)
Definition same_sender (s s' : ctcp_state) : Prop :=
  cfg s' = cfg s /\ seqno s' = seqno s /\ unacked s' = unacked s
  /\ send_fin s' = send_fin s /\ receive_fin s' = receive_fin s
  /\ receive_ack_fin s' = receive_ack_fin s
  /\ retransmition s' = retransmition s
  /\ last_retransmit_time s' = last_retransmit_time s.

Definition be32 (v : Z) : list Z :=
  [(v / 2 ^ 24) mod 2 ^ 8; (v / 2 ^ 16) mod 2 ^ 8; (v / 2 ^ 8) mod 2 ^ 8; v mod 2 ^ 8].

(** Modelled from the spec: the wire format of a segment (seqno, ackno, len,
    flags, window, checksum, payload, all in network byte order) and the
    checksum of [ctcp_utils.h], which is not part of the sources, as the
    one's-complement 16-bit sum of the first [len] bytes.  It only serves to
    run the model on concrete segments. *)
Definition seg_bytes (g : ctcp_segment) : list Z :=
  be32 (seg_seqno g) ++ be32 (seg_ackno g) ++ be16 (seg_len g)
  ++ be32 (seg_flags g) ++ be16 (seg_window g) ++ be16 (seg_cksum g)
  ++ seg_data g.

Definition seg_cksum_model (g : ctcp_segment) (len : Z) : Z :=
  inet_cksum (firstn (Z.to_nat len) (seg_bytes g)).

Fixpoint written (h : list io_event) : Z :=
  match h with
  | [] => 0
  | ConnOutput buf :: h' => Z.of_nat (List.length buf) + written h'
  | _ :: h' => written h'
  end.

(** Modelled from the spec: a substrate for concrete runs.  The sink has
    room for [cap] bytes and is not drained during the run; the application
    always has [chunk] bytes to send; the clock advances by one millisecond
    with every call on the connection. *)
Definition sink_lib (cap : Z) (chunk : list Z) : CtcpLib :=
  {| cksum := seg_cksum_model;
     conn_bufspace := fun h => Z.max 0 (cap - written h);
     conn_input := fun _ _ => (Z.of_nat (List.length chunk), chunk);
     current_time := fun h => Z.of_nat (List.length h) |}.

(** Fill in the checksum of a segment. *)
Definition seal (g : ctcp_segment) : ctcp_segment :=
  set_seg_cksum g (seg_cksum_model (set_seg_cksum g 0) (seg_len g)).

Definition test_cfg (send_win : Z) : ctcp_config := mk_cfg 1440 send_win 40 200.

(** Two consecutive data segments of ten bytes from the peer. *)
Definition seg_a : ctcp_segment :=
  seal (mk_seg 1 1 30 ACK 1440 0 [1; 2; 3; 4; 5; 6; 7; 8; 9; 10]).
Definition seg_b : ctcp_segment :=
  seal (mk_seg 11 1 30 ACK 1440 0 [11; 12; 13; 14; 15; 16; 17; 18; 19; 20]).

(** Our own data segment of ten bytes and the FIN that follows it. *)
Definition own_data : ctcp_segment :=
  seal (mk_seg 1 1 30 ACK 1440 0 [65; 66; 67; 68; 69; 70; 71; 72; 73; 74]).
Definition own_fin : ctcp_segment := seal (mk_seg 11 1 20 FIN 1440 0 []).

(** We have sent ten bytes and received ten; an old pure ACK of the peer,
    sent before its data, now arrives with seqno 1. *)
Definition state_after_exchange : ctcp_state :=
  mk_state [] (test_cfg 1440) 11 11 0 0 false false false [own_data] [].
Definition late_pure_ack : ctcp_segment := seal (mk_seg 1 11 20 ACK 1440 0 []).

(** We have sent ten bytes and then our FIN (seqno 11); the peer
    acknowledges the data only (ackno 11). *)
Definition state_fin_sent : ctcp_state :=
  mk_state [] (test_cfg 1440) 12 1 0 0 true false false [own_data; own_fin] [].
Definition ack_of_data_only : ctcp_segment := seal (mk_seg 1 11 20 ACK 1440 0 []).

(** Insertion into a list ordered by seqno, as the specification words step
    6 of the receive pipeline ("maintain ascending-seqno order"). *)
Fixpoint insert_by_seqno (g : ctcp_segment) (q : list ctcp_segment)
  : list ctcp_segment :=
  match q with
  | [] => [g]
  | x :: q' =>
      if seg_seqno g <? seg_seqno x then g :: q else x :: insert_by_seqno g q'
  end.

(** The seqnos of [q] are strictly increasing. *)
Fixpoint ascending (q : list ctcp_segment) : Prop :=
  match q with
  | [] => True
  | x :: q' => Forall (fun y => seg_seqno x < seg_seqno y) q' /\ ascending q'
  end.

(** The length field of a segment agrees with the payload it carries. *)
Definition payload_ok (g : ctcp_segment) : Prop :=
  sizeof_ctcp_segment_t <= seg_len g < 2 ^ 16
  /\ Z.of_nat (length (seg_data g)) = data_len g.

(** The sequence number that follows segment [g] received at [a]: a FIN
    takes one sequence number. *)
Definition advance (a : Z) (g : ctcp_segment) : Z :=
  a + data_len g + (if has_fin g then 1 else 0).

(** [l] is a contiguous stream that starts at sequence number [a]: every
    segment begins where its predecessor ends, and carries payload or FIN. *)
Fixpoint chained (a : Z) (l : list ctcp_segment) : Prop :=
  match l with
  | [] => True
  | g :: l' =>
      seg_seqno g = a /\ payload_ok g
      /\ has_payload g || has_fin g = true
      /\ chained (advance a g) l'
  end.

Fixpoint end_ackno (a : Z) (l : list ctcp_segment) : Z :=
  match l with
  | [] => a
  | g :: l' => end_ackno (advance a g) l'
  end.

(** The state after one turn of the loop of [ctcp_output] has delivered the
    head segment [g], for sequence numbers that do not wrap. *)
Definition delivered_one {lib : CtcpLib} (state : ctcp_state) (g : ctcp_segment)
  : ctcp_state :=
  let state := call state (ConnBufspace (conn_bufspace (conn state))) in
  let state := call state (ConnOutput (seg_data g)) in
  let state := set_ackno state (ackno state + data_len g) in
  if has_fin g then call (set_ackno state (ackno state + 1)) (ConnOutput [])
  else state.

(** The sink always has room for a whole segment. *)
Definition roomy {lib : CtcpLib} : Prop := forall h, 2 ^ 16 <= conn_bufspace h.

(** The segments of [l] are received one after the other. *)
Definition receive_all {lib : CtcpLib} (state : ctcp_state)
           (l : list ctcp_segment) : ctcp_state :=
  fold_left (fun st g => ctcp_receive st g (seg_len g)) l state.

(** The seqno of [g] is among [recv]. *)
Definition mem_seqno (recv : list Z) (g : ctcp_segment) : bool :=
  existsb (Z.eqb (seg_seqno g)) recv.

(** The receiver in the middle of the stream [segs], which started at
    sequence number [a0] when the sink held [d0]: the segments of [done]
    have been delivered, and of those that follow the received ones wait in
    the unoutput queue, the first of them not being received yet.  [recv]
    holds the seqnos received so far. *)
Definition pipeline_inv (a0 : Z) (d0 : list Z) (segs : list ctcp_segment)
           (recv : list Z) (state : ctcp_state) : Prop :=
  exists done rest,
    segs = done ++ rest
    /\ ackno state = end_ackno a0 done
    /\ delivered_bytes (conn state) = d0 ++ concat (map seg_data done)
    /\ (forall g, In g done -> mem_seqno recv g = true)
    /\ unoutput state = filter (mem_seqno recv) rest
    /\ match rest with
       | [] => True
       | g :: _ => mem_seqno recv g = false
       end.

(** Modelled from the spec: a substrate whose sink is drained between the
    calls and always reports room for 65536 bytes. *)
Definition roomy_lib : CtcpLib :=
  {| cksum := seg_cksum_model;
     conn_bufspace := fun _ => 2 ^ 16;
     conn_input := fun _ _ => (0, []);
     current_time := fun h => Z.of_nat (length h) |}.

(** Scenario 5: three segments of 1440 bytes with seqnos 1, 1441, 2881. *)
Definition seg_1 : ctcp_segment := seal (mk_seg 1 1 1460 ACK 1440 0 (repeat 1 1440)).
Definition seg_1441 : ctcp_segment :=
  seal (mk_seg 1441 1 1460 ACK 1440 0 (repeat 2 1440)).
Definition seg_2881 : ctcp_segment :=
  seal (mk_seg 2881 1 1460 ACK 1440 0 (repeat 3 1440)).

(** A sender with a window of 65000 bytes whose application always has a
    full segment to send, after [n] calls of [ctcp_read]. *)
Definition full_chunk : list Z := repeat 7 1440.

Fixpoint read_n (n : nat) (state : ctcp_state) : ctcp_state :=
  match n with
  | O => state
  | S n' => ctcp_read (lib := sink_lib 0 full_chunk) (read_n n' state)
  end.

End CtcpVocabulary.

Section BbrVocabulary.
Import Bbr.

(** A controller in STARTUP, as [bbr_init] sets the fields these functions
    read: minimal RTT 40, RTT filter filled with 0x7FFFFFFF, cwnd 4. *)
Definition startup_state : bbr_state :=
  mk_bbr bbr_high_gain bbr_high_gain BBR_STARTUP 10 1000 40 1000 20 4
         (repeat 0 10) (repeat 0x7FFFFFFF 10) 0 0 0 0 0 false 0 1000 0 1000.

(** A controller in PROBE_BW at phase [idx] of the gain cycle. *)
Definition probe_bw_state (idx : Z) : bbr_state :=
  mk_bbr BBR_UNIT bbr_cwnd_gain BBR_PROBE_BW 10 1000 40 1000 20 4
         (repeat 0 10) (repeat 0x7FFFFFFF 10) idx 10 3 0 0 false 0 1000 0 1000.

(** The gain cycle as the specification words it, in units of 1/4. *)
Definition spec_gain_cycle_quarters : list Z := [5; 3; 4; 4; 4; 4; 4; 4].

(** The cycle indices of [n] successive rounds in PROBE_BW. *)
Fixpoint cycle_indices (n : nat) (bbr : bbr_state) : list Z :=
  match n with
  | O => []
  | S n' =>
      let bbr := bbr_update_cycle_phase bbr 0 0 in
      cycle_idx bbr :: cycle_indices n' bbr
  end.

End BbrVocabulary.

Section FurtherRouterVocabulary.
Import Router Arp.

(** Two IP headers agree in every field but TTL and checksum. *)
Definition same_but_ttl_sum (h h' : sr_ip_hdr) : Prop :=
  ip_hl h' = ip_hl h /\ ip_v h' = ip_v h /\ ip_tos h' = ip_tos h
  /\ ip_len h' = ip_len h /\ ip_id h' = ip_id h /\ ip_off h' = ip_off h
  /\ ip_p h' = ip_p h /\ ip_src h' = ip_src h /\ ip_dst h' = ip_dst h.

(** [reply] is an ICMP message of the given type and code in the type-3
    layout, sent from the interface [rec_if] to the source of [offender],
    whose data area holds the first 28 bytes of the buffer [embedded]. *)
Definition icmp_error_for {lib : RouterLib} (reply : frame) (ty code : Z)
           (rec_if : sr_if) (offender embedded : frame) : Prop :=
  exists icmp,
    body reply = icmp_bytes icmp
    /\ icmp_type icmp = ty /\ icmp_code icmp = code
    /\ unused icmp = 0 /\ next_mtu icmp = 1500
    /\ data icmp = firstn ICMP_DATA_SIZE (ip_bytes (iph embedded) ++ body embedded)
    /\ icmp_sum icmp = cksum (icmp_bytes (set_icmp_sum icmp 0))
    /\ ether_dhost (eth reply) = ether_shost (eth offender)
    /\ ether_shost (eth reply) = addr rec_if
    /\ ip_src (iph reply) = ip rec_if
    /\ ip_dst (iph reply) = ip_src (iph offender)
    /\ ip_p (iph reply) = ip_protocol_icmp
    /\ ip_ttl (iph reply) = 60
    /\ ip_accepted reply 70.

(** Modelled from the spec: a substrate for concrete runs of the ARP path.
    The cache holds no entry, and [pending] are the requests that wait. *)
Definition arp_lib_with (pending : list sr_arpreq) : ArpLib :=
  {| arp_router_lib := lib_with_cache [];
     sr_arpcache_insert := fun _ _ a => find (fun r => req_ip r =? a) pending |}.

(** An ARP request from the host 10.0.1.2 for the address 10.0.1.77, which
    is not an address of the router. *)
Definition arp_request_for_other : arp_frame :=
  mk_arp_frame
    (mk_eth [0xff; 0xff; 0xff; 0xff; 0xff; 0xff] [0xaa; 0; 0; 0; 0; 1] ethertype_arp)
    (mk_arp arp_hrd_ethernet ethertype_ip 6 4 arp_op_request
            [0xaa; 0; 0; 0; 0; 1] (ipv4 10 0 1 2)
            [0; 0; 0; 0; 0; 0] (ipv4 10 0 1 77)).

(** An ARP reply of the gateway 10.0.2.254 to the interface eth1, and two
    packets that wait for it. *)
Definition arp_reply_from_gateway : sr_arp_hdr :=
  mk_arp arp_hrd_ethernet ethertype_ip 6 4 arp_op_reply
         [0xcc; 0; 0; 0; 0; 0xfe] (ipv4 10 0 2 254)
         [0xbb; 0; 0; 0; 0; 2] (ipv4 10 0 2 1).

Definition waiting_for_gateway : sr_arpreq :=
  mk_arpreq (ipv4 10 0 2 254)
            [mk_packet transit_frame 50 "eth1"; mk_packet echo_request 50 "eth0"].

(** A transit packet whose TTL is [ttl]. *)
Definition transit_with_ttl (ttl : Z) : frame :=
  mk_frame (eth transit_frame)
           (finish_ip (mk_ip 5 4 0 36 9 0 ttl 17 0
                             (ipv4 10 0 1 2) (ipv4 192 168 2 5)))
           (body transit_frame).

(** A UDP packet addressed to the interface 10.0.1.1 itself. *)
Definition udp_to_router : frame :=
  mk_frame (eth transit_frame)
           (finish_ip (mk_ip 5 4 0 36 9 0 64 17 0
                             (ipv4 10 0 1 2) (ipv4 10 0 1 1)))
           (body transit_frame).

(** A router that has no route at all. *)
Definition routeless_sr : sr_instance := mk_sr [eth0; eth1] [].

(** The gateway 10.0.2.254 is in the cache. *)
Definition gateway_entry : sr_arpentry :=
  mk_arpentry [0xcc; 0; 0; 0; 0; 0xfe] (ipv4 10 0 2 254).

(** A default route in front of a route to 192.168.2.0/24 and a second
    default route. *)
Definition layered_sr : sr_instance :=
  mk_sr [eth0; eth1] [default_a; tie_b; default_b].

End FurtherRouterVocabulary.

Section FurtherCtcpVocabulary.
Import Ctcp CtcpTimer.

(** Every segment the events [h] hand to [conn_send] passes the receiver's
    checksum test and is sent with the length its header states. *)
Definition sends_ok {lib : CtcpLib} (h : list io_event) : Prop :=
  Forall (fun e => match e with
                   | ConnSend g l => corrupted g = false /\ l = seg_len g
                   | _ => True
                   end) h.

(** The queue [q] is a contiguous stream that ends at sequence number [s]. *)
Definition stream_ok (q : list ctcp_segment) (s : Z) : Prop :=
  match q with
  | [] => True
  | first :: _ =>
      chained (seg_seqno first) q /\ end_ackno (seg_seqno first) q = s
  end.

(** The unacked queue is a contiguous stream that ends at the next sequence
    number to assign. *)
Definition sender_inv (state : ctcp_state) : Prop :=
  stream_ok (unacked state) (seqno state).

(** What [conn_input] answers on the history [h]: nothing, end of file, or
    [n] bytes that fit a segment. *)
Definition input_ok {lib : CtcpLib} (h : list io_event) : Prop :=
  let '(n, buf) := conn_input h MAX_SEG_DATA_SIZE in
  n = 0 \/ n = -1
  \/ (0 < n <= MAX_SEG_DATA_SIZE /\ n <= Z.of_nat (length buf)).

(** The state a timer outcome carries. *)
Definition outcome_state (o : timer_outcome) : ctcp_state :=
  match o with
  | Running s | TornDown s | GivenUp s => s
  end.

(** All three conditions of the teardown hold. *)
Definition handshake_done (state : ctcp_state) : bool :=
  send_fin state && receive_ack_fin state && receive_fin state.

(** A bare FIN of the peer, in sequence for a fresh receiver. *)
Definition peer_fin : ctcp_segment := seal (mk_seg 1 1 20 FIN 1440 0 []).

(** A sender that has ten bytes unacknowledged and retransmits after 1 ms. *)
Definition state_unacked : ctcp_state :=
  mk_state [] (mk_cfg 1440 1440 40 1) 11 1 0 0 false false false [own_data] [].

(** Both sides have closed, and the segment 11..20 still waits behind a gap
    in the unoutput queue. *)
Definition state_closing : ctcp_state :=
  mk_state [] (test_cfg 1440) 12 2 0 0 true true true [] [seg_b].

(** Ten bytes to send. *)
Definition small_chunk : list Z := [65; 66; 67; 68; 69; 70; 71; 72; 73; 74].

(** Modelled from the spec: a substrate whose sink always has room and whose
    application has the ten bytes of [small_chunk] to send. *)
Definition loop_lib : CtcpLib :=
  {| cksum := seg_cksum_model;
     conn_bufspace := fun _ => 2 ^ 16;
     conn_input := fun _ _ => (10, small_chunk);
     current_time := fun h => Z.of_nat (length h) |}.

(** What the loop of [ctcp_output] hands to [conn_output] for one segment:
    the payload, as long as the length field says, and a second, empty
    buffer for a FIN. *)
Definition segment_writes (g : ctcp_segment) : list (list Z) :=
  firstn (Z.to_nat (u16 (size_t (seg_len g - sizeof_ctcp_segment_t)))) (seg_data g)
  :: (if has_fin g then [[]] else []).

(** A copy of [seg_b] whose checksum field was cleared on the way. *)
Definition garbled : ctcp_segment := set_seg_cksum seg_b 0.

(** The segment of the peer that follows [seg_b], and a receiver that holds
    it while it still waits for the first byte. *)
Definition seg_c : ctcp_segment :=
  seal (mk_seg 21 1 30 ACK 1440 0 [21; 22; 23; 24; 25; 26; 27; 28; 29; 30]).
Definition state_gap : ctcp_state :=
  mk_state [] (test_cfg 1440) 1 1 0 0 false false false [] [seg_c].

(** Our second data segment of ten bytes and the FIN behind it; a sender
    that has sent both after [own_data] and has received the FIN of the
    peer, while nothing of its own is acknowledged yet. *)
Definition own_data_11 : ctcp_segment :=
  seal (mk_seg 11 1 30 ACK 1440 0 [75; 76; 77; 78; 79; 80; 81; 82; 83; 84]).
Definition own_fin_21 : ctcp_segment := seal (mk_seg 21 1 20 FIN 1440 0 []).
Definition state_both_fins : ctcp_state :=
  mk_state [] (test_cfg 1440) 22 2 0 0 true true false
           [own_data; own_data_11; own_fin_21] [].

End FurtherCtcpVocabulary.

Section FurtherBbrVocabulary.
Import Bbr BbrFilter.

(** [bbr_update_bw] for the samples of [samples] one after the other, each
    paired with the time it is taken at. *)
Definition feed_bw (bbr : bbr_state) (samples : list (Z * Z)) : bbr_state :=
  fold_left (fun b st => bbr_update_bw b (fst st) (snd st)) samples bbr.

(** [m] is the largest, or the smallest, element of [l]. *)
Definition largest_of (m : Z) (l : list Z) : Prop :=
  In m l /\ Forall (fun x => x <= m) l.
Definition smallest_of (m : Z) (l : list Z) : Prop :=
  In m l /\ Forall (fun x => m <= x) l.

(** The last ten elements of [l]. *)
Definition last_ten (l : list Z) : list Z := skipn (length l - 10) l.

(** Twelve delivery-rate samples with their times. *)
Definition bw_samples : list (Z * Z) :=
  [(90, 1); (30, 2); (31, 3); (32, 4); (75, 5); (34, 6);
   (35, 7); (36, 8); (37, 9); (38, 10); (39, 11); (40, 12)].

(** A controller in PROBE_RTT whose 200 ms ended at time 1200. *)
Definition probe_rtt_state : bbr_state :=
  mk_bbr BBR_UNIT BBR_UNIT BBR_PROBE_RTT 10 1000 40 1000 20 4
         (repeat 0 10) (repeat 0x7FFFFFFF 10) 0 10 3 0 1200 true 4 1000 0 1000.

End FurtherBbrVocabulary.

(* ================================================================= *)
(** * Properties of the router *)

Section RibProperties.
Import Router.

Lemma rt_scan_step (r : sr_rt) (t : list sr_rt) (dst : Z)
      (best : option sr_rt) (m : Z) :
  rt_scan (r :: t) dst best m =
  if (Z.land (mask r) dst =? dest r) && ((m =? 0) || (mask r >? m))
  then rt_scan t dst (Some r) (mask r)
  else rt_scan t dst best m.
Proof. reflexivity. Qed.

Ltac scan_cases r dst m :=
  rewrite rt_scan_step;
  destruct (Z.eqb_spec (Z.land (mask r) dst) (dest r));
  destruct (Z.eqb_spec m 0);
  destruct (Z.gtb_spec (mask r) m);
  cbn [andb orb].

Lemma rt_scan_selected (t : list sr_rt) (dst : Z) :
  forall b m, rt_scan t dst (Some b) m <> None.
Proof.
  induction t as [|r t IH]; intros b m; [discriminate|].
  rewrite rt_scan_step.
  destruct (_ && _); apply IH.
Qed.

Lemma rt_scan_none (t : list sr_rt) (dst : Z) :
  rt_scan t dst None 0 = None <-> Forall (fun r => ~ matches dst r) t.
Proof.
  induction t as [|r t IH].
  - simpl. split; auto.
  - rewrite rt_scan_step.
    destruct (Z.eqb_spec (Z.land (mask r) dst) (dest r)) as [Hm|Hm]; cbn.
    + split; intros H.
      * exfalso. exact (rt_scan_selected _ _ _ _ H).
      * inversion H; subst. contradiction.
    + rewrite IH. split; intros H.
      * constructor; assumption.
      * inversion H; assumption.
Qed.

Lemma rt_scan_longest (t : list sr_rt) (dst : Z) (e : sr_rt) :
  masks_unsigned t ->
  forall best m, scan_acc best m ->
  rt_scan t dst best m = Some e ->
  (best = Some e \/ (In e t /\ matches dst e))
  /\ m <= mask e
  /\ (forall e', In e' t -> matches dst e' -> mask e' <= mask e).
Proof.
  intros Hwf. induction Hwf as [|r t Hr Hwf IH]; intros best m Hacc Hres.
  - simpl in Hres. subst best. simpl in Hacc.
    split; [auto|]. split; [lia|]. intros e' [].
  - revert Hres. scan_cases r dst m; intros Hres;
      try (apply IH in Hres; [|simpl; lia]);
      try (apply IH in Hres; [|assumption]);
      destruct Hres as (Hin & Hle & Hmax);
      (split; [|split]);
      try lia;
      try (destruct Hin as [Hin|[Hin Hme]];
           [ first [ left; assumption
                   | injection Hin as <-; right; split; [left; reflexivity | assumption] ]
           | right; split; [right; assumption | assumption] ]);
      try (intros e' [<-|Hin'] Hme'; [ try lia; try contradiction | apply Hmax; assumption ]).
Qed.

Lemma rt_scan_keeps_tie (t : list sr_rt) (dst : Z) (e : sr_rt) :
  masks_unsigned t ->
  forall b m, scan_acc (Some b) m -> 0 < m ->
  rt_scan t dst (Some b) m = Some e -> mask e = m -> e = b.
Proof.
  intros Hwf. induction Hwf as [|r t Hr Hwf IH]; intros b m Hacc Hpos Hres Heq.
  - simpl in Hres. congruence.
  - revert Hres. scan_cases r dst m; intros Hres; try lia;
      try (eapply IH; eassumption).
    apply rt_scan_longest in Hres; [|assumption|simpl; lia]. lia.
Qed.

Lemma rt_scan_first_of_tie (t : list sr_rt) (dst : Z) (e : sr_rt) :
  masks_unsigned t ->
  forall best m, scan_acc best m -> 0 <= m ->
  rt_scan t dst best m = Some e -> m < mask e ->
  exists pre post, t = pre ++ e :: post
    /\ forall e', In e' pre -> matches dst e' -> mask e' < mask e.
Proof.
  intros Hwf. induction Hwf as [|r t Hr Hwf IH]; intros best m Hacc Hm Hres Hlt.
  - simpl in Hres. subst best. simpl in Hacc. lia.
  - assert (Hcons : forall best' m', scan_acc best' m' -> 0 <= m' ->
              rt_scan t dst best' m' = Some e -> m' < mask e ->
              (matches dst r -> mask r < mask e) ->
              exists pre post, r :: t = pre ++ e :: post
                /\ forall e', In e' pre -> matches dst e' -> mask e' < mask e).
    { intros best' m' Ha Hm' Hr' Hlt' Hrm.
      destruct (IH _ _ Ha Hm' Hr' Hlt') as (pre & post & -> & Hpre).
      exists (r :: pre), post. split; [reflexivity|].
      intros e' [<-|Hin]; auto. }
    assert (Hsel : rt_scan t dst (Some r) (mask r) = Some e ->
              exists pre post, r :: t = pre ++ e :: post
                /\ forall e', In e' pre -> matches dst e' -> mask e' < mask e).
    { intros Hr'.
      pose proof (rt_scan_longest _ _ _ Hwf (Some r) (mask r) (conj eq_refl Hr) Hr') as (_ & Hle & _).
      destruct (Z.eq_dec (mask e) (mask r)) as [Heq|Hne].
      - assert (e = r) as ->.
        { eapply rt_scan_keeps_tie; try eassumption; simpl; try lia. }
        exists [], t. split; [reflexivity|]. intros e' [].
      - apply (Hcons (Some r) (mask r)); simpl; auto; lia. }
    revert Hres. scan_cases r dst m; intros Hres;
      try (apply Hsel; assumption);
      try (apply (Hcons best m); auto; intros; try contradiction; lia).
Qed.

Lemma rt_scan_last_of_zero (t : list sr_rt) (dst : Z) (e : sr_rt) :
  masks_unsigned t ->
  forall best, scan_acc best 0 ->
  rt_scan t dst best 0 = Some e -> mask e = 0 ->
  (best = Some e /\ Forall (fun r => ~ matches dst r) t)
  \/ exists pre post, t = pre ++ e :: post
       /\ Forall (fun r => ~ matches dst r) post.
Proof.
  intros Hwf. induction Hwf as [|r t Hr Hwf IH]; intros best Hacc Hres Hz.
  - simpl in Hres. left. auto.
  - rewrite rt_scan_step in Hres. change (0 =? 0) with true in Hres.
    rewrite orb_true_l, andb_true_r in Hres.
    destruct (Z.eqb_spec (Z.land (mask r) dst) (dest r)) as [Hm|Hm].
    + right.
      pose proof (rt_scan_longest _ _ _ Hwf (Some r) (mask r) (conj eq_refl Hr) Hres) as (_ & Hle & _).
      assert (Hr0 : mask r = 0) by lia.
      rewrite Hr0 in Hres.
      destruct (IH (Some r)) as [[Hb HF]|(pre & post & -> & HF)];
        [simpl; lia | assumption | assumption | |].
      * injection Hb as <-. exists [], t. auto.
      * exists (r :: pre), post. auto.
    + destruct (IH best Hacc Hres Hz) as [[Hb HF]|(pre & post & -> & HF)].
      * left. split; [assumption|]. constructor; assumption.
      * right. exists (r :: pre), post. auto.
Qed.

(** [sr_rt_for_dst] returns a matching entry of largest mask, or nothing when
    no entry matches. *)
Lemma sr_rt_for_dst_longest_match (sr : sr_instance) (dst : Z) :
  masks_unsigned (routing_table sr) ->
  match sr_rt_for_dst sr dst with
  | None => Forall (fun r => ~ matches dst r) (routing_table sr)
  | Some e =>
      In e (routing_table sr) /\ matches dst e
      /\ forall e', In e' (routing_table sr) -> matches dst e' -> mask e' <= mask e
  end.
Proof.
  intros Hwf. unfold sr_rt_for_dst.
  destruct (rt_scan (routing_table sr) dst None 0) as [e|] eqn:Hres.
  - destruct (rt_scan_longest _ _ _ Hwf None 0 eq_refl Hres) as ([Hb|[Hin Hm]] & _ & Hmax);
      [discriminate|]. auto.
  - apply rt_scan_none. assumption.
Qed.

(** Among matching entries that tie on a largest mask other than zero, the
    lookup returns the first of the table. *)
Lemma sr_rt_for_dst_first_of_nonzero_tie (sr : sr_instance) (dst : Z) (e : sr_rt) :
  masks_unsigned (routing_table sr) ->
  sr_rt_for_dst sr dst = Some e -> 0 < mask e ->
  exists pre post, routing_table sr = pre ++ e :: post
    /\ forall e', In e' pre -> matches dst e' -> mask e' < mask e.
Proof.
  intros Hwf Hres Hpos.
  eapply (rt_scan_first_of_tie _ _ _ Hwf None 0); simpl; auto; lia.
Qed.

(** When the largest matching mask is zero, the lookup returns the last
    matching entry of the table. *)
Lemma sr_rt_for_dst_last_of_zero_tie (sr : sr_instance) (dst : Z) (e : sr_rt) :
  masks_unsigned (routing_table sr) ->
  sr_rt_for_dst sr dst = Some e -> mask e = 0 ->
  exists pre post, routing_table sr = pre ++ e :: post
    /\ Forall (fun r => ~ matches dst r) post.
Proof.
  intros Hwf Hres Hz.
  destruct (rt_scan_last_of_zero _ _ _ Hwf None eq_refl Hres Hz)
    as [[Hb _]|H]; [discriminate | exact H].
Qed.

End RibProperties.

Section IpProperties.
Import Router.
Context {lib : RouterLib}.

Lemma for_me_existsb (sr : sr_instance) (packet : frame) :
  for_me sr packet <->
  existsb (fun i => ip i =? ip_dst (iph packet)) (if_list sr) = true.
Proof.
  unfold for_me. rewrite existsb_exists.
  split; intros (i & Hin & Hi); exists i; split; auto.
  - apply Z.eqb_eq; assumption.
  - apply Z.eqb_eq; assumption.
Qed.

(** What [sr_handle_ip] does with an accepted frame addressed to the router
    itself. *)
Lemma sr_handle_ip_local (sr : sr_instance) (packet : frame) (len : Z)
      (interface : string) :
  ip_accepted packet len -> for_me sr packet ->
  sr_handle_ip sr packet len interface =
  if ip_p (iph packet) =? ip_protocol_icmp
  then sr_send_icmp sr packet 0 0 interface
  else sr_send_icmp_t3 sr packet 3 3 interface.
Proof.
  intros [Hlen Hsum] Hme. unfold sr_handle_ip.
  destruct (Z.ltb_spec (size_t (len - sizeof_sr_ethernet_hdr_t)) sizeof_sr_ip_hdr_t);
    [lia|].
  rewrite <- Hsum, Z.eqb_refl. cbn [negb].
  apply for_me_existsb in Hme. rewrite Hme. reflexivity.
Qed.


End IpProperties.

Section RouterClaims.
Import Router.

(** C2 (defect in the code).  The lookup returns a matching entry of largest
    mask and keeps the first entry among nonzero ties (see
    [sr_rt_for_dst_longest_match] and [sr_rt_for_dst_first_of_nonzero_tie]),
    but [longest_mask == 0] also stands for "nothing selected yet": of two
    default routes, which tie on the mask zero, the lookup returns the one
    inserted last, whereas of two routes that tie on 255.255.255.0 it
    returns the one inserted first. *)
Theorem sr_rt_for_dst_zero_mask_tie_returns_last :
  routing_table two_defaults_sr = [default_a; default_b]
  /\ matches (ipv4 8 8 8 8) default_a /\ matches (ipv4 8 8 8 8) default_b
  /\ mask default_a = mask default_b
  /\ default_a <> default_b
  /\ sr_rt_for_dst two_defaults_sr (ipv4 8 8 8 8) = Some default_b
  /\ sr_rt_for_dst two_ties_sr (ipv4 192 168 2 5) = Some tie_a.
Proof.
  repeat split; try reflexivity.
  intros H. discriminate H.
Qed.

(** C3 (amended).  For a transit packet with a route, the address looked up
    in the ARP cache is the gateway of the selected route, whatever its
    value, and on a miss the packet is queued under that same gateway
    address; on a hit the frame leaves through the route's interface. *)
Theorem sr_handle_ip_next_hop_is_gateway
        {lib : RouterLib} (sr : sr_instance) (packet : frame) (len : Z)
        (interface : string) (out_rt : sr_rt) :
  ip_accepted packet len ->
  ~ for_me sr packet ->
  u8 (ip_ttl (iph packet) - 1) <> 0 ->
  sr_rt_for_dst sr (ip_dst (iph packet)) = Some out_rt ->
  (sr_arpcache_lookup sr (gw out_rt) = None ->
   sr_handle_ip sr packet len interface =
   Some [ArpLookup (gw out_rt);
         QueueReq (gw out_rt) (transit_packet packet) len (Router.interface out_rt)])
  /\ (forall entry if_entry,
        sr_arpcache_lookup sr (gw out_rt) = Some entry ->
        sr_get_interface sr (Router.interface out_rt) = Some if_entry ->
        sr_handle_ip sr packet len interface =
        Some [ArpLookup (gw out_rt);
              SendPacket
                (set_eth (transit_packet packet)
                         (mk_eth (arp_mac entry) (addr if_entry)
                                 (ether_type (eth packet))))
                len (Router.interface out_rt)]).
Proof.
  intros [Hlen Hsum] Hme Httl Hrt.
  assert (Hrun : sr_handle_ip sr packet len interface =
    match sr_arpcache_lookup sr (gw out_rt) with
    | Some entry =>
        match sr_get_interface sr (Router.interface out_rt) with
        | None => None
        | Some if_entry =>
            Some [ArpLookup (gw out_rt);
                  SendPacket
                    (set_eth (transit_packet packet)
                             (mk_eth (arp_mac entry) (addr if_entry)
                                     (ether_type (eth packet))))
                    len (Router.interface out_rt)]
        end
    | None =>
        Some [ArpLookup (gw out_rt);
              QueueReq (gw out_rt) (transit_packet packet) len
                       (Router.interface out_rt)]
    end).
  { unfold sr_handle_ip.
    destruct (Z.ltb_spec (size_t (len - sizeof_sr_ethernet_hdr_t)) sizeof_sr_ip_hdr_t);
      [lia|].
    rewrite <- Hsum, Z.eqb_refl. cbn [negb].
    destruct (existsb _ (if_list sr)) eqn:Hex.
    { exfalso. apply Hme. apply for_me_existsb. exact Hex. }
    cbn [ip_ttl set_ip_ttl ip_dst set_ip_sum].
    destruct (Z.eqb_spec (u8 (ip_ttl (iph packet) - 1)) 0) as [Hz|_];
      [contradiction|].
    rewrite Hrt. reflexivity. }
  split.
  - intros Hmiss. rewrite Hrun, Hmiss. reflexivity.
  - intros entry if_entry Hhit Hif. rewrite Hrun, Hhit, Hif. reflexivity.
Qed.

Lemma sr_handle_ip_next_hop_is_gateway_witness :
  (sr_arpcache_lookup (RouterLib := lib_with_cache []) gateway_sr (gw gateway_route) = None ->
   sr_handle_ip (lib := lib_with_cache []) gateway_sr transit_frame 50 "eth0" =
   Some [ArpLookup (gw gateway_route);
         QueueReq (gw gateway_route) (transit_packet (lib := lib_with_cache []) transit_frame)
                  50 (Router.interface gateway_route)])
  /\ (forall entry if_entry,
        sr_arpcache_lookup (RouterLib := lib_with_cache []) gateway_sr (gw gateway_route) = Some entry ->
        sr_get_interface (RouterLib := lib_with_cache []) gateway_sr (Router.interface gateway_route) = Some if_entry ->
        sr_handle_ip (lib := lib_with_cache []) gateway_sr transit_frame 50 "eth0" =
        Some [ArpLookup (gw gateway_route);
              SendPacket
                (set_eth (transit_packet (lib := lib_with_cache []) transit_frame)
                         (mk_eth (arp_mac entry) (addr if_entry)
                                 (ether_type (eth transit_frame))))
                50 (Router.interface gateway_route)]).
Proof.
  apply (sr_handle_ip_next_hop_is_gateway (lib := lib_with_cache [])
           gateway_sr transit_frame 50 "eth0" gateway_route).
  - split; vm_compute; [discriminate | reflexivity].
  - intros (i & Hin & Hi). simpl in Hin.
    destruct Hin as [<-|[<-|[]]]; vm_compute in Hi; discriminate Hi.
  - vm_compute. discriminate.
  - vm_compute. reflexivity.
Defined.

(** C3 as the specification words it fails on a route without gateway: the
    code looks up, and queues under, the address 0.0.0.0 and not the
    destination 192.168.2.5 of the packet. *)
Lemma next_hop_zero_gateway_counterexample :
  sr_rt_for_dst direct_sr (ip_dst (iph transit_frame)) = Some direct_route
  /\ gw direct_route = 0
  /\ sr_handle_ip (lib := lib_with_cache []) direct_sr transit_frame 50 "eth0" =
     Some [ArpLookup 0;
           QueueReq 0 (transit_packet (lib := lib_with_cache []) transit_frame)
                    50 "eth1"]
  /\ spec_next_hop direct_route transit_frame = ipv4 192 168 2 5
  /\ spec_next_hop direct_route transit_frame <> 0.
Proof.
  repeat split; try (vm_compute; reflexivity).
  vm_compute. discriminate.
Qed.



(** C10.  Every accepted IP packet addressed to one of the router's
    interface addresses whose protocol field is ICMP, whatever its ICMP type
    and whatever follows the IP header, is answered on the inbound interface
    by one frame of 70 bytes that carries an ICMP message of type 0 and
    code 0 with its checksum computed over the message, in an IP packet of
    protocol ICMP that passes the router's own checksum test, sent to the
    Ethernet and IP source of the packet from the inbound interface.  When
    the packet has the 8 bytes of an ICMP header, the message has the 36
    bytes of the type-3 layout: bytes 4..7 are those of the packet, and the
    data are the first 28 bytes of the IP packet. *)
Theorem sr_handle_ip_any_icmp_gets_type0_reply
        {lib : RouterLib} (sr : sr_instance) (packet : frame) (len : Z)
        (interface : string) (rec_iface : sr_if) :
  ip_accepted packet len ->
  for_me sr packet ->
  ip_p (iph packet) = ip_protocol_icmp ->
  sr_get_interface sr interface = Some rec_iface ->
  exists reply icmp,
    sr_handle_ip sr packet len interface = Some [SendPacket reply 70 interface]
    /\ body reply = icmp_bytes icmp
    /\ icmp_type icmp = 0 /\ icmp_code icmp = 0
    /\ icmp_sum icmp = cksum (icmp_bytes (set_icmp_sum icmp 0))
    /\ ip_p (iph reply) = ip_protocol_icmp
    /\ ip_hl (iph reply) = 5
    /\ ip_len (iph reply) = sizeof_sr_ip_hdr_t + sizeof_sr_icmp_t3_hdr_t
    /\ ip_sum (iph reply) = cksum (ip_bytes (set_ip_sum (iph reply) 0))
    /\ ip_src (iph reply) = ip rec_iface
    /\ ip_dst (iph reply) = ip_src (iph packet)
    /\ ip_ttl (iph reply) = 60
    /\ ether_type (eth reply) = ethertype_ip
    /\ ether_dhost (eth reply) = ether_shost (eth packet)
    /\ ether_shost (eth reply) = addr rec_iface
    /\ ((8 <= List.length (body packet))%nat ->
        Z.of_nat (List.length (body reply)) = sizeof_sr_icmp_t3_hdr_t
        /\ unused icmp = get16 (body packet) 4
        /\ next_mtu icmp = get16 (body packet) 6
        /\ data icmp
           = firstn ICMP_DATA_SIZE (ip_bytes (iph packet) ++ body packet)).
Proof.
  intros Hacc Hme Hp Hif.
  rewrite (sr_handle_ip_local sr packet len interface Hacc Hme).
  rewrite Hp, Z.eqb_refl.
  unfold sr_send_icmp. rewrite Hif.
  eexists. eexists. split; [reflexivity|].
  cbn [body eth iph icmp_type icmp_code icmp_sum set_icmp_sum set_ip_sum
       ether_dhost ether_shost ether_type ip_src ip_dst ip_ttl ip_off ip_sum
       ip_hl ip_v ip_tos ip_len ip_id ip_p unused next_mtu data].
  repeat (split; [reflexivity|]).
  intros Hbody.
  split; [|repeat split].
  unfold icmp_bytes, be16.
  cbn [icmp_type icmp_code icmp_sum unused next_mtu data app List.length
       set_icmp_sum].
  rewrite length_firstn, length_app.
  change (List.length (ip_bytes (iph packet))) with 20%nat.
  unfold ICMP_DATA_SIZE, sizeof_sr_icmp_t3_hdr_t. lia.
Qed.

Lemma sr_handle_ip_any_icmp_gets_type0_reply_witness :
  nth 0 (body icmp_error_to_router) 0 = 3
  /\ exists reply icmp,
       sr_handle_ip (lib := lib_with_cache []) echo_sr icmp_error_to_router 50 "eth0"
       = Some [SendPacket reply 70 "eth0"]
       /\ body reply = icmp_bytes icmp
       /\ icmp_type icmp = 0 /\ icmp_code icmp = 0
       /\ icmp_sum icmp = inet_cksum (icmp_bytes (set_icmp_sum icmp 0))
       /\ ip_p (iph reply) = ip_protocol_icmp
       /\ ip_hl (iph reply) = 5
       /\ ip_len (iph reply) = sizeof_sr_ip_hdr_t + sizeof_sr_icmp_t3_hdr_t
       /\ ip_sum (iph reply) = inet_cksum (ip_bytes (set_ip_sum (iph reply) 0))
       /\ ip_src (iph reply) = ip eth0
       /\ ip_dst (iph reply) = ip_src (iph icmp_error_to_router)
       /\ ip_ttl (iph reply) = 60
       /\ ether_type (eth reply) = ethertype_ip
       /\ ether_dhost (eth reply) = ether_shost (eth icmp_error_to_router)
       /\ ether_shost (eth reply) = addr eth0
       /\ Z.of_nat (List.length (body reply)) = sizeof_sr_icmp_t3_hdr_t
       /\ unused icmp = get16 (body icmp_error_to_router) 4
       /\ next_mtu icmp = get16 (body icmp_error_to_router) 6
       /\ data icmp
          = firstn ICMP_DATA_SIZE
                   (ip_bytes (iph icmp_error_to_router) ++ body icmp_error_to_router).
Proof.
  split; [reflexivity|].
  destruct (sr_handle_ip_any_icmp_gets_type0_reply (lib := lib_with_cache [])
              echo_sr icmp_error_to_router 50 "eth0" eth0)
    as (reply & icmp & Hrun & Hb & Hty & Hco & Hsum & Hp & Hhl & Hlen & Hisum
        & Hsrc & Hdst & Httl & Het & Hdh & Hsh & Hfull).
  - split; vm_compute; [discriminate | reflexivity].
  - exists eth0. split; [left; reflexivity | reflexivity].
  - reflexivity.
  - reflexivity.
  - exists reply, icmp.
    destruct Hfull as (Hl & Hun & Hmtu & Hdata); [simpl; lia|].
    repeat (split; [assumption|]). assumption.
Defined.

End RouterClaims.

(* ================================================================= *)
(** * Properties of cTCP *)

Section WrapArithmetic.

Lemma u16_u32 (x : Z) : u16 (u32 x) = u16 x.
Proof.
  unfold u16, u32. apply Z.mod_mod_divide.
  exists (2 ^ 16). reflexivity.
Qed.

Lemma u16_size_t (x : Z) : u16 (size_t x) = u16 x.
Proof.
  unfold u16, size_t. apply Z.mod_mod_divide.
  exists (2 ^ 48). reflexivity.
Qed.

Lemma u16_add_l (x y : Z) : u16 (u16 x + y) = u16 (x + y).
Proof. unfold u16. apply Zplus_mod_idemp_l. Qed.

Lemma u16_add_r (x y : Z) : u16 (x + u16 y) = u16 (x + y).
Proof. unfold u16. apply Zplus_mod_idemp_r. Qed.

Lemma u16_add_u32_l (x y : Z) : u16 (u32 x + y) = u16 (x + y).
Proof. rewrite <- u16_add_l, u16_u32, u16_add_l. reflexivity. Qed.

Lemma u16_add_size_t_r (x y : Z) : u16 (x + size_t y) = u16 (x + y).
Proof. rewrite <- u16_add_r, u16_size_t, u16_add_r. reflexivity. Qed.

Lemma u16_small (x : Z) : 0 <= x < 2 ^ 16 -> u16 x = x.
Proof. intros H. unfold u16. apply Z.mod_small. exact H. Qed.

End WrapArithmetic.

Section CtcpProperties.
Import Ctcp.
Context {lib : CtcpLib}.

Lemma same_sender_refl (s : ctcp_state) : same_sender s s.
Proof. repeat split. Qed.

Lemma same_sender_trans (s1 s2 s3 : ctcp_state) :
  same_sender s1 s2 -> same_sender s2 s3 -> same_sender s1 s3.
Proof.
  unfold same_sender. intros H1 H2.
  decompose [and] H1. decompose [and] H2. repeat split; congruence.
Qed.

Lemma ctcp_output_loop_same_sender (q : list ctcp_segment) :
  forall state has_output,
    same_sender state (snd (fst (ctcp_output_loop q state has_output))).
Proof.
  induction q as [|g q IH]; intros state has_output; cbn [ctcp_output_loop].
  - repeat split.
  - destruct (ackno state =? seg_seqno g); [|repeat split].
    destruct (_ <? _); [repeat split|].
    eapply same_sender_trans; [|apply IH].
    destruct (has_fin g); repeat split.
Qed.

Lemma ctcp_output_same_sender (state : ctcp_state) :
  same_sender state (ctcp_output state).
Proof.
  unfold ctcp_output.
  pose proof (ctcp_output_loop_same_sender (unoutput state) state false) as H.
  destruct (ctcp_output_loop (unoutput state) state false) as [[ex st] ho].
  cbn [fst snd] in H.
  destruct ex; try exact H;
    (destruct ho; [|exact H]);
    (eapply same_sender_trans; [exact H | repeat split]).
Qed.

Lemma on_air_spec (state : ctcp_state) :
  on_air state = u16 (spec_bytes_in_flight (unacked state)).
Proof.
  unfold on_air, spec_bytes_in_flight, data_len.
  destruct (unacked state) as [|front rest]; [reflexivity|].
  set (back := last (front :: rest) front).
  rewrite u16_size_t, u16_add_l, u16_add_size_t_r, u16_add_u32_l.
  rewrite Z.add_0_l, u16_add_u32_l.
  f_equal. lia.
Qed.

Lemma remove_acked_spec (q : list ctcp_segment) (ack : Z) :
  exists pre,
    q = pre ++ remove_acked q ack
    /\ Forall (fun u => seg_seqno u < ack) pre
    /\ match remove_acked q ack with
       | [] => True
       | u :: _ => ack <= seg_seqno u
       end.
Proof.
  induction q as [|g q (pre & Hq & Hpre & Hhd)]; cbn [remove_acked].
  - exists []. repeat split. constructor.
  - destruct (Z.ltb_spec (seg_seqno g) ack) as [Hlt|Hge].
    + exists (g :: pre). split; [cbn; f_equal; exact Hq|].
      split; [constructor; assumption | exact Hhd].
    + exists []. repeat split; [constructor | exact Hge].
Qed.

Lemma remove_acked_ascending (q : list ctcp_segment) (ack : Z) :
  ascending q ->
  remove_acked q ack = filter (fun u => ack <=? seg_seqno u) q.
Proof.
  induction q as [|g q IH]; intros Hasc; [reflexivity|].
  destruct Hasc as [Hall Hasc]. cbn [remove_acked filter].
  destruct (Z.ltb_spec (seg_seqno g) ack) as [Hlt|Hge];
    destruct (Z.leb_spec ack (seg_seqno g)) as [Hle|Hgt]; try lia.
  - apply IH. exact Hasc.
  - f_equal. symmetry. apply forallb_filter_id. apply forallb_forall.
    rewrite Forall_forall in Hall. intros x Hx. specialize (Hall x Hx).
    apply Z.leb_le. lia.
Qed.

End CtcpProperties.

Section UnoutputOrder.
Import Ctcp.

Lemma last_cons {A : Type} (q : list A) :
  forall y d, last (y :: q) d = last q y.
Proof.
  induction q as [|z q IH]; intros y d; [reflexivity|].
  change (last (y :: z :: q) d) with (last (z :: q) d).
  rewrite (IH z d), (IH z y). reflexivity.
Qed.

Lemma insert_walk_noop (g : ctcp_segment) (rest : list ctcp_segment) :
  forall cur, seg_seqno g < seg_seqno cur -> ascending (cur :: rest) ->
  insert_walk g cur rest = cur :: rest.
Proof.
  induction rest as [|next rest IH]; intros cur Hlt Hasc; [reflexivity|].
  cbn [insert_walk].
  destruct (Z.gtb_spec (seg_seqno g) (seg_seqno cur)) as [Hgt|_]; [lia|].
  cbn [andb]. f_equal. apply IH.
  - destruct Hasc as [Hall _]. inversion Hall; subst. lia.
  - apply Hasc.
Qed.

Lemma insert_walk_sorted (g : ctcp_segment) (rest : list ctcp_segment) :
  forall cur, seg_seqno cur < seg_seqno g -> ascending (cur :: rest) ->
  (forall x, In x rest -> seg_seqno x <> seg_seqno g) ->
  seg_seqno g < seg_seqno (last rest cur) ->
  insert_walk g cur rest = cur :: insert_by_seqno g rest.
Proof.
  induction rest as [|next rest IH]; intros cur Hcur Hasc Hne Hlast.
  - cbn in Hlast. lia.
  - cbn [insert_walk insert_by_seqno].
    destruct (Z.gtb_spec (seg_seqno g) (seg_seqno cur)) as [_|Hle]; [|lia].
    cbn [andb].
    destruct (Z.ltb_spec (seg_seqno g) (seg_seqno next)) as [Hlt|Hge].
    + f_equal. f_equal. apply insert_walk_noop; [exact Hlt | apply Hasc].
    + f_equal. apply IH.
      * specialize (Hne next (or_introl eq_refl)). lia.
      * apply Hasc.
      * intros x Hx. apply Hne. right. exact Hx.
      * rewrite last_cons in Hlast. exact Hlast.
Qed.

Lemma insert_by_seqno_last (g : ctcp_segment) (q : list ctcp_segment) :
  (forall x, In x q -> seg_seqno x < seg_seqno g) ->
  insert_by_seqno g q = q ++ [g].
Proof.
  induction q as [|x q IH]; intros Hall; [reflexivity|].
  cbn [insert_by_seqno app].
  destruct (Z.ltb_spec (seg_seqno g) (seg_seqno x)) as [Hlt|_].
  - specialize (Hall x (or_introl eq_refl)). lia.
  - f_equal. apply IH. intros y Hy. apply Hall. right. exact Hy.
Qed.

Lemma insert_by_seqno_first (g : ctcp_segment) (q : list ctcp_segment) :
  (forall x, In x q -> seg_seqno g < seg_seqno x) ->
  insert_by_seqno g q = g :: q.
Proof.
  destruct q as [|x q]; intros Hall; [reflexivity|].
  cbn [insert_by_seqno].
  destruct (Z.ltb_spec (seg_seqno g) (seg_seqno x)) as [_|Hge]; [reflexivity|].
  specialize (Hall x (or_introl eq_refl)). lia.
Qed.

Lemma ascending_last_max (q : list ctcp_segment) :
  forall first, ascending (first :: q) ->
  forall x, In x (first :: q) -> seg_seqno x <= seg_seqno (last q first).
Proof.
  induction q as [|y q IH]; intros first Hasc x Hx.
  - destruct Hx as [<-|[]]. cbn. lia.
  - assert (Hfy : seg_seqno first < seg_seqno y).
    { destruct Hasc as [Hall _]. inversion Hall; subst. assumption. }
    assert (Hy : forall z, In z (y :: q) -> seg_seqno z <= seg_seqno (last q y))
      by (apply IH; apply Hasc).
    rewrite last_cons.
    destruct Hx as [<-|Hx].
    + specialize (Hy y (or_introl eq_refl)). lia.
    + apply Hy. exact Hx.
Qed.

(** On a queue in ascending order that does not hold the seqno of the new
    segment, the three cases of the code (prepend, append, walk) insert the
    segment at its place in the order. *)
Lemma insert_unoutput_sorted (g : ctcp_segment) (q : list ctcp_segment) :
  ascending q ->
  (forall x, In x q -> seg_seqno x <> seg_seqno g) ->
  insert_unoutput g q = insert_by_seqno g q.
Proof.
  intros Hasc Hne. destruct q as [|first rest]; [reflexivity|].
  unfold insert_unoutput.
  destruct (Z.ltb_spec (seg_seqno g) (seg_seqno first)) as [Hlt|Hge].
  - cbn [insert_by_seqno].
    destruct (Z.ltb_spec (seg_seqno g) (seg_seqno first)); [reflexivity|lia].
  - rewrite last_cons.
    destruct (Z.gtb_spec (seg_seqno g) (seg_seqno (last rest first))) as [Hgt|Hle].
    + symmetry. apply insert_by_seqno_last. intros x Hx.
      pose proof (ascending_last_max rest first Hasc x Hx). lia.
    + assert (Hf : seg_seqno first < seg_seqno g).
      { specialize (Hne first (or_introl eq_refl)). lia. }
      assert (Hlast : seg_seqno g < seg_seqno (last rest first)).
      { assert (Hin : In (last rest first) (first :: rest)).
        { clear. revert first. induction rest as [|y rest IH]; intros first.
          - left. reflexivity.
          - right. rewrite last_cons. apply IH. }
        specialize (Hne _ Hin). lia. }
      rewrite insert_walk_sorted; try assumption.
      * cbn [insert_by_seqno].
        destruct (Z.ltb_spec (seg_seqno g) (seg_seqno first)); [lia|reflexivity].
      * intros x Hx. apply Hne. right. exact Hx.
Qed.

Lemma ascending_filter (f : ctcp_segment -> bool) (q : list ctcp_segment) :
  ascending q -> ascending (filter f q).
Proof.
  induction q as [|x q IH]; intros Hasc; [exact I|].
  destruct Hasc as [Hall Hasc]. cbn [filter].
  destruct (f x); [|apply IH; exact Hasc].
  split; [|apply IH; exact Hasc].
  rewrite Forall_forall in *. intros y Hy. apply Hall.
  apply filter_In in Hy. apply Hy.
Qed.

Lemma mem_seqno_cons (a : Z) (recv : list Z) (x : ctcp_segment) :
  mem_seqno (a :: recv) x = (seg_seqno x =? a) || mem_seqno recv x.
Proof. reflexivity. Qed.

(** Marking one more segment of an ascending list as received inserts it
    into the list of the received ones. *)
Lemma filter_received_insert (g : ctcp_segment) (recv : list Z)
      (rest : list ctcp_segment) :
  ascending rest -> In g rest -> mem_seqno recv g = false ->
  filter (mem_seqno (seg_seqno g :: recv)) rest
  = insert_by_seqno g (filter (mem_seqno recv) rest).
Proof.
  intros Hasc Hin Hg.
  induction rest as [|x rest IH]; [destruct Hin|].
  destruct Hasc as [Hall Hasc]. rewrite Forall_forall in Hall.
  cbn [filter]. rewrite mem_seqno_cons.
  destruct Hin as [->|Hin].
  - rewrite Z.eqb_refl, Hg. cbn [orb].
    assert (Hsame : filter (mem_seqno (seg_seqno g :: recv)) rest
                    = filter (mem_seqno recv) rest).
    { apply filter_ext_in. intros y Hy. rewrite mem_seqno_cons.
      specialize (Hall y Hy).
      destruct (Z.eqb_spec (seg_seqno y) (seg_seqno g)); [lia|reflexivity]. }
    rewrite Hsame. symmetry. apply insert_by_seqno_first.
    intros y Hy. apply filter_In in Hy. apply Hall. apply Hy.
  - specialize (Hall g Hin) as Hxg.
    destruct (Z.eqb_spec (seg_seqno x) (seg_seqno g)) as [Heq|_]; [lia|].
    cbn [orb]. destruct (mem_seqno recv x).
    + cbn [insert_by_seqno].
      destruct (Z.ltb_spec (seg_seqno g) (seg_seqno x)); [lia|].
      f_equal. apply IH; assumption.
    + apply IH; assumption.
Qed.

End UnoutputOrder.

Section StreamFacts.
Import Ctcp.

Lemma output_writes_app (h1 h2 : list io_event) :
  output_writes (h1 ++ h2) = output_writes h1 ++ output_writes h2.
Proof.
  induction h1 as [|e h1 IH]; [reflexivity|].
  destruct e; cbn; rewrite IH; reflexivity.
Qed.

Lemma sent_segments_app (h1 h2 : list io_event) :
  sent_segments (h1 ++ h2) = sent_segments h1 ++ sent_segments h2.
Proof.
  induction h1 as [|e h1 IH]; [reflexivity|].
  destruct e; cbn; rewrite IH; reflexivity.
Qed.

Lemma delivered_bytes_app (h1 h2 : list io_event) :
  delivered_bytes (h1 ++ h2) = delivered_bytes h1 ++ delivered_bytes h2.
Proof. unfold delivered_bytes. rewrite output_writes_app. apply concat_app. Qed.

Lemma payload_ok_data_len (g : ctcp_segment) :
  payload_ok g ->
  0 <= data_len g < 2 ^ 16
  /\ u16 (size_t (seg_len g - sizeof_ctcp_segment_t)) = data_len g
  /\ firstn (Z.to_nat (data_len g)) (seg_data g) = seg_data g
  /\ has_payload g = (data_len g >? 0).
Proof.
  intros [Hlen Hdata]. unfold data_len in *. unfold sizeof_ctcp_segment_t in *.
  assert (Hs : size_t (seg_len g - 20) = seg_len g - 20).
  { unfold size_t. apply Z.mod_small. lia. }
  split; [lia|]. split.
  - rewrite Hs. apply u16_small. lia.
  - split.
    + apply firstn_all2. lia.
    + unfold has_payload, sizeof_ctcp_segment_t. rewrite Hs. reflexivity.
Qed.

Lemma advance_gt (a : Z) (g : ctcp_segment) :
  payload_ok g -> has_payload g || has_fin g = true -> a < advance a g.
Proof.
  intros Hok Hp. destruct (payload_ok_data_len g Hok) as (Hr & _ & _ & Hhp).
  unfold advance. rewrite Hhp in Hp.
  destruct (has_fin g); [lia|].
  rewrite orb_false_r in Hp. apply Z.gtb_lt in Hp. lia.
Qed.

Lemma end_ackno_app (l1 l2 : list ctcp_segment) :
  forall a, end_ackno a (l1 ++ l2) = end_ackno (end_ackno a l1) l2.
Proof. induction l1 as [|g l1 IH]; intros a; [reflexivity | apply IH]. Qed.

Lemma chained_app (l1 l2 : list ctcp_segment) :
  forall a, chained a (l1 ++ l2) <-> chained a l1 /\ chained (end_ackno a l1) l2.
Proof.
  induction l1 as [|g l1 IH]; intros a; cbn [chained app end_ackno].
  - tauto.
  - rewrite IH. tauto.
Qed.

Lemma end_ackno_ge (l : list ctcp_segment) :
  forall a, chained a l -> a <= end_ackno a l.
Proof.
  induction l as [|g l IH]; intros a Hc; cbn [end_ackno]; [lia|].
  destruct Hc as (_ & Hok & Hp & Hc).
  pose proof (advance_gt a g Hok Hp). specialize (IH _ Hc). lia.
Qed.

Lemma chained_ge (l : list ctcp_segment) :
  forall a, chained a l -> forall g, In g l -> a <= seg_seqno g.
Proof.
  induction l as [|x l IH]; intros a Hc g Hin; [destruct Hin|].
  destruct Hc as (Hx & Hok & Hp & Hc).
  destruct Hin as [<-|Hin]; [lia|].
  pose proof (advance_gt a x Hok Hp). specialize (IH _ Hc g Hin). lia.
Qed.

Lemma chained_ascending (l : list ctcp_segment) :
  forall a, chained a l -> ascending l.
Proof.
  induction l as [|x l IH]; intros a Hc; [exact I|].
  destruct Hc as (Hx & Hok & Hp & Hc). split; [|eapply IH; exact Hc].
  apply Forall_forall. intros y Hy.
  pose proof (advance_gt a x Hok Hp). pose proof (chained_ge l _ Hc y Hy). lia.
Qed.

Lemma ascending_NoDup (l : list ctcp_segment) :
  ascending l -> NoDup (map seg_seqno l).
Proof.
  induction l as [|x l IH]; intros Hasc; [constructor|].
  destruct Hasc as [Hall Hasc]. cbn. constructor; [|apply IH; exact Hasc].
  intros Hin. apply in_map_iff in Hin. destruct Hin as (y & Hy & Hin).
  rewrite Forall_forall in Hall. specialize (Hall y Hin). lia.
Qed.

End StreamFacts.

Section OutputLoop.
Import Ctcp.
Context {lib : CtcpLib}.

Lemma ctcp_output_loop_turn (g : ctcp_segment) (rest : list ctcp_segment)
      (state : ctcp_state) (has_output : bool) :
  seg_seqno g = ackno state ->
  payload_ok g ->
  data_len g <= conn_bufspace (conn state) ->
  0 <= ackno state ->
  advance (ackno state) g < 2 ^ 32 ->
  ctcp_output_loop (g :: rest) state has_output
  = ctcp_output_loop rest (delivered_one state g) true.
Proof.
  intros Hg Hok Hroom Ha Hend.
  destruct (payload_ok_data_len g Hok) as (Hr & Hu & Hfirst & _).
  cbn [ctcp_output_loop].
  rewrite Hg, Z.eqb_refl, Hu, Hfirst.
  destruct (Z.ltb_spec (conn_bufspace (conn state)) (data_len g)) as [Hlt|_];
    [lia|].
  unfold delivered_one, advance in *.
  cbn [ackno call set_ackno set_conn conn].
  assert (H1 : u32 (ackno state + data_len g) = ackno state + data_len g).
  { unfold u32. apply Z.mod_small. destruct (has_fin g); lia. }
  rewrite H1.
  destruct (has_fin g); [|reflexivity].
  assert (H2 : u32 (ackno state + data_len g + 1) = ackno state + data_len g + 1).
  { unfold u32. apply Z.mod_small. lia. }
  rewrite H2. reflexivity.
Qed.

Lemma delivered_one_facts (state : ctcp_state) (g : ctcp_segment) :
  ackno (delivered_one state g) = advance (ackno state) g
  /\ delivered_bytes (conn (delivered_one state g))
     = delivered_bytes (conn state) ++ seg_data g
  /\ sent_segments (conn (delivered_one state g)) = sent_segments (conn state)
  /\ same_sender state (delivered_one state g).
Proof.
  unfold delivered_one, advance.
  destruct (has_fin g); cbn [ackno call set_ackno set_conn conn];
    rewrite ?delivered_bytes_app, ?sent_segments_app; cbn;
    rewrite ?app_nil_r; repeat split; lia.
Qed.

(** With room in the sink, the loop of [ctcp_output] delivers the run [pre]
    of consecutive segments at the head of the queue and stops, by [break] or
    at the end of the queue, in front of [q]. *)
Lemma ctcp_output_loop_delivers (pre q : list ctcp_segment) :
  roomy ->
  forall state has_output,
  chained (ackno state) pre ->
  0 <= ackno state ->
  end_ackno (ackno state) pre < 2 ^ 32 ->
  match q with
  | [] => True
  | x :: _ => seg_seqno x <> end_ackno (ackno state) pre
  end ->
  exists ex state',
    ctcp_output_loop (pre ++ q) state has_output
    = (ex, state', has_output || negb (length pre =? 0)%nat)
    /\ ex <> LoopReturn
    /\ ackno state' = end_ackno (ackno state) pre
    /\ unoutput state' = q
    /\ delivered_bytes (conn state')
       = delivered_bytes (conn state) ++ concat (map seg_data pre)
    /\ sent_segments (conn state') = sent_segments (conn state)
    /\ same_sender state state'.
Proof.
  intros Hroom. induction pre as [|g pre IH]; intros state ho Hc Ha Hend Hq.
  - cbn [app length Nat.eqb negb end_ackno map concat] in *.
    rewrite orb_false_r, app_nil_r.
    destruct q as [|x q]; cbn [ctcp_output_loop].
    + exists LoopDone, (set_unoutput state []).
      repeat split; discriminate.
    + destruct (Z.eqb_spec (ackno state) (seg_seqno x)) as [He|_];
        [congruence|].
      exists LoopBreak, (set_unoutput state (x :: q)).
      repeat split; discriminate.
  - destruct Hc as (Hg & Hok & Hp & Hc).
    cbn [end_ackno] in Hend, Hq |- *.
    pose proof (end_ackno_ge pre _ Hc) as Hge.
    pose proof (advance_gt (ackno state) g Hok Hp) as Hgt.
    destruct (payload_ok_data_len g Hok) as (Hr & _).
    destruct (delivered_one_facts state g) as (Hadv & Hdel & Hsent & Hsame).
    cbn [app]. rewrite ctcp_output_loop_turn;
      [ | exact Hg | exact Hok | specialize (Hroom (conn state)); lia
        | exact Ha | lia ].
    destruct (IH (delivered_one state g) true)
      as (ex & st' & Hrun & Hex & Hack & Hun & Hd & Hs & Hss);
      rewrite ?Hadv; try assumption; try lia.
    exists ex, st'. rewrite Hrun.
    cbn [length Nat.eqb negb orb]. rewrite orb_true_r.
    split; [reflexivity|]. split; [exact Hex|].
    rewrite Hack, Hadv, Hun, Hd, Hdel, Hs, Hsent.
    split; [reflexivity|]. split; [reflexivity|]. split.
    { cbn [map concat]. rewrite app_assoc. reflexivity. }
    split; [reflexivity|].
    exact (same_sender_trans _ _ _ Hsame Hss).
Qed.

End OutputLoop.

Section ReceivePipeline.
Import Ctcp.
Context {lib : CtcpLib}.

Lemma ctcp_output_loop_sends_nothing (q : list ctcp_segment) :
  forall state has_output,
    sent_segments (conn (snd (fst (ctcp_output_loop q state has_output))))
    = sent_segments (conn state).
Proof.
  induction q as [|g q IH]; intros state ho; cbn [ctcp_output_loop];
    [reflexivity|].
  destruct (ackno state =? seg_seqno g); [|reflexivity].
  destruct (_ <? _).
  - cbn. rewrite sent_segments_app. cbn. apply app_nil_r.
  - rewrite IH. destruct (has_fin g); cbn;
      rewrite !sent_segments_app; cbn; rewrite ?app_nil_r; reflexivity.
Qed.

(** Whenever the loop of [ctcp_output] is left by [return], nothing is sent,
    whatever has been delivered before. *)
Lemma ctcp_output_return_sends_nothing (state state' : ctcp_state)
      (has_output : bool) :
  ctcp_output_loop (unoutput state) state false = (LoopReturn, state', has_output) ->
  ctcp_output state = state'
  /\ sent_segments (conn (ctcp_output state)) = sent_segments (conn state).
Proof.
  intros Hrun. unfold ctcp_output. rewrite Hrun. split; [reflexivity|].
  pose proof (ctcp_output_loop_sends_nothing (unoutput state) state false) as H.
  rewrite Hrun in H. exact H.
Qed.

(** What [ctcp_output] does when the sink has room: see
    [ctcp_output_loop_delivers]; one pure cumulative ACK is sent if and only
    if a segment was delivered. *)
Lemma ctcp_output_delivers (state : ctcp_state) (pre q : list ctcp_segment) :
  roomy ->
  unoutput state = pre ++ q ->
  chained (ackno state) pre ->
  0 <= ackno state ->
  end_ackno (ackno state) pre < 2 ^ 32 ->
  match q with
  | [] => True
  | x :: _ => seg_seqno x <> end_ackno (ackno state) pre
  end ->
  let state' := ctcp_output state in
  ackno state' = end_ackno (ackno state) pre
  /\ unoutput state' = q
  /\ delivered_bytes (conn state')
     = delivered_bytes (conn state) ++ concat (map seg_data pre)
  /\ (pre = [] -> sent_segments (conn state') = sent_segments (conn state))
  /\ (pre <> [] ->
      exists ack, pure_ack ack (end_ackno (ackno state) pre)
        /\ sent_segments (conn state') = sent_segments (conn state) ++ [ack]).
Proof.
  intros Hroom Hun Hc Ha Hend Hq state'.
  destruct (ctcp_output_loop_delivers pre q Hroom state false Hc Ha Hend Hq)
    as (ex & st' & Hrun & Hex & Hack & Hun' & Hd & Hs & Hss).
  assert (Hout : state' =
                 if negb (length pre =? 0)%nat then send_ack_segment st' else st').
  { unfold state', ctcp_output. rewrite Hun, Hrun. cbn [orb].
    destruct ex; try reflexivity. congruence. }
  destruct pre as [|g pre]; cbn [length Nat.eqb negb] in Hout; rewrite Hout.
  - split; [exact Hack|]. split; [exact Hun'|]. split; [exact Hd|].
    split; [intros _; exact Hs | intros Hn; congruence].
  - unfold send_ack_segment. cbn [ackno unoutput conn call set_conn].
    rewrite delivered_bytes_app, sent_segments_app. cbn.
    rewrite app_nil_r.
    split; [exact Hack|]. split; [exact Hun'|]. split; [exact Hd|].
    split; [intros Hn; discriminate Hn|].
    intros _. eexists. split; [|rewrite Hs; reflexivity].
    repeat split. cbn. exact Hack.
Qed.

Lemma ctcp_receive_blocks (state : ctcp_state) (g : ctcp_segment) :
  let state1 :=
    ctcp_receive_insert (ctcp_receive_fin (ctcp_receive_ack state g) g) g in
  conn state1 = conn state /\ ackno state1 = ackno state
  /\ unoutput state1 =
     if has_payload g || has_fin g then insert_unoutput g (unoutput state)
     else unoutput state.
Proof.
  unfold ctcp_receive_insert, ctcp_receive_fin, ctcp_receive_ack.
  destruct (has_ack g), (has_fin g), (has_payload g), (send_fin state) eqn:Hsf;
    cbn; rewrite ?Hsf; cbn; repeat split.
Qed.

Lemma in_firstn {A : Type} (n : nat) :
  forall (l : list A) (x : A), In x (firstn n l) -> In x l.
Proof.
  induction n as [|n IH]; intros l x Hx; [destruct Hx|].
  destruct l as [|y l]; [destruct Hx|].
  destruct Hx as [->|Hx]; [left; reflexivity | right; apply IH; exact Hx].
Qed.

Lemma mem_seqno_same (recv : list Z) (x y : ctcp_segment) :
  seg_seqno x = seg_seqno y -> mem_seqno recv x = mem_seqno recv y.
Proof. unfold mem_seqno. intros ->. reflexivity. Qed.

Lemma received_prefix (f : ctcp_segment -> bool) (rest : list ctcp_segment) :
  exists pre rest',
    rest = pre ++ rest'
    /\ Forall (fun g => f g = true) pre
    /\ filter f rest = pre ++ filter f rest'
    /\ match rest' with
       | [] => True
       | g :: _ => f g = false
       end.
Proof.
  induction rest as [|x rest (pre & rest' & Hr & Hpre & Hf & Hhd)].
  - exists [], []. repeat split. constructor.
  - destruct (f x) eqn:Hx.
    + exists (x :: pre), rest'. cbn [filter app]. rewrite Hx, Hf, Hr.
      repeat split; [constructor; assumption | exact Hhd].
    + exists [], (x :: rest). repeat split; [constructor | exact Hx].
Qed.

(** One more segment of the stream arrives. *)
Lemma ctcp_receive_keeps_inv (a0 : Z) (d0 : list Z) (segs : list ctcp_segment)
      (recv : list Z) (state : ctcp_state) (g : ctcp_segment) (len : Z) :
  roomy ->
  chained a0 segs -> 0 <= a0 -> end_ackno a0 segs < 2 ^ 32 ->
  pipeline_inv a0 d0 segs recv state ->
  In g segs -> mem_seqno recv g = false -> corrupted g = false ->
  pipeline_inv a0 d0 segs (seg_seqno g :: recv) (ctcp_receive state g len).
Proof.
  intros Hroom Hchain Ha0 Hend (done & rest & Hsegs & Hack & Hdel & Hdone & Hun & Hhd)
         Hin Hg Hcorr.
  subst segs.
  apply chained_app in Hchain. destruct Hchain as [Hcd Hcr].
  rewrite end_ackno_app in Hend.
  (* g is one of the segments still to come *)
  assert (Hgr : In g rest).
  { apply in_app_or in Hin. destruct Hin as [Hin|Hin]; [|exact Hin].
    specialize (Hdone g Hin). congruence. }
  pose proof (chained_ascending rest _ Hcr) as Hasc.
  pose proof (chained_ge rest _ Hcr g Hgr) as Hge.
  pose proof (end_ackno_ge done _ Hcd) as Hged.
  assert (Hpf : has_payload g || has_fin g = true).
  { clear - Hcr Hgr. revert Hcr. generalize (end_ackno a0 done).
    induction rest as [|x rest IH]; intros a Hc; [destruct Hgr|].
    destruct Hc as (_ & _ & Hp & Hc).
    destruct Hgr as [<-|Hgr]; [exact Hp | exact (IH Hgr _ Hc)]. }
  (* neither stale nor a duplicate *)
  assert (Hdup : duplicate_in_unoutput state g = false).
  { unfold duplicate_in_unoutput.
    destruct (existsb _ _) eqn:Hex; [|reflexivity]. exfalso.
    apply existsb_exists in Hex. destruct Hex as (u & Hu & Heq).
    apply in_firstn in Hu. rewrite Hun in Hu. apply filter_In in Hu.
    apply Z.eqb_eq in Heq. rewrite (mem_seqno_same recv u g Heq) in Hu.
    destruct Hu as [_ Hu]. congruence. }
  assert (Hrun : ctcp_receive state g len =
    ctcp_output
      (ctcp_receive_insert (ctcp_receive_fin (ctcp_receive_ack state g) g) g)).
  { unfold ctcp_receive. rewrite Hcorr, Hdup.
    destruct (Z.ltb_spec (seg_seqno g) (ackno state)) as [Hlt|_]; [lia|].
    reflexivity. }
  destruct (ctcp_receive_blocks state g) as (Hc1 & Ha1 & Hu1).
  set (state1 :=
         ctcp_receive_insert (ctcp_receive_fin (ctcp_receive_ack state g) g) g)
    in *.
  rewrite Hpf in Hu1.
  (* the queue after the insertion *)
  assert (Hq1 : unoutput state1 = filter (mem_seqno (seg_seqno g :: recv)) rest).
  { rewrite Hu1, Hun, filter_received_insert by assumption.
    apply insert_unoutput_sorted.
    - apply ascending_filter. exact Hasc.
    - intros x Hx Heq. apply filter_In in Hx.
      rewrite (mem_seqno_same recv x g Heq) in Hx. destruct Hx. congruence. }
  destruct (received_prefix (mem_seqno (seg_seqno g :: recv)) rest)
    as (pre & rest' & Hrest & Hpre & Hfilter & Hhd').
  subst rest.
  apply chained_app in Hcr. destruct Hcr as [Hcp Hcr'].
  rewrite end_ackno_app in Hend.
  pose proof (end_ackno_ge pre _ Hcp) as Hgep.
  pose proof (end_ackno_ge rest' _ Hcr') as Hger.
  rewrite <- Hack in *.
  destruct (ctcp_output_delivers state1 pre
              (filter (mem_seqno (seg_seqno g :: recv)) rest'))
    as (Hack' & Hun' & Hdel' & _); try (rewrite ?Ha1; assumption || lia).
  { rewrite Hq1. exact Hfilter. }
  { (* the queue now starts behind a gap *)
    rewrite Ha1.
    destruct (filter (mem_seqno (seg_seqno g :: recv)) rest') as [|x q] eqn:Hf;
      [exact I|].
    assert (Hx : In x (filter (mem_seqno (seg_seqno g :: recv)) rest'))
      by (rewrite Hf; left; reflexivity).
    apply filter_In in Hx. destruct Hx as [Hx Hfx].
    destruct rest' as [|y rest']; [destruct Hx|].
    destruct Hcr' as (Hy & Hoky & Hpy & Hcr').
    destruct Hx as [->|Hx]; [congruence|].
    pose proof (advance_gt (end_ackno (ackno state) pre) y Hoky Hpy).
    pose proof (chained_ge rest' _ Hcr' x Hx). lia. }
  rewrite Hrun.
  exists (done ++ pre), rest'.
  split; [rewrite app_assoc; reflexivity|].
  split; [rewrite Hack', Ha1, end_ackno_app, <- Hack; reflexivity|].
  split.
  { rewrite Hdel', Hc1, Hdel, map_app, concat_app, app_assoc. reflexivity. }
  split.
  { intros x Hx. apply in_app_or in Hx. destruct Hx as [Hx|Hx].
    - rewrite mem_seqno_cons, (Hdone x Hx). apply orb_true_r.
    - rewrite Forall_forall in Hpre. exact (Hpre x Hx). }
  split; [exact Hun' | exact Hhd'].
Qed.

Lemma receive_all_keeps_inv (a0 : Z) (d0 : list Z) (segs : list ctcp_segment) :
  roomy ->
  chained a0 segs -> 0 <= a0 -> end_ackno a0 segs < 2 ^ 32 ->
  forall arrivals recv state,
  pipeline_inv a0 d0 segs recv state ->
  (forall g, In g arrivals ->
             In g segs /\ corrupted g = false /\ mem_seqno recv g = false) ->
  NoDup (map seg_seqno arrivals) ->
  pipeline_inv a0 d0 segs (rev (map seg_seqno arrivals) ++ recv)
               (receive_all state arrivals).
Proof.
  intros Hroom Hchain Ha0 Hend.
  induction arrivals as [|g l IH]; intros recv state Hinv Hall Hnd.
  - exact Hinv.
  - cbn [map] in Hnd. apply NoDup_cons_iff in Hnd. destruct Hnd as [Hng Hnd].
    destruct (Hall g (or_introl eq_refl)) as (Hgs & Hgc & Hgr).
    cbn [map rev]. rewrite <- app_assoc. cbn [app].
    change (receive_all state (g :: l))
      with (receive_all (ctcp_receive state g (seg_len g)) l).
    apply IH; [ | | exact Hnd].
    + apply ctcp_receive_keeps_inv; assumption.
    + intros x Hx. destruct (Hall x (or_intror Hx)) as (Hxs & Hxc & Hxr).
      split; [exact Hxs|]. split; [exact Hxc|].
      rewrite mem_seqno_cons, Hxr, orb_false_r.
      apply Z.eqb_neq. intros Heq. apply Hng. rewrite <- Heq.
      apply in_map. exact Hx.
Qed.

(** In-order delivery under reordering.  Let the sink always have room and
    let [segs] be a contiguous stream of uncorrupted segments that starts at
    the current ackno and does not wrap the sequence space.  Whatever the
    order [arrivals] in which its segments are received, once all are in the
    sink has received their payloads exactly once and in seqno order, the
    ackno stands behind the stream and the unoutput queue is empty. *)
Lemma receive_all_in_order (state : ctcp_state)
      (segs arrivals : list ctcp_segment) :
  roomy ->
  unoutput state = [] ->
  0 <= ackno state ->
  chained (ackno state) segs ->
  end_ackno (ackno state) segs < 2 ^ 32 ->
  Forall (fun g => corrupted g = false) segs ->
  Permutation arrivals segs ->
  let state' := receive_all state arrivals in
  delivered_bytes (conn state')
  = delivered_bytes (conn state) ++ concat (map seg_data segs)
  /\ ackno state' = end_ackno (ackno state) segs
  /\ unoutput state' = [].
Proof.
  intros Hroom Hun Ha Hchain Hend Hcorr Hperm state'.
  assert (Hinv0 : pipeline_inv (ackno state) (delivered_bytes (conn state))
                               segs [] state).
  { exists [], segs. cbn [app end_ackno map concat].
    rewrite app_nil_r.
    repeat split; try reflexivity.
    - intros g [].
    - rewrite Hun. clear. induction segs as [|x l IH]; [reflexivity | exact IH].
    - destruct segs; reflexivity. }
  assert (Hnd : NoDup (map seg_seqno arrivals)).
  { apply (Permutation_NoDup (l := map seg_seqno segs)).
    - apply Permutation_map. apply Permutation_sym. exact Hperm.
    - apply ascending_NoDup. eapply chained_ascending. exact Hchain. }
  pose proof (receive_all_keeps_inv _ _ segs Hroom Hchain Ha Hend
                arrivals [] state Hinv0) as Hinv.
  destruct Hinv as (done & rest & Hsegs & Hack & Hdel & _ & Hq & Hhd);
    [ | exact Hnd | ].
  { intros g Hg. split; [apply (Permutation_in _ Hperm Hg)|].
    split; [|reflexivity].
    rewrite Forall_forall in Hcorr. apply Hcorr.
    apply (Permutation_in _ Hperm Hg). }
  fold state' in Hack, Hdel, Hq.
  assert (Hrest : rest = []).
  { destruct rest as [|y rest]; [reflexivity|]. exfalso.
    assert (Hy : In y arrivals).
    { apply (Permutation_in _ (Permutation_sym Hperm)).
      rewrite Hsegs. apply in_or_app. right. left. reflexivity. }
    assert (Hm : mem_seqno (rev (map seg_seqno arrivals) ++ []) y = true).
    { unfold mem_seqno. apply existsb_exists. exists (seg_seqno y).
      split; [|apply Z.eqb_refl].
      rewrite app_nil_r. apply -> in_rev. apply in_map. exact Hy. }
    congruence. }
  subst rest. rewrite app_nil_r in Hsegs. subst done.
  repeat split; assumption.
Qed.

End ReceivePipeline.

Section Scenario5.
Import Ctcp.

(** The segments 1, 1441, 2881 received in the order 2881, 1, 1441: the
    application receives the 4320 bytes in seqno order and ackno ends at
    4321; the code sends two cumulative ACKs, for 1441 and for 4321. *)
Lemma receive_all_in_order_scenario5 :
  let state' := receive_all (lib := roomy_lib) (ctcp_init (test_cfg 1440))
                            [seg_2881; seg_1; seg_1441] in
  delivered_bytes (conn state')
  = repeat 1 1440 ++ repeat 2 1440 ++ repeat 3 1440
  /\ ackno state' = 4321
  /\ unoutput state' = []
  /\ map seg_ackno (sent_segments (conn state')) = [1441; 4321].
Proof.
  intros state'.
  destruct (receive_all_in_order (lib := roomy_lib) (ctcp_init (test_cfg 1440))
              [seg_1; seg_1441; seg_2881] [seg_2881; seg_1; seg_1441])
    as (Hd & Ha & Hu).
  - intros h. cbn. lia.
  - reflexivity.
  - cbn. lia.
  - vm_compute. repeat split; discriminate.
  - vm_compute. reflexivity.
  - repeat constructor; vm_compute; reflexivity.
  - apply (Permutation_cons_append [seg_1; seg_1441] seg_2881).
  - fold state' in Hd, Ha, Hu.
    split; [rewrite Hd; vm_compute; reflexivity|].
    split; [rewrite Ha; vm_compute; reflexivity|].
    split; [exact Hu|].
    vm_compute. reflexivity.
Qed.

End Scenario5.

Section CtcpClaims.
Import Ctcp.

(** What [on_air] and the gate of [ctcp_read] do for every state: [on_air]
    returns (last.seqno + last.data_len) - first.seqno reduced modulo 2^16
    (0 for an empty queue), hence the exact value whenever that lies in
    [0, 65535]; and [ctcp_read] does nothing at all, so sends no segment,
    when the value [on_air] returns is at least the send window or a FIN has
    been sent. *)
Theorem on_air_wraps_and_gates_read {lib : CtcpLib} (state : ctcp_state) :
  on_air state = u16 (spec_bytes_in_flight (unacked state))
  /\ (unacked state = [] -> on_air state = 0)
  /\ (0 <= spec_bytes_in_flight (unacked state) < 2 ^ 16 ->
      on_air state = spec_bytes_in_flight (unacked state))
  /\ (send_window (cfg state) <= on_air state \/ send_fin state = true ->
      ctcp_read state = state).
Proof.
  split; [apply on_air_spec|]. split; [|split].
  - intros Hq. unfold on_air. rewrite Hq. reflexivity.
  - intros Hr. rewrite on_air_spec. apply u16_small. exact Hr.
  - intros H. unfold ctcp_read.
    destruct (Z.leb_spec (send_window (cfg state)) (on_air state)) as [_|Hlt];
      [reflexivity|].
    destruct H as [Hle|Hfin]; [lia|]. rewrite Hfin. reflexivity.
Qed.

Lemma on_air_wraps_and_gates_read_witness :
  on_air state_fin_sent = u16 (spec_bytes_in_flight (unacked state_fin_sent))
  /\ (unacked state_fin_sent = [] -> on_air state_fin_sent = 0)
  /\ on_air state_fin_sent = spec_bytes_in_flight (unacked state_fin_sent)
  /\ ctcp_read (lib := sink_lib 0 full_chunk) state_fin_sent = state_fin_sent.
Proof.
  destruct (on_air_wraps_and_gates_read (lib := sink_lib 0 full_chunk) state_fin_sent)
    as (H1 & H2 & H3 & H4).
  split; [exact H1|]. split; [exact H2|]. split.
  - apply H3. vm_compute. split; [discriminate | reflexivity].
  - apply H4. right. reflexivity.
Defined.

(** C9 (defect in the code).  [on_air], which its own comment calls the
    total data length not acknowledged, accumulates into a [uint16_t], and
    [ctcp_read] compares that value with the send window.  With a send
    window of 65000 bytes and an application that always has 1440 bytes to
    send, 46 calls of [ctcp_read] leave 46 segments with 66240 bytes
    unacknowledged; [on_air] returns 66240 - 65536 = 704, the gate
    [send_window <= on_air] stays open, and the next call sends a 47th
    segment although the bytes in flight already exceed the window. *)
Theorem on_air_wrap_overruns_send_window :
  let state := read_n 46 (ctcp_init (test_cfg 65000)) in
  let state' := ctcp_read (lib := sink_lib 0 full_chunk) state in
  send_window (cfg state) = 65000
  /\ List.length (unacked state) = 46%nat
  /\ Z.of_nat (List.length (concat (map seg_data (unacked state)))) = 66240
  /\ spec_bytes_in_flight (unacked state) = 66240
  /\ on_air state = 704
  /\ List.length (sent_segments (conn state)) = 46%nat
  /\ List.length (sent_segments (conn state')) = 47%nat
  /\ List.length (unacked state') = 47%nat
  /\ spec_bytes_in_flight (unacked state') = 67680.
Proof.
  vm_compute. repeat split.
Qed.




(** What the ACK block of [ctcp_receive] does for every state: it removes
    from the head of the unacked queue the longest run of segments whose
    seqno is below the segment's ackno (all such segments when the queue is
    in ascending order), and it sets FIN-ACKed whenever a FIN has been sent,
    whatever the received ackno. *)
Theorem ctcp_receive_ack_processing
        {lib : CtcpLib} (state : ctcp_state) (segment : ctcp_segment) (len : Z) :
  reaches_ack_block state segment ->
  has_ack segment = true ->
  let state' := ctcp_receive state segment len in
  unacked state' = remove_acked (unacked state) (seg_ackno segment)
  /\ (exists pre,
        unacked state = pre ++ unacked state'
        /\ Forall (fun u => seg_seqno u < seg_ackno segment) pre
        /\ match unacked state' with
           | [] => True
           | u :: _ => seg_ackno segment <= seg_seqno u
           end)
  /\ (ascending (unacked state) ->
      unacked state'
      = filter (fun u => seg_ackno segment <=? seg_seqno u) (unacked state))
  /\ receive_ack_fin state' = send_fin state || receive_ack_fin state.
Proof.
  intros (Hc & Hstale & Hdup) Hack state'.
  assert (Hrun : state' =
    ctcp_output
      (ctcp_receive_insert
         (ctcp_receive_fin (ctcp_receive_ack state segment) segment) segment)).
  { unfold state', ctcp_receive. rewrite Hc, Hstale, Hdup. reflexivity. }
  destruct (ctcp_output_same_sender
              (ctcp_receive_insert
                 (ctcp_receive_fin (ctcp_receive_ack state segment) segment) segment))
    as (_ & _ & Hun & _ & _ & Hfa & _).
  rewrite <- Hrun in Hun, Hfa.
  assert (Hun' : unacked state' = remove_acked (unacked state) (seg_ackno segment)).
  { rewrite Hun. unfold ctcp_receive_insert, ctcp_receive_fin, ctcp_receive_ack.
    rewrite Hack.
    destruct (has_payload segment || has_fin segment), (has_fin segment),
      (send_fin state) eqn:Hsf; cbn; rewrite ?Hsf; reflexivity. }
  split; [exact Hun'|]. split; [|split].
  - rewrite Hun'. apply remove_acked_spec.
  - intros Hasc. rewrite Hun'. apply remove_acked_ascending. exact Hasc.
  - rewrite Hfa. unfold ctcp_receive_insert, ctcp_receive_fin, ctcp_receive_ack.
    rewrite Hack.
    destruct (has_payload segment || has_fin segment), (has_fin segment),
      (send_fin state) eqn:Hsf; cbn; rewrite ?Hsf; reflexivity.
Qed.

Lemma ctcp_receive_ack_processing_witness :
  let state' := ctcp_receive (lib := sink_lib 100 []) state_fin_sent
                             ack_of_data_only 20 in
  unacked state' = remove_acked (unacked state_fin_sent) (seg_ackno ack_of_data_only)
  /\ (exists pre,
        unacked state_fin_sent = pre ++ unacked state'
        /\ Forall (fun u => seg_seqno u < seg_ackno ack_of_data_only) pre
        /\ match unacked state' with
           | [] => True
           | u :: _ => seg_ackno ack_of_data_only <= seg_seqno u
           end)
  /\ (ascending (unacked state_fin_sent) ->
      unacked state'
      = filter (fun u => seg_ackno ack_of_data_only <=? seg_seqno u)
               (unacked state_fin_sent))
  /\ receive_ack_fin state' = send_fin state_fin_sent || receive_ack_fin state_fin_sent.
Proof.
  apply (ctcp_receive_ack_processing (lib := sink_lib 100 [])
           state_fin_sent ack_of_data_only 20).
  - repeat split; vm_compute; reflexivity.
  - vm_compute. reflexivity.
Defined.

(** C5 (defect in the code).  The flag the code calls "receive ack for my
    fin", which the timer reads as "received an ACK for the sent FIN", is
    set by every ACK that arrives once a FIN has been sent; the ackno is
    never compared with the seqno of the FIN.  We have sent the segments
    1..10 and 11..20 and our FIN (seqno 21), and the FIN of the peer has
    arrived; the peer's ACK for the first segment only (ackno 11) removes
    that segment, exactly the one whose seqno is below 11, and yet sets
    FIN-ACKed, so that the next timer tick tears the connection down while
    the second data segment and the FIN are still unacknowledged. *)
Theorem ack_below_fin_sets_fin_acked :
  let lib := sink_lib 100 [] in
  let state' := ctcp_receive (lib := lib) state_both_fins ack_of_data_only 20 in
  reaches_ack_block (lib := lib) state_both_fins ack_of_data_only
  /\ has_ack ack_of_data_only = true
  /\ seg_ackno ack_of_data_only = 11
  /\ send_fin state_both_fins = true
  /\ receive_fin state_both_fins = true
  /\ receive_ack_fin state_both_fins = false
  /\ unacked state_both_fins = [own_data; own_data_11; own_fin_21]
  /\ map seg_seqno (unacked state_both_fins) = [1; 11; 21]
  /\ has_fin own_fin_21 = true
  /\ unacked state' = [own_data_11; own_fin_21]
  /\ receive_ack_fin state' = true
  /\ exists gone,
       CtcpTimer.ctcp_timer_state (lib := lib) state' = CtcpTimer.TornDown gone
       /\ map seg_seqno (unacked gone) = [11; 21]
       /\ sent_segments (conn gone) = [].
Proof.
  cbv zeta. repeat split; try (vm_compute; reflexivity).
  eexists. split; [vm_compute; reflexivity|].
  split; vm_compute; reflexivity.
Qed.

(** C1 (defect in the code).  [ctcp_output] leaves its loop by [return] when
    the sink lacks room for the head segment, so the ACK for what the same
    call has delivered is skipped.  The peer's segments 11..20 and 1..10
    arrive in this order while the sink has room for 15 bytes: the ten bytes
    of the first segment are written, ackno moves to 11, the second segment
    stays buffered, and nothing is sent. *)
Theorem ctcp_output_return_skips_ack :
  let lib := sink_lib 15 [] in
  let state1 := ctcp_receive (lib := lib) (ctcp_init (test_cfg 1440)) seg_b 30 in
  let state2 := ctcp_receive (lib := lib) state1 seg_a 30 in
  unoutput state1 = [seg_b] /\ conn state1 = []
  /\ conn state2 = [ConnBufspace 15; ConnOutput (seg_data seg_a); ConnBufspace 5]
  /\ delivered_bytes (conn state2) = seg_data seg_a
  /\ ackno state2 = 11
  /\ unoutput state2 = [seg_b]
  /\ sent_segments (conn state2) = []
  /\ state2 = ctcp_output (lib := lib)
                (set_unoutput (ctcp_init (test_cfg 1440)) [seg_a; seg_b]).
Proof.
  vm_compute. repeat split.
Qed.

End CtcpClaims.

(* ================================================================= *)
(** * Properties of the congestion controller *)

Section BbrProperties.
Import Bbr.

Lemma bbr_mode_eqb_eq (a b : bbr_mode) : bbr_mode_eqb a b = true <-> a = b.
Proof. destruct a, b; cbn; split; intros H; try reflexivity; discriminate H. Qed.

Lemma bbr_reset_mode_not_probe_rtt (bbr : bbr_state) (r : Z) :
  mode (bbr_reset_mode bbr r) <> BBR_PROBE_RTT.
Proof.
  unfold bbr_reset_mode. destruct (negb (bbr_full_bw_reached bbr)); discriminate.
Qed.

(** The exit test [probe_rtt_done_stamp >= current_time()] holds from the
    moment PROBE_RTT is entered: unless the clock advances by more than 200 ms
    between two readings inside one call, the call that enters PROBE_RTT
    leaves it again. *)
Lemma bbr_update_min_rtt_never_holds (bbr : bbr_state) (rtt_sample t1 t2 t3 r : Z) :
  mode bbr <> BBR_PROBE_RTT ->
  t3 <= t2 + bbr_probe_rtt_mode_ms ->
  mode (bbr_update_min_rtt bbr rtt_sample t1 t2 t3 r) <> BBR_PROBE_RTT.
Proof.
  intros Hm Ht. unfold bbr_update_min_rtt, bbr_exit_probe_rtt.
  set (b1 := bbr_enter_probe_rtt bbr rtt_sample t1 t2).
  destruct (bbr_mode_eqb (mode b1) BBR_PROBE_RTT) eqn:Hb1; cbn [andb].
  - assert (Hstamp : probe_rtt_done_stamp b1 = bbr_probe_rtt_mode_ms + t2).
    { revert Hb1. unfold b1, bbr_enter_probe_rtt.
      destruct (min_rtt_loop _ _ _) as [filter min_rtt].
      destruct (_ && _); [reflexivity|].
      cbn. intros Hb1. apply bbr_mode_eqb_eq in Hb1. contradiction. }
    rewrite Hstamp.
    destruct (Z.geb_spec (bbr_probe_rtt_mode_ms + t2) t3) as [_|Hlt]; [|lia].
    destruct (restore_cwnd (bbr_reset_mode b1 r)); cbn [mode set_cwnd_restore];
      apply bbr_reset_mode_not_probe_rtt.
  - intros H. apply bbr_mode_eqb_eq in H. congruence.
Qed.

(** Conversely, a controller that is in PROBE_RTT when the 200 ms have
    elapsed stays there. *)
Lemma bbr_update_min_rtt_stuck (bbr : bbr_state) (rtt_sample t1 t2 t3 r : Z) :
  mode bbr = BBR_PROBE_RTT ->
  probe_rtt_done_stamp bbr < t3 ->
  mode (bbr_update_min_rtt bbr rtt_sample t1 t2 t3 r) = BBR_PROBE_RTT.
Proof.
  intros Hm Ht. unfold bbr_update_min_rtt, bbr_exit_probe_rtt, bbr_enter_probe_rtt.
  destruct (min_rtt_loop _ _ _) as [filter min_rtt].
  cbn [mode set_min_rtt min_rtt_us]. rewrite Hm. cbn [bbr_mode_eqb negb].
  rewrite andb_false_r. cbn [mode set_min_rtt probe_rtt_done_stamp andb].
  rewrite Hm. cbn [bbr_mode_eqb andb].
  destruct (Z.geb_spec (probe_rtt_done_stamp bbr) t3) as [Hge|_]; [lia|].
  cbn. exact Hm.
Qed.

(** After a round in PROBE_BW the cycle index is below CYCLE_LEN - 1. *)
Lemma bbr_advance_cycle_phase_range (bbr : bbr_state) :
  0 <= cycle_idx bbr ->
  0 <= cycle_idx (bbr_advance_cycle_phase bbr) < CYCLE_LEN - 1.
Proof.
  intros H. unfold bbr_advance_cycle_phase. cbn [cycle_idx set_pacing_gain set_gains set_cycle_idx].
  unfold CYCLE_LEN. rewrite Z.rem_mod_nonneg by lia.
  apply Z.mod_pos_bound. lia.
Qed.

(** The phase PROBE_BW is entered with. *)
Lemma bbr_reset_probe_bw_mode_entry (bbr : bbr_state) (r : Z) :
  0 <= r < 2 ^ 32 ->
  let bbr' := bbr_reset_probe_bw_mode bbr r in
  mode bbr' = BBR_PROBE_BW
  /\ cwnd_gain bbr' = 2
  /\ cycle_idx bbr' = CYCLE_LEN - 1 - r mod 7.
Proof.
  intros Hr bbr'. unfold bbr', bbr_reset_probe_bw_mode.
  cbn [mode cwnd_gain cycle_idx set_gains set_cycle_idx].
  split; [reflexivity|]. split; [reflexivity|].
  unfold u32, CYCLE_LEN, bbr_cycle_rand.
  rewrite (Z.mod_small r) by exact Hr.
  pose proof (Z.mod_pos_bound r 7 ltac:(lia)).
  apply Z.mod_small. lia.
Qed.

End BbrProperties.

Section BbrClaims.
Import Bbr.

(** C7 (defect in the code).  Entering PROBE_RTT sets both gains to unity,
    saves cwnd and sets the exit stamp 200 ms ahead, and leaving restores
    max(cwnd, saved) and goes to STARTUP or PROBE_BW as the claim says; but
    the exit test reads [probe_rtt_done_stamp >= current_time()], which
    holds at once.  A controller in STARTUP whose RTT sample 50 exceeds the
    recorded minimum 40 enters PROBE_RTT at time 5000 and, in the same call
    and at the same time, is back in STARTUP: it has stayed 0 ms, not 200. *)
Theorem bbr_probe_rtt_left_at_once :
  let entered := bbr_enter_probe_rtt startup_state 50 5000 5000 in
  let after := bbr_update_min_rtt startup_state 50 5000 5000 5000 0 in
  mode entered = BBR_PROBE_RTT
  /\ pacing_gain entered = BBR_UNIT /\ cwnd_gain entered = BBR_UNIT
  /\ prior_cwnd entered = cwnd startup_state
  /\ probe_rtt_done_stamp entered = 5000 + 200
  /\ after = bbr_exit_probe_rtt entered 5000 0
  /\ mode after = BBR_STARTUP
  /\ cwnd after = Z.max (cwnd entered) (prior_cwnd entered)
  /\ 5000 < probe_rtt_done_stamp after.
Proof.
  vm_compute. repeat split.
Qed.

(** C8 (defect in the code).  On entry to PROBE_BW cwnd_gain is 2 and the
    cycle index is CYCLE_LEN - 1 - rand() % 7 (see
    [bbr_reset_probe_bw_mode_entry]), but the index advances modulo
    CYCLE_LEN - 1 = 7, so the phase 7 is never taken again, and the gain
    table, initialised with integer quotients, holds 1, 0, 1, 1, 1, 1, 1, 1
    in place of 5/4, 3/4, 1, 1, 1, 1, 1, 1. *)
Theorem bbr_gain_cycle_skips_phase_and_truncates :
  cycle_idx (bbr_reset_probe_bw_mode startup_state 0) = CYCLE_LEN - 1
  /\ cwnd_gain (bbr_reset_probe_bw_mode startup_state 0) = 2
  /\ cycle_indices 16 (bbr_reset_probe_bw_mode startup_state 0)
     = [1; 2; 3; 4; 5; 6; 0; 1; 2; 3; 4; 5; 6; 0; 1; 2]
  /\ cycle_idx (bbr_advance_cycle_phase (probe_bw_state 6)) = 0
  /\ bbr_pacing_gain = [1; 0; 1; 1; 1; 1; 1; 1]
  /\ map (Z.mul 4) bbr_pacing_gain <> spec_gain_cycle_quarters
  /\ pacing_gain (bbr_advance_cycle_phase (probe_bw_state 6)) = 1
  /\ pacing_gain (bbr_advance_cycle_phase (probe_bw_state 0)) = 0.
Proof.
  repeat split; try (vm_compute; reflexivity).
  vm_compute. discriminate.
Qed.

End BbrClaims.

(* ================================================================= *)
(** * Further properties of the router *)

Section FurtherIpProperties.
Import Router.
Context {lib : RouterLib}.

Lemma sr_send_icmp_t3_format (sr : sr_instance) (packet offender : frame)
      (ty code : Z) (interface : string) (rec_if : sr_if) :
  eth packet = eth offender ->
  ip_src (iph packet) = ip_src (iph offender) ->
  sr_get_interface sr interface = Some rec_if ->
  (8 <= length (body packet))%nat ->
  exists reply,
    sr_send_icmp_t3 sr packet ty code interface = Some [SendPacket reply 70 interface]
    /\ icmp_error_for reply ty code rec_if offender packet.
Proof.
  intros Heth Hsrc Hif Hbody. unfold sr_send_icmp_t3. rewrite Hif.
  eexists. split; [reflexivity|].
  eexists.
  cbn [body eth iph icmp_type icmp_code icmp_sum set_icmp_sum set_ip_sum
       ether_dhost ether_shost ip_src ip_dst ip_ttl ip_off ip_sum
       ip_hl ip_v ip_tos ip_len ip_id ip_p unused next_mtu data].
  rewrite Heth, Hsrc.
  repeat (split; [reflexivity|]).
  split; [|reflexivity].
  unfold size_t, sizeof_sr_ip_hdr_t, sizeof_sr_ethernet_hdr_t.
  rewrite Z.mod_small by lia. lia.
Qed.

Lemma sr_send_icmp_not_silent (sr : sr_instance) (packet : frame) (ty code : Z)
      (interface : string) :
  sr_send_icmp sr packet ty code interface <> Some []
  /\ sr_send_icmp_t3 sr packet ty code interface <> Some [].
Proof.
  unfold sr_send_icmp, sr_send_icmp_t3.
  destruct (sr_get_interface sr interface); split; discriminate.
Qed.

(** The transit path of [sr_handle_ip], up to the route lookup. *)
Lemma sr_handle_ip_transit (sr : sr_instance) (packet : frame) (len : Z)
      (interface : string) :
  ip_accepted packet len -> ~ for_me sr packet ->
  sr_handle_ip sr packet len interface =
  if u8 (ip_ttl (iph packet) - 1) =? 0 then
    sr_send_icmp_t3 sr
      (set_iph packet (set_ip_ttl (iph packet) (u8 (ip_ttl (iph packet) - 1))))
      11 0 interface
  else
    match sr_rt_for_dst sr (ip_dst (iph packet)) with
    | None => sr_send_icmp_t3 sr (transit_packet packet) 3 0 interface
    | Some out_rt =>
        match sr_arpcache_lookup sr (gw out_rt) with
        | Some entry =>
            match sr_get_interface sr (Router.interface out_rt) with
            | None => None
            | Some if_entry =>
                Some [ArpLookup (gw out_rt);
                      SendPacket
                        (set_eth (transit_packet packet)
                                 (mk_eth (arp_mac entry) (addr if_entry)
                                         (ether_type (eth packet))))
                        len (Router.interface out_rt)]
            end
        | None =>
            Some [ArpLookup (gw out_rt);
                  QueueReq (gw out_rt) (transit_packet packet) len
                           (Router.interface out_rt)]
        end
    end.
Proof.
  intros [Hlen Hsum] Hme. unfold sr_handle_ip.
  destruct (Z.ltb_spec (size_t (len - sizeof_sr_ethernet_hdr_t)) sizeof_sr_ip_hdr_t);
    [lia|].
  rewrite <- Hsum, Z.eqb_refl. cbn [negb].
  destruct (existsb _ (if_list sr)) eqn:Hex.
  { exfalso. apply Hme. apply for_me_existsb. exact Hex. }
  cbn [ip_ttl set_ip_ttl ip_dst set_ip_sum].
  destruct (u8 (ip_ttl (iph packet) - 1) =? 0); reflexivity.
Qed.

Lemma ip_accepted_dec (packet : frame) (len : Z) :
  ip_accepted packet len \/ ~ ip_accepted packet len.
Proof.
  unfold ip_accepted.
  destruct (Z_le_dec sizeof_sr_ip_hdr_t (size_t (len - sizeof_sr_ethernet_hdr_t)));
    destruct (Z.eq_dec (ip_sum (iph packet))
                       (cksum (ip_bytes (set_ip_sum (iph packet) 0))));
    tauto.
Qed.

Lemma for_me_dec (sr : sr_instance) (packet : frame) :
  for_me sr packet \/ ~ for_me sr packet.
Proof.
  rewrite for_me_existsb. destruct (existsb _ (if_list sr)); [left|right]; congruence.
Qed.

(** The router stays silent on exactly the frames that fail the length test
    or the checksum test of [sr_handle_ip]: every other frame draws a frame,
    a queue entry or the fault of an unknown interface. *)
Theorem sr_handle_ip_silent_iff_rejected (sr : sr_instance) (packet : frame)
        (len : Z) (interface : string) :
  sr_handle_ip sr packet len interface = Some [] <-> ~ ip_accepted packet len.
Proof.
  split.
  - intros Hrun Hacc.
    destruct (for_me_dec sr packet) as [Hme|Hme].
    + rewrite (sr_handle_ip_local sr packet len interface Hacc Hme) in Hrun.
      destruct (sr_send_icmp_not_silent sr packet 0 0 interface) as [H1 _].
      destruct (sr_send_icmp_not_silent sr packet 3 3 interface) as [_ H2].
      destruct (ip_p (iph packet) =? ip_protocol_icmp); contradiction.
    + rewrite (sr_handle_ip_transit sr packet len interface Hacc Hme) in Hrun.
      destruct (u8 (ip_ttl (iph packet) - 1) =? 0).
      { exact (proj2 (sr_send_icmp_not_silent sr _ 11 0 interface) Hrun). }
      destruct (sr_rt_for_dst sr (ip_dst (iph packet))) as [out_rt|].
      * destruct (sr_arpcache_lookup sr (gw out_rt)); [|discriminate Hrun].
        destruct (sr_get_interface sr (Router.interface out_rt)); discriminate Hrun.
      * exact (proj2 (sr_send_icmp_not_silent sr _ 3 0 interface) Hrun).
  - intros Hrej. unfold sr_handle_ip, ip_accepted in *.
    destruct (Z.ltb_spec (size_t (len - sizeof_sr_ethernet_hdr_t)) sizeof_sr_ip_hdr_t)
      as [_|Hge]; [reflexivity|].
    destruct (Z.eqb_spec (ip_sum (iph packet))
                         (cksum (ip_bytes (set_ip_sum (iph packet) 0))))
      as [Heq|_]; [|reflexivity].
    exfalso. apply Hrej. split; assumption.
Qed.

(** Forwarding on a cache hit: the frame leaves on the interface of the
    route with the TTL one lower (modulo 256) and a header that passes the
    router's own length and checksum tests; no other field of the IP header
    and no byte behind it changes, and the Ethernet addresses are those of
    the outgoing interface and of the cached next hop. *)
Theorem sr_handle_ip_forward_preserves (sr : sr_instance) (packet : frame)
        (len : Z) (interface : string) (out_rt : sr_rt) (entry : sr_arpentry)
        (if_entry : sr_if) :
  ip_accepted packet len ->
  ~ for_me sr packet ->
  u8 (ip_ttl (iph packet) - 1) <> 0 ->
  sr_rt_for_dst sr (ip_dst (iph packet)) = Some out_rt ->
  sr_arpcache_lookup sr (gw out_rt) = Some entry ->
  sr_get_interface sr (Router.interface out_rt) = Some if_entry ->
  exists out,
    sr_handle_ip sr packet len interface
    = Some [ArpLookup (gw out_rt); SendPacket out len (Router.interface out_rt)]
    /\ ip_ttl (iph out) = u8 (ip_ttl (iph packet) - 1)
    /\ ip_accepted out len
    /\ same_but_ttl_sum (iph packet) (iph out)
    /\ body out = body packet
    /\ ether_type (eth out) = ether_type (eth packet)
    /\ ether_shost (eth out) = addr if_entry
    /\ ether_dhost (eth out) = arp_mac entry.
Proof.
  intros Hacc Hme Httl Hrt Hhit Hif.
  rewrite (sr_handle_ip_transit sr packet len interface Hacc Hme).
  destruct (Z.eqb_spec (u8 (ip_ttl (iph packet) - 1)) 0) as [Hz|_];
    [contradiction|].
  rewrite Hrt, Hhit, Hif.
  eexists. split; [reflexivity|].
  cbn. split; [reflexivity|].
  split; [split; [apply Hacc | reflexivity]|].
  repeat split.
Qed.

(** TTL expiry: a transit packet whose TTL is 1 (modulo 256) is answered
    with one ICMP Time Exceeded message (type 11, code 0) to its source, and
    neither the routing table nor the ARP cache is consulted.  The header
    embedded in the message is the one of the buffer at that moment: TTL
    already 0, checksum still the one received. *)
Theorem sr_handle_ip_time_exceeded (sr : sr_instance) (packet : frame)
        (len : Z) (interface : string) (rec_if : sr_if) :
  ip_accepted packet len ->
  ~ for_me sr packet ->
  u8 (ip_ttl (iph packet) - 1) = 0 ->
  sr_get_interface sr interface = Some rec_if ->
  (8 <= length (body packet))%nat ->
  exists reply,
    sr_handle_ip sr packet len interface = Some [SendPacket reply 70 interface]
    /\ icmp_error_for reply 11 0 rec_if packet
                      (set_iph packet (set_ip_ttl (iph packet) 0)).
Proof.
  intros Hacc Hme Httl Hif Hbody.
  rewrite (sr_handle_ip_transit sr packet len interface Hacc Hme).
  rewrite Httl. cbn [Z.eqb].
  exact (sr_send_icmp_t3_format sr
           (set_iph packet (set_ip_ttl (iph packet) 0)) packet 11 0 interface
           rec_if eq_refl eq_refl Hif Hbody).
Qed.

(** A transit packet that arrives with TTL 0 draws no Time Exceeded: the
    8-bit decrement wraps, and the packet goes on (here onto the ARP queue)
    with TTL 255 and a fresh checksum. *)
Theorem sr_handle_ip_ttl_zero_wraps (sr : sr_instance) (packet : frame)
        (len : Z) (interface : string) (out_rt : sr_rt) :
  ip_accepted packet len ->
  ~ for_me sr packet ->
  ip_ttl (iph packet) = 0 ->
  sr_rt_for_dst sr (ip_dst (iph packet)) = Some out_rt ->
  sr_arpcache_lookup sr (gw out_rt) = None ->
  exists out,
    sr_handle_ip sr packet len interface
    = Some [ArpLookup (gw out_rt);
            QueueReq (gw out_rt) out len (Router.interface out_rt)]
    /\ ip_ttl (iph out) = 255
    /\ ip_accepted out len.
Proof.
  intros Hacc Hme Httl Hrt Hmiss.
  rewrite (sr_handle_ip_transit sr packet len interface Hacc Hme).
  rewrite Httl. change (u8 (0 - 1) =? 0) with false. cbn iota.
  rewrite Hrt, Hmiss.
  eexists. split; [reflexivity|].
  unfold transit_packet. rewrite Httl.
  split; [reflexivity|]. split; [apply Hacc | reflexivity].
Qed.

(** No route: a transit packet with TTL left whose destination no entry of
    the routing table matches is answered with ICMP Destination Net
    Unreachable (type 3, code 0); the embedded header carries the
    decremented TTL and the recomputed checksum. *)
Theorem sr_handle_ip_net_unreachable (sr : sr_instance) (packet : frame)
        (len : Z) (interface : string) (rec_if : sr_if) :
  ip_accepted packet len ->
  ~ for_me sr packet ->
  u8 (ip_ttl (iph packet) - 1) <> 0 ->
  Forall (fun r => ~ matches (ip_dst (iph packet)) r) (routing_table sr) ->
  sr_get_interface sr interface = Some rec_if ->
  (8 <= length (body packet))%nat ->
  exists reply,
    sr_handle_ip sr packet len interface = Some [SendPacket reply 70 interface]
    /\ icmp_error_for reply 3 0 rec_if packet (transit_packet packet).
Proof.
  intros Hacc Hme Httl Hno Hif Hbody.
  rewrite (sr_handle_ip_transit sr packet len interface Hacc Hme).
  destruct (Z.eqb_spec (u8 (ip_ttl (iph packet) - 1)) 0) as [Hz|_];
    [contradiction|].
  apply rt_scan_none in Hno. unfold sr_rt_for_dst. rewrite Hno.
  destruct (sr_send_icmp_t3_format sr (transit_packet packet) packet 3 0
              interface rec_if eq_refl eq_refl Hif Hbody) as (reply & Hrun & Hfmt).
  exists reply. split; [exact Hrun | exact Hfmt].
Qed.

(** A packet addressed to the router that is not ICMP is answered with ICMP
    Port Unreachable (type 3, code 3), whatever its protocol; the embedded
    header is the received one. *)
Theorem sr_handle_ip_port_unreachable (sr : sr_instance) (packet : frame)
        (len : Z) (interface : string) (rec_if : sr_if) :
  ip_accepted packet len ->
  for_me sr packet ->
  ip_p (iph packet) <> ip_protocol_icmp ->
  sr_get_interface sr interface = Some rec_if ->
  (8 <= length (body packet))%nat ->
  exists reply,
    sr_handle_ip sr packet len interface = Some [SendPacket reply 70 interface]
    /\ icmp_error_for reply 3 3 rec_if packet packet.
Proof.
  intros Hacc Hme Hp Hif Hbody.
  rewrite (sr_handle_ip_local sr packet len interface Hacc Hme).
  destruct (Z.eqb_spec (ip_p (iph packet)) ip_protocol_icmp) as [Heq|_];
    [contradiction|].
  exact (sr_send_icmp_t3_format sr packet packet 3 3 interface rec_if
           eq_refl eq_refl Hif Hbody).
Qed.

End FurtherIpProperties.

Section FurtherIpWitnesses.
Import Router.

Lemma sr_handle_ip_forward_preserves_witness :
  exists out,
    sr_handle_ip (lib := lib_with_cache [gateway_entry]) gateway_sr
                 (transit_with_ttl 64) 50 "eth0"
    = Some [ArpLookup (gw gateway_route); SendPacket out 50 "eth1"]
    /\ ip_ttl (iph out) = u8 (ip_ttl (iph (transit_with_ttl 64)) - 1)
    /\ ip_accepted (lib := lib_with_cache [gateway_entry]) out 50
    /\ same_but_ttl_sum (iph (transit_with_ttl 64)) (iph out)
    /\ body out = body (transit_with_ttl 64)
    /\ ether_type (eth out) = ether_type (eth (transit_with_ttl 64))
    /\ ether_shost (eth out) = addr eth1
    /\ ether_dhost (eth out) = arp_mac gateway_entry.
Proof.
  apply (sr_handle_ip_forward_preserves (lib := lib_with_cache [gateway_entry])
           gateway_sr (transit_with_ttl 64) 50 "eth0" gateway_route
           gateway_entry eth1).
  - split; vm_compute; [discriminate | reflexivity].
  - intros (i & Hin & Hi). simpl in Hin.
    destruct Hin as [<-|[<-|[]]]; vm_compute in Hi; discriminate Hi.
  - vm_compute. discriminate.
  - vm_compute. reflexivity.
  - vm_compute. reflexivity.
  - vm_compute. reflexivity.
Defined.

Lemma sr_handle_ip_time_exceeded_witness :
  exists reply,
    sr_handle_ip (lib := lib_with_cache []) gateway_sr (transit_with_ttl 1) 50 "eth0"
    = Some [SendPacket reply 70 "eth0"]
    /\ icmp_error_for (lib := lib_with_cache []) reply 11 0 eth0 (transit_with_ttl 1)
         (set_iph (transit_with_ttl 1) (set_ip_ttl (iph (transit_with_ttl 1)) 0)).
Proof.
  apply (sr_handle_ip_time_exceeded (lib := lib_with_cache [])
           gateway_sr (transit_with_ttl 1) 50 "eth0" eth0).
  - split; vm_compute; [discriminate | reflexivity].
  - intros (i & Hin & Hi). simpl in Hin.
    destruct Hin as [<-|[<-|[]]]; vm_compute in Hi; discriminate Hi.
  - vm_compute. reflexivity.
  - vm_compute. reflexivity.
  - simpl. lia.
Defined.

Lemma sr_handle_ip_ttl_zero_wraps_witness :
  exists out,
    sr_handle_ip (lib := lib_with_cache []) gateway_sr (transit_with_ttl 0) 50 "eth0"
    = Some [ArpLookup (gw gateway_route);
            QueueReq (gw gateway_route) out 50 "eth1"]
    /\ ip_ttl (iph out) = 255
    /\ ip_accepted (lib := lib_with_cache []) out 50.
Proof.
  apply (sr_handle_ip_ttl_zero_wraps (lib := lib_with_cache [])
           gateway_sr (transit_with_ttl 0) 50 "eth0" gateway_route).
  - split; vm_compute; [discriminate | reflexivity].
  - intros (i & Hin & Hi). simpl in Hin.
    destruct Hin as [<-|[<-|[]]]; vm_compute in Hi; discriminate Hi.
  - reflexivity.
  - vm_compute. reflexivity.
  - reflexivity.
Defined.

Lemma sr_handle_ip_net_unreachable_witness :
  exists reply,
    sr_handle_ip (lib := lib_with_cache []) routeless_sr transit_frame 50 "eth0"
    = Some [SendPacket reply 70 "eth0"]
    /\ icmp_error_for (lib := lib_with_cache []) reply 3 0 eth0 transit_frame
                      (transit_packet (lib := lib_with_cache []) transit_frame).
Proof.
  apply (sr_handle_ip_net_unreachable (lib := lib_with_cache [])
           routeless_sr transit_frame 50 "eth0" eth0).
  - split; vm_compute; [discriminate | reflexivity].
  - intros (i & Hin & Hi). simpl in Hin.
    destruct Hin as [<-|[<-|[]]]; vm_compute in Hi; discriminate Hi.
  - vm_compute. discriminate.
  - constructor.
  - vm_compute. reflexivity.
  - simpl. lia.
Defined.

Lemma sr_handle_ip_port_unreachable_witness :
  exists reply,
    sr_handle_ip (lib := lib_with_cache []) echo_sr udp_to_router 50 "eth0"
    = Some [SendPacket reply 70 "eth0"]
    /\ icmp_error_for (lib := lib_with_cache []) reply 3 3 eth0 udp_to_router
                      udp_to_router.
Proof.
  apply (sr_handle_ip_port_unreachable (lib := lib_with_cache [])
           echo_sr udp_to_router 50 "eth0" eth0).
  - split; vm_compute; [discriminate | reflexivity].
  - exists eth0. split; [left; reflexivity | reflexivity].
  - vm_compute. discriminate.
  - vm_compute. reflexivity.
  - simpl. lia.
Defined.

End FurtherIpWitnesses.

Section FurtherArpProperties.
Import Router Arp.
Context {lib : ArpLib}.

(** Every ARP request that is long enough and arrives on a known interface
    is answered, whatever address it asks for: the reply names the receiving
    interface as sender and the requester as target, goes back to the
    Ethernet source of the request, and the cache is left alone. *)
Theorem sr_handle_arp_answers_every_request (sr : sr_instance)
        (packet : arp_frame) (len : Z) (interface : string) (iface : sr_if) :
  sizeof_sr_arp_hdr_t <= size_t (len - sizeof_sr_ethernet_hdr_t) ->
  ar_op (a_arp packet) = arp_op_request ->
  sr_get_interface sr interface = Some iface ->
  exists reply,
    sr_handle_arp sr packet len interface = Some [SendArp reply 42 interface]
    /\ ar_op (a_arp reply) = arp_op_reply
    /\ ar_sha (a_arp reply) = addr iface /\ ar_sip (a_arp reply) = ip iface
    /\ ar_tha (a_arp reply) = ar_sha (a_arp packet)
    /\ ar_tip (a_arp reply) = ar_sip (a_arp packet)
    /\ ar_hrd (a_arp reply) = ar_hrd (a_arp packet)
    /\ ar_pro (a_arp reply) = ar_pro (a_arp packet)
    /\ ar_hln (a_arp reply) = ar_hln (a_arp packet)
    /\ ar_pln (a_arp reply) = ar_pln (a_arp packet)
    /\ ether_dhost (a_eth reply) = ether_shost (a_eth packet)
    /\ ether_shost (a_eth reply) = addr iface
    /\ ether_type (a_eth reply) = ethertype_arp.
Proof.
  intros Hlen Hop Hif. unfold sr_handle_arp.
  destruct (Z.ltb_spec (size_t (len - sizeof_sr_ethernet_hdr_t)) sizeof_sr_arp_hdr_t);
    [lia|].
  rewrite Hop. cbn [Z.eqb arp_op_request arp_op_reply Pos.eqb].
  unfold sr_send_arp_reply. rewrite Hif.
  eexists. split; [reflexivity|]. cbn. repeat split.
Qed.

(** An ARP reply addressed to the receiving interface is cached under the
    sender addresses of the reply, and the packets that waited for it are
    sent, each once and in the order of the queue, to the sender MAC of the
    reply from the MAC of the receiving interface and through the receiving
    interface, whatever interface was recorded with the packet; the IP
    packet itself is not touched.  Then the request is destroyed. *)
Theorem sr_handle_arp_reply_drains (sr : sr_instance) (arp_hdr : sr_arp_hdr)
        (interface : string) (iface : sr_if) (req : sr_arpreq) :
  sr_get_interface sr interface = Some iface ->
  ip iface = ar_tip arp_hdr ->
  sr_arpcache_insert sr (ar_sha arp_hdr) (ar_sip arp_hdr) = Some req ->
  exists sends,
    sr_handle_arp_reply sr arp_hdr interface
    = Some (CacheInsert (ar_sha arp_hdr) (ar_sip arp_hdr)
            :: sends ++ [ReqDestroy req])
    /\ Forall2 (fun p e =>
                  exists out,
                    e = SendQueued out (pkt_len p) (name iface)
                    /\ ether_dhost (eth out) = ar_sha arp_hdr
                    /\ ether_shost (eth out) = addr iface
                    /\ ether_type (eth out) = ether_type (eth (pkt_buf p))
                    /\ iph out = iph (pkt_buf p)
                    /\ body out = body (pkt_buf p))
               (packets req) sends.
Proof.
  intros Hif Hme Hreq. unfold sr_handle_arp_reply.
  rewrite Hif, Hme, Z.eqb_refl, Hreq.
  eexists. split; [reflexivity|].
  induction (packets req) as [|p l IH]; cbn [map]; constructor; [|exact IH].
  eexists. repeat split.
Qed.

(** An ARP exchange between two routers.  The request [sr_send_arp_req]
    builds for a pending request is answered by any router that receives it
    on a known interface, and the answer, back at the interface the request
    left from, is accepted and cached under the responder's own interface
    address, whatever address the request asked for. *)
Theorem arp_exchange_caches_responder (sr_a sr_r : sr_instance)
        (req : sr_arpreq) (first : sr_packet) (rest : list sr_packet)
        (if_a if_r : sr_if) (j : string) :
  packets req = first :: rest ->
  sr_get_interface sr_a (pkt_iface first) = Some if_a ->
  sr_get_interface sr_a (name if_a) = Some if_a ->
  sr_get_interface sr_r j = Some if_r ->
  exists request reply effects,
    sr_send_arp_req sr_a req = Some [SendArp request 42 (name if_a)]
    /\ ar_tip (a_arp request) = req_ip req
    /\ sr_handle_arp sr_r request 42 j = Some [SendArp reply 42 j]
    /\ sr_handle_arp sr_a reply 42 (name if_a)
       = Some (CacheInsert (addr if_r) (ip if_r) :: effects).
Proof.
  intros Hp Hfa Hna Hr.
  assert (H42 : (size_t (42 - sizeof_sr_ethernet_hdr_t) <? sizeof_sr_arp_hdr_t) = false)
    by reflexivity.
  unfold sr_send_arp_req. rewrite Hp, Hfa.
  eexists. eexists.
  exists (match sr_arpcache_insert sr_a (addr if_r) (ip if_r) with
          | Some pending =>
              map (fun packet =>
                     SendQueued
                       (set_eth (pkt_buf packet)
                                (mk_eth (addr if_r) (addr if_a)
                                        (ether_type (eth (pkt_buf packet)))))
                       (pkt_len packet) (name if_a))
                  (packets pending)
              ++ [ReqDestroy pending]
          | None => []
          end).
  split; [reflexivity|]. split; [reflexivity|].
  split.
  - unfold sr_handle_arp. rewrite H42. cbn [a_arp ar_op].
    change (arp_op_request =? arp_op_reply) with false.
    change (arp_op_request =? arp_op_request) with true. cbn iota.
    unfold sr_send_arp_reply. rewrite Hr. reflexivity.
  - unfold sr_handle_arp. rewrite H42. cbn [a_arp ar_op].
    change (arp_op_reply =? arp_op_reply) with true. cbn iota.
    unfold sr_handle_arp_reply. rewrite Hna. cbn [ar_tip ar_sha ar_sip a_arp].
    rewrite Z.eqb_refl.
    destruct (sr_arpcache_insert sr_a (addr if_r) (ip if_r)); reflexivity.
Qed.

End FurtherArpProperties.

Section FurtherArpWitnesses.
Import Router Arp.

Lemma sr_handle_arp_answers_every_request_witness :
  ar_tip (a_arp arp_request_for_other) = ipv4 10 0 1 77
  /\ exists reply,
    sr_handle_arp (lib := arp_lib_with []) echo_sr arp_request_for_other 42 "eth0"
    = Some [SendArp reply 42 "eth0"]
    /\ ar_op (a_arp reply) = arp_op_reply
    /\ ar_sha (a_arp reply) = addr eth0 /\ ar_sip (a_arp reply) = ip eth0
    /\ ar_tha (a_arp reply) = ar_sha (a_arp arp_request_for_other)
    /\ ar_tip (a_arp reply) = ar_sip (a_arp arp_request_for_other)
    /\ ar_hrd (a_arp reply) = ar_hrd (a_arp arp_request_for_other)
    /\ ar_pro (a_arp reply) = ar_pro (a_arp arp_request_for_other)
    /\ ar_hln (a_arp reply) = ar_hln (a_arp arp_request_for_other)
    /\ ar_pln (a_arp reply) = ar_pln (a_arp arp_request_for_other)
    /\ ether_dhost (a_eth reply) = ether_shost (a_eth arp_request_for_other)
    /\ ether_shost (a_eth reply) = addr eth0
    /\ ether_type (a_eth reply) = ethertype_arp.
Proof.
  split; [reflexivity|].
  apply (sr_handle_arp_answers_every_request (lib := arp_lib_with [])
           echo_sr arp_request_for_other 42 "eth0" eth0).
  - vm_compute. discriminate.
  - reflexivity.
  - reflexivity.
Defined.

Lemma sr_handle_arp_reply_drains_witness :
  exists sends,
    sr_handle_arp_reply (lib := arp_lib_with [waiting_for_gateway]) echo_sr
                        arp_reply_from_gateway "eth1"
    = Some (CacheInsert (ar_sha arp_reply_from_gateway)
                        (ar_sip arp_reply_from_gateway)
            :: sends ++ [ReqDestroy waiting_for_gateway])
    /\ Forall2 (fun p e =>
                  exists out,
                    e = SendQueued out (pkt_len p) (name eth1)
                    /\ ether_dhost (eth out) = ar_sha arp_reply_from_gateway
                    /\ ether_shost (eth out) = addr eth1
                    /\ ether_type (eth out) = ether_type (eth (pkt_buf p))
                    /\ iph out = iph (pkt_buf p)
                    /\ body out = body (pkt_buf p))
               (packets waiting_for_gateway) sends.
Proof.
  apply (sr_handle_arp_reply_drains (lib := arp_lib_with [waiting_for_gateway])
           echo_sr arp_reply_from_gateway "eth1" eth1 waiting_for_gateway).
  - reflexivity.
  - reflexivity.
  - reflexivity.
Defined.

Lemma arp_exchange_caches_responder_witness :
  exists request reply effects,
    sr_send_arp_req (lib := arp_lib_with [waiting_for_gateway]) echo_sr
                    waiting_for_gateway
    = Some [SendArp request 42 (name eth1)]
    /\ ar_tip (a_arp request) = req_ip waiting_for_gateway
    /\ sr_handle_arp (lib := arp_lib_with [waiting_for_gateway]) gateway_sr
                     request 42 "eth0"
       = Some [SendArp reply 42 "eth0"]
    /\ sr_handle_arp (lib := arp_lib_with [waiting_for_gateway]) echo_sr
                     reply 42 (name eth1)
       = Some (CacheInsert (addr eth0) (ip eth0) :: effects).
Proof.
  apply (arp_exchange_caches_responder (lib := arp_lib_with [waiting_for_gateway])
           echo_sr gateway_sr waiting_for_gateway
           (mk_packet transit_frame 50 "eth1")
           [mk_packet echo_request 50 "eth0"] eth1 eth0 "eth0").
  - reflexivity.
  - reflexivity.
  - reflexivity.
  - reflexivity.
Defined.

End FurtherArpWitnesses.

(* ================================================================= *)
(** * Further properties of cTCP *)

Section FurtherCtcpProperties.
Import Ctcp.
Context {lib : CtcpLib}.

Lemma sends_ok_silent (h : list io_event) : sent_segments h = [] -> sends_ok h.
Proof.
  induction h as [|e h IH]; intros Hs; [constructor|].
  destruct e; cbn in Hs; try discriminate;
    (constructor; [exact I | exact (IH Hs)]).
Qed.

Lemma sends_ok_app (h1 h2 : list io_event) :
  sends_ok h1 -> sends_ok h2 -> sends_ok (h1 ++ h2).
Proof. intros H1 H2. apply Forall_app. split; assumption. Qed.

(** The history only grows in the loop of [ctcp_output], and by no call of
    [conn_send]. *)
Lemma ctcp_output_loop_history (q : list ctcp_segment) :
  forall state has_output,
  exists new,
    conn (snd (fst (ctcp_output_loop q state has_output))) = conn state ++ new
    /\ sent_segments new = [].
Proof.
  induction q as [|g q IH]; intros state ho; cbn [ctcp_output_loop].
  - exists []. cbn. rewrite app_nil_r. split; reflexivity.
  - destruct (ackno state =? seg_seqno g).
    2:{ exists []. cbn. rewrite app_nil_r. split; reflexivity. }
    destruct (_ <? _).
    { eexists. cbn. split; reflexivity. }
    match goal with
    | |- context [ctcp_output_loop q ?s true] =>
        destruct (IH s true) as (new & Hc & Hs); rewrite Hc
    end.
    destruct (has_fin g); cbn; rewrite <- !app_assoc; cbn;
      eexists; (split; [reflexivity|]); cbn; exact Hs.
Qed.

Lemma send_ack_segment_ok (state : ctcp_state) :
  exists ack,
    send_ack_segment state = call state (ConnSend ack sizeof_ctcp_segment_t)
    /\ corrupted ack = false
    /\ pure_ack ack (ackno state)
    /\ seg_seqno ack = seqno state.
Proof.
  unfold send_ack_segment. eexists. split; [reflexivity|].
  split; [|repeat split].
  unfold corrupted, set_seg_cksum. cbn. rewrite Z.eqb_refl. reflexivity.
Qed.

Lemma ctcp_output_history (state : ctcp_state) :
  exists new, conn (ctcp_output state) = conn state ++ new /\ sends_ok new.
Proof.
  unfold ctcp_output.
  destruct (ctcp_output_loop_history (unoutput state) state false)
    as (new & Hc & Hs).
  destruct (ctcp_output_loop (unoutput state) state false) as [[ex st] ho].
  cbn [fst snd] in Hc.
  assert (Hplain : exists new0, conn st = conn state ++ new0 /\ sends_ok new0).
  { exists new. split; [exact Hc | apply sends_ok_silent; exact Hs]. }
  assert (Hack : exists new0, conn (send_ack_segment st) = conn state ++ new0
                              /\ sends_ok new0).
  { destruct (send_ack_segment_ok st) as (ack & -> & Hcorr & Hp & _).
    exists (new ++ [ConnSend ack sizeof_ctcp_segment_t]).
    cbn [call set_conn conn]. rewrite Hc, app_assoc. split; [reflexivity|].
    apply sends_ok_app; [apply sends_ok_silent; exact Hs|].
    repeat constructor; [exact Hcorr|]. symmetry. apply Hp. }
  destruct ex; destruct ho; assumption.
Qed.

(** Whatever [ctcp_read] and [ctcp_receive] hand to [conn_send] (data, FIN
    and ACK segments) carries a checksum the receiver's test [corrupted]
    accepts, and is sent with the length its header states; the history of
    the connection only grows. *)
Theorem ctcp_sends_pass_checksum (state : ctcp_state) (segment : ctcp_segment)
        (len : Z) :
  (exists new, conn (ctcp_read state) = conn state ++ new /\ sends_ok new)
  /\ (exists new, conn (ctcp_receive state segment len) = conn state ++ new
                  /\ sends_ok new).
Proof.
  split.
  - unfold ctcp_read.
    destruct (_ <=? _); [exists []; rewrite app_nil_r; split; [reflexivity|constructor]|].
    destruct (send_fin state);
      [exists []; rewrite app_nil_r; split; [reflexivity|constructor]|].
    destruct (conn_input (conn state) MAX_SEG_DATA_SIZE) as [n buf].
    destruct (n =? 0).
    { eexists. cbn. split; [reflexivity|]. repeat constructor. }
    destruct (n =? -1).
    + cbn. rewrite <- !app_assoc. cbn. eexists. split; [reflexivity|].
      repeat constructor. cbn.
      unfold corrupted, set_seg_cksum. cbn. rewrite Z.eqb_refl. reflexivity.
    + cbn. rewrite <- !app_assoc. cbn. eexists. split; [reflexivity|].
      repeat constructor. cbn.
      unfold corrupted, set_seg_cksum. cbn. rewrite Z.eqb_refl. reflexivity.
  - unfold ctcp_receive.
    assert (Hack : exists new, conn (send_ack_segment state) = conn state ++ new
                               /\ sends_ok new).
    { destruct (send_ack_segment_ok state) as (ack & -> & Hcorr & Hp & _).
      eexists. cbn. split; [reflexivity|].
      repeat constructor; [exact Hcorr|]. symmetry. apply Hp. }
    destruct (corrupted segment);
      [exists []; rewrite app_nil_r; split; [reflexivity|constructor]|].
    destruct (_ && _); [exact Hack|].
    destruct (duplicate_in_unoutput state segment); [exact Hack|].
    destruct (ctcp_receive_blocks state segment) as (Hc & _).
    cbv zeta in Hc. rewrite <- Hc. apply ctcp_output_history.
Qed.

(** The loop of [ctcp_output] writes out the first [k] segments of the
    queue, whole, and leaves the others. *)
Lemma ctcp_output_loop_prefix (q : list ctcp_segment) :
  forall state has_output,
  exists k,
    (k <= length q)%nat
    /\ unoutput (snd (fst (ctcp_output_loop q state has_output))) = skipn k q
    /\ output_writes (conn (snd (fst (ctcp_output_loop q state has_output))))
       = output_writes (conn state) ++ flat_map segment_writes (firstn k q)
    /\ snd (ctcp_output_loop q state has_output)
       = has_output || negb (k =? 0)%nat.
Proof.
  induction q as [|g q IH]; intros state ho; cbn [ctcp_output_loop].
  - exists 0%nat. cbn. rewrite app_nil_r, orb_false_r. repeat split. lia.
  - destruct (ackno state =? seg_seqno g).
    2:{ exists 0%nat. cbn. rewrite app_nil_r, orb_false_r. repeat split. lia. }
    destruct (_ <? _).
    { exists 0%nat. cbn. rewrite output_writes_app. cbn.
      rewrite !app_nil_r, orb_false_r. repeat split. lia. }
    match goal with
    | |- context [ctcp_output_loop q ?s true] =>
        destruct (IH s true) as (k & Hk & Hu & Hw & Hh)
    end.
    exists (S k). rewrite Hu, Hw, Hh.
    cbn [length skipn firstn flat_map Nat.eqb negb orb].
    rewrite orb_true_r.
    split; [lia|]. split; [reflexivity|]. split; [|reflexivity].
    unfold segment_writes.
    destruct (has_fin g); cbn; rewrite !output_writes_app; cbn;
      rewrite <- ?app_assoc; cbn; rewrite ?app_nil_r; reflexivity.
Qed.

Lemma ctcp_output_leaves_suffix (state : ctcp_state) :
  exists k, unoutput (ctcp_output state) = skipn k (unoutput state).
Proof.
  unfold ctcp_output.
  destruct (ctcp_output_loop_prefix (unoutput state) state false)
    as (k & _ & Hu & _).
  destruct (ctcp_output_loop (unoutput state) state false) as [[ex st] ho].
  cbn [fst snd] in Hu. exists k.
  destruct ex; destruct ho; exact Hu.
Qed.

(** Whatever the sink answers, [ctcp_output] writes out a prefix of the
    unoutput queue in queue order, every segment of it whole (for a FIN
    followed by one empty write), removes exactly those segments, and sends
    at most one segment: a pure ACK that carries the resulting ackno, and
    only when at least one segment was written. *)
Theorem ctcp_output_delivers_a_prefix (state : ctcp_state) :
  let state' := ctcp_output state in
  exists k,
    (k <= length (unoutput state))%nat
    /\ unoutput state' = skipn k (unoutput state)
    /\ output_writes (conn state')
       = output_writes (conn state)
         ++ flat_map segment_writes (firstn k (unoutput state))
    /\ (sent_segments (conn state') = sent_segments (conn state)
        \/ ((0 < k)%nat
            /\ exists ack,
                 sent_segments (conn state') = sent_segments (conn state) ++ [ack]
                 /\ pure_ack ack (ackno state'))).
Proof.
  intros state'. subst state'. unfold ctcp_output.
  destruct (ctcp_output_loop_prefix (unoutput state) state false)
    as (k & Hk & Hu & Hw & Hh).
  pose proof (ctcp_output_loop_sends_nothing (unoutput state) state false) as Hs.
  destruct (ctcp_output_loop (unoutput state) state false) as [[ex st] ho].
  cbn [fst snd orb] in *.
  exists k. split; [exact Hk|].
  assert (Hplain : unoutput st = skipn k (unoutput state)
            /\ output_writes (conn st)
               = output_writes (conn state)
                 ++ flat_map segment_writes (firstn k (unoutput state))
            /\ (sent_segments (conn st) = sent_segments (conn state)
                \/ ((0 < k)%nat
                    /\ exists ack,
                         sent_segments (conn st) = sent_segments (conn state) ++ [ack]
                         /\ pure_ack ack (ackno st)))).
  { split; [exact Hu|]. split; [exact Hw|]. left. exact Hs. }
  assert (Hack : ho = true ->
            unoutput (send_ack_segment st) = skipn k (unoutput state)
            /\ output_writes (conn (send_ack_segment st))
               = output_writes (conn state)
                 ++ flat_map segment_writes (firstn k (unoutput state))
            /\ (sent_segments (conn (send_ack_segment st))
                = sent_segments (conn state)
                \/ ((0 < k)%nat
                    /\ exists ack,
                         sent_segments (conn (send_ack_segment st))
                         = sent_segments (conn state) ++ [ack]
                         /\ pure_ack ack (ackno (send_ack_segment st))))).
  { intros Hho. destruct (send_ack_segment_ok st) as (ack & -> & _ & Hp & _).
    cbn [call set_conn conn unoutput ackno].
    rewrite output_writes_app, sent_segments_app. cbn. rewrite app_nil_r.
    split; [exact Hu|]. split; [exact Hw|]. right. split.
    - destruct k; [rewrite Hho in Hh; discriminate Hh | lia].
    - exists ack. rewrite Hs. split; [reflexivity | exact Hp]. }
  destruct ex; try exact Hplain; destruct ho; auto.
Qed.

Lemma ctcp_receive_unacked_suffix (state : ctcp_state)
      (segment : ctcp_segment) (len : Z) :
  seqno (ctcp_receive state segment len) = seqno state
  /\ exists pre, unacked state = pre ++ unacked (ctcp_receive state segment len).
Proof.
  unfold ctcp_receive.
  destruct (corrupted segment); [split; [reflexivity | exists []; reflexivity]|].
  destruct (_ && _); [split; [reflexivity | exists []; reflexivity]|].
  destruct (duplicate_in_unoutput state segment);
    [split; [reflexivity | exists []; reflexivity]|].
  match goal with
  | |- context [ctcp_output ?s] =>
      destruct (ctcp_output_same_sender s) as (_ & Hq & Hu & _)
  end.
  rewrite Hq, Hu.
  destruct (remove_acked_spec (unacked state) (seg_ackno segment))
    as (pre & Hpre & _).
  unfold ctcp_receive_insert, ctcp_receive_fin, ctcp_receive_ack.
  destruct (has_ack segment), (send_fin state) eqn:Hsf', (has_fin segment),
    (has_payload segment); cbn; rewrite ?Hsf'; cbn;
    (split; [reflexivity|]);
    solve [exists pre; exact Hpre | exists []; reflexivity].
Qed.

(** [ctcp_receive] never touches the sender's clockwork: the
    configuration, the next sequence number, the retransmission counter and
    the time of the last transmission stay as they are for every segment,
    acknowledgements included; [send_fin] stays, the two receive flags are
    never cleared, and the unacked queue only loses segments at its head. *)
Theorem ctcp_receive_leaves_retransmission_clock (state : ctcp_state)
        (segment : ctcp_segment) (len : Z) :
  let state' := ctcp_receive state segment len in
  cfg state' = cfg state
  /\ seqno state' = seqno state
  /\ retransmition state' = retransmition state
  /\ last_retransmit_time state' = last_retransmit_time state
  /\ send_fin state' = send_fin state
  /\ (receive_fin state' = receive_fin state \/ receive_fin state' = true)
  /\ (receive_ack_fin state' = receive_ack_fin state
      \/ receive_ack_fin state' = true)
  /\ exists pre, unacked state = pre ++ unacked state'.
Proof.
  intros state'. subst state'. unfold ctcp_receive.
  assert (Hsame : forall s, s = state \/ s = send_ack_segment state ->
            cfg s = cfg state /\ seqno s = seqno state
            /\ retransmition s = retransmition state
            /\ last_retransmit_time s = last_retransmit_time state
            /\ send_fin s = send_fin state
            /\ (receive_fin s = receive_fin state \/ receive_fin s = true)
            /\ (receive_ack_fin s = receive_ack_fin state
                \/ receive_ack_fin s = true)
            /\ exists pre, unacked state = pre ++ unacked s).
  { intros s [-> | ->]; cbn; repeat split; auto; exists []; reflexivity. }
  destruct (corrupted segment); [apply Hsame; left; reflexivity|].
  destruct (_ && _); [apply Hsame; right; reflexivity|].
  destruct (duplicate_in_unoutput state segment);
    [apply Hsame; right; reflexivity|].
  clear Hsame.
  match goal with
  | |- context [ctcp_output ?s] =>
      destruct (ctcp_output_same_sender s)
        as (Hc & Hq & Hu & Hsf & Hrf & Hraf & Hrt & Hlt)
  end.
  rewrite Hc, Hq, Hu, Hsf, Hrf, Hraf, Hrt, Hlt.
  destruct (remove_acked_spec (unacked state) (seg_ackno segment))
    as (pre & Hpre & _).
  unfold ctcp_receive_insert, ctcp_receive_fin, ctcp_receive_ack.
  destruct (has_ack segment), (send_fin state) eqn:Hsf', (has_fin segment),
    (has_payload segment); cbn; rewrite ?Hsf'; cbn;
    repeat split; auto;
    solve [exists pre; exact Hpre | exists []; reflexivity].
Qed.

Lemma insert_by_seqno_In (g : ctcp_segment) (q : list ctcp_segment) :
  forall x, In x (insert_by_seqno g q) <-> x = g \/ In x q.
Proof.
  induction q as [|y q IH]; intros x; cbn.
  - intuition.
  - destruct (_ <? _); cbn; [intuition|]. rewrite IH. intuition.
Qed.

Lemma insert_by_seqno_ascending (g : ctcp_segment) (q : list ctcp_segment) :
  ascending q ->
  (forall x, In x q -> seg_seqno x <> seg_seqno g) ->
  ascending (insert_by_seqno g q).
Proof.
  induction q as [|y q IH]; intros Hasc Hne; cbn.
  - split; [constructor | exact I].
  - destruct Hasc as (Hy & Hq).
    destruct (Z.ltb_spec (seg_seqno g) (seg_seqno y)) as [Hlt|Hge].
    + cbn. split; [|split; assumption].
      constructor; [exact Hlt|].
      rewrite Forall_forall in Hy |- *. intros x Hx.
      specialize (Hy x Hx). lia.
    + cbn. split.
      * rewrite Forall_forall in Hy |- *. intros x Hx.
        apply insert_by_seqno_In in Hx. destruct Hx as [-> | Hx].
        -- specialize (Hne y (or_introl eq_refl)). lia.
        -- exact (Hy x Hx).
      * apply IH; [exact Hq|]. intros x Hx. apply Hne. right. exact Hx.
Qed.

Lemma insert_by_seqno_Permutation (g : ctcp_segment) (q : list ctcp_segment) :
  Permutation (g :: q) (insert_by_seqno g q).
Proof.
  induction q as [|y q IH]; cbn; [reflexivity|].
  destruct (_ <? _); [reflexivity|].
  eapply perm_trans; [apply perm_swap|]. apply perm_skip. exact IH.
Qed.

(** On a queue in ascending seqno order that does not hold the seqno of
    the segment yet, the three-way insertion of [ctcp_receive] (in front,
    behind, or by the walk over neighbours) adds the segment exactly once,
    loses nothing, and keeps the order ascending. *)
Theorem insert_unoutput_keeps_order (g : ctcp_segment) (q : list ctcp_segment) :
  ascending q ->
  (forall x, In x q -> seg_seqno x <> seg_seqno g) ->
  ascending (insert_unoutput g q) /\ Permutation (g :: q) (insert_unoutput g q).
Proof.
  intros Hasc Hne. rewrite (insert_unoutput_sorted g q Hasc Hne).
  split; [apply insert_by_seqno_ascending; assumption
         | apply insert_by_seqno_Permutation].
Qed.

Lemma ascending_skipn (k : nat) :
  forall q, ascending q -> ascending (skipn k q).
Proof.
  induction k as [|k IH]; intros q Hq; [exact Hq|].
  destruct q as [|x q]; [exact I|]. cbn. apply IH. apply Hq.
Qed.

Lemma in_skipn {A : Type} (k : nat) :
  forall (l : list A) (x : A), In x (skipn k l) -> In x l.
Proof.
  induction k as [|k IH]; intros l x Hx; [exact Hx|].
  destruct l as [|y l]; [exact Hx|]. right. apply IH. exact Hx.
Qed.

(** A queue of fewer than 2^16 segments is searched in full by the
    duplicate test. *)
Lemma duplicate_in_unoutput_false (state : ctcp_state) (g : ctcp_segment) :
  Z.of_nat (length (unoutput state)) < 2 ^ 16 ->
  duplicate_in_unoutput state g = false ->
  forall x, In x (unoutput state) -> seg_seqno x <> seg_seqno g.
Proof.
  intros Hlen Hdup x Hx Heq. unfold duplicate_in_unoutput in Hdup.
  rewrite u16_small, Nat2Z.id, firstn_all in Hdup by lia.
  assert (Ht : existsb (fun u => seg_seqno u =? seg_seqno g) (unoutput state)
               = true).
  { apply existsb_exists. exists x. split; [exact Hx | apply Z.eqb_eq; exact Heq]. }
  congruence.
Qed.

(** [ctcp_receive] keeps the unoutput queue in strictly ascending seqno
    order (so it never holds two segments with one seqno), as long as the
    queue is shorter than the 2^16 nodes the duplicate test can count; the
    queue afterwards holds nothing but segments it held before and the
    segment received. *)
Theorem ctcp_receive_keeps_unoutput_ascending (state : ctcp_state)
        (g : ctcp_segment) (len : Z) :
  ascending (unoutput state) ->
  Z.of_nat (length (unoutput state)) < 2 ^ 16 ->
  ascending (unoutput (ctcp_receive state g len))
  /\ forall x, In x (unoutput (ctcp_receive state g len)) ->
               x = g \/ In x (unoutput state).
Proof.
  intros Hasc Hlen. unfold ctcp_receive.
  destruct (corrupted g); [split; [exact Hasc | auto]|].
  destruct (_ && _); [split; [exact Hasc | auto]|].
  destruct (duplicate_in_unoutput state g) eqn:Hdup;
    [split; [exact Hasc | auto]|].
  pose proof (duplicate_in_unoutput_false state g Hlen Hdup) as Hne.
  destruct (ctcp_receive_blocks state g) as (_ & _ & Hun). cbv zeta in Hun.
  match goal with
  | |- context [ctcp_output ?s] =>
      destruct (ctcp_output_leaves_suffix s) as (k & Hk)
  end.
  rewrite Hk, Hun. split.
  - apply ascending_skipn. destruct (_ || _); [|exact Hasc].
    rewrite (insert_unoutput_sorted g _ Hasc Hne).
    apply insert_by_seqno_ascending; assumption.
  - intros x Hx. apply in_skipn in Hx. destruct (_ || _); [|auto].
    rewrite (insert_unoutput_sorted g _ Hasc Hne) in Hx.
    apply insert_by_seqno_In in Hx. exact Hx.
Qed.

Lemma stream_ok_suffix (pre suf : list ctcp_segment) (s : Z) :
  stream_ok (pre ++ suf) s -> stream_ok suf s.
Proof.
  induction pre as [|x pre IH]; intros H; [exact H|].
  apply IH. cbn [app] in H. destruct H as ((_ & _ & _ & Hc) & He).
  cbn [end_ackno] in He.
  destruct (pre ++ suf) as [|y l] eqn:Hl; [exact I|].
  assert (Hy : seg_seqno y = advance (seg_seqno x) x) by apply Hc.
  unfold stream_ok. rewrite Hy. split; assumption.
Qed.

Lemma stream_ok_snoc (q : list ctcp_segment) (s : Z) (g : ctcp_segment) :
  stream_ok q s -> seg_seqno g = s -> payload_ok g ->
  has_payload g || has_fin g = true ->
  stream_ok (q ++ [g]) (advance s g).
Proof.
  intros Hq Hg Hok Hp. destruct q as [|f l].
  - cbn. rewrite Hg. repeat split; try assumption; apply Hok.
  - destruct Hq as (Hc & He). cbn [app]. unfold stream_ok. split.
    + apply (chained_app (f :: l) [g]). split; [exact Hc|].
      rewrite He. cbn. repeat split; try assumption; apply Hok.
    + rewrite (end_ackno_app (f :: l) [g]), He. reflexivity.
Qed.

(** The sender's bookkeeping is consistent and stays so: if the unacked
    queue is a gap-free stream of segments that ends at the next sequence
    number to assign, it still is after [ctcp_read] (for an application that
    hands over at most a segment's worth of bytes, and sequence numbers that
    do not wrap) and after [ctcp_receive] of any segment. *)
Theorem ctcp_keeps_sender_inv (state : ctcp_state) (segment : ctcp_segment)
        (len : Z) :
  sender_inv state ->
  input_ok (conn state) ->
  0 <= seqno state ->
  seqno state + MAX_SEG_DATA_SIZE < 2 ^ 32 ->
  sender_inv (ctcp_read state)
  /\ sender_inv (ctcp_receive state segment len).
Proof.
  intros Hinv Hin Hs0 Hs1. split.
  - unfold ctcp_read.
    destruct (_ <=? _); [exact Hinv|].
    destruct (send_fin state); [exact Hinv|].
    unfold input_ok in Hin.
    destruct (conn_input (conn state) MAX_SEG_DATA_SIZE) as [n buf].
    destruct (Z.eqb_spec n 0) as [Hn0|Hn0]; [exact Hinv|].
    unfold MAX_SEG_DATA_SIZE in *.
    destruct (Z.eqb_spec n (-1)) as [Hn1|Hn1].
    + unfold sender_inv. cbn.
      match goal with
      | |- stream_ok (_ ++ [?g]) _ =>
          replace (u32 (seqno state + 1)) with (advance (seqno state) g)
      end.
      * apply stream_ok_snoc; [exact Hinv | reflexivity | | reflexivity].
        split; cbn; [unfold sizeof_ctcp_segment_t; lia | reflexivity].
      * unfold advance, data_len, u32. cbn. unfold sizeof_ctcp_segment_t.
        rewrite Z.mod_small by lia. lia.
    + destruct Hin as [Hin | [Hin | (Hn & Hbuf)]]; [lia | lia |].
      assert (Hlen : u16 (sizeof_ctcp_segment_t + n) = 20 + n).
      { unfold sizeof_ctcp_segment_t. apply u16_small. lia. }
      unfold sender_inv. cbn -[Z.add Z.sub u16 u32].
      match goal with
      | |- stream_ok (_ ++ [?g]) _ =>
          replace (u32 (seqno state + n)) with (advance (seqno state) g)
      end.
      * apply stream_ok_snoc; [exact Hinv | reflexivity | | ].
        -- unfold payload_ok, data_len. cbn -[Z.add Z.sub u16 u32 Z.pow].
           rewrite Hlen, length_firstn. unfold sizeof_ctcp_segment_t. lia.
        -- unfold has_payload. cbn -[Z.add Z.sub u16 u32 size_t].
           rewrite Hlen.
           unfold sizeof_ctcp_segment_t, size_t.
           replace (20 + n - 20) with n by lia.
           rewrite Z.mod_small by lia.
           apply orb_true_iff. left. apply Z.gtb_lt. lia.
      * unfold advance, data_len, u32. cbn -[Z.add Z.sub u16 Z.pow Z.modulo].
        rewrite Hlen.
        unfold sizeof_ctcp_segment_t.
        rewrite Z.mod_small by lia. lia.
  - destruct (ctcp_receive_unacked_suffix state segment len)
      as (Hq & pre & Hpre).
    unfold sender_inv in *. rewrite Hq. rewrite Hpre in Hinv.
    exact (stream_ok_suffix _ _ _ Hinv).
Qed.

Lemma end_ackno_last (l : list ctcp_segment) :
  forall a f, chained a (f :: l) ->
  end_ackno a (f :: l) = advance (seg_seqno (last l f)) (last l f).
Proof.
  induction l as [|y l IH]; intros a f Hc.
  - cbn. destruct Hc as (-> & _). reflexivity.
  - destruct Hc as (_ & _ & _ & Hc).
    change (end_ackno a (f :: y :: l)) with (end_ackno (advance a f) (y :: l)).
    rewrite (IH _ y Hc), (last_cons l y f). reflexivity.
Qed.

(** Under the sender's invariant [on_air] is the distance, modulo 2^16,
    from the seqno of the oldest unacknowledged segment to the next sequence
    number to assign, less the one sequence number of a FIN at the tail. *)
Theorem on_air_counts_sequence_space (state : ctcp_state)
        (first : ctcp_segment) (rest : list ctcp_segment) :
  sender_inv state ->
  unacked state = first :: rest ->
  on_air state
  = u16 (seqno state - seg_seqno first
         - (if has_fin (last rest first) then 1 else 0)).
Proof.
  intros Hinv Hq. rewrite on_air_spec. unfold sender_inv in Hinv.
  rewrite Hq in *. destruct Hinv as (Hc & He).
  rewrite (end_ackno_last rest _ first Hc) in He.
  unfold spec_bytes_in_flight. rewrite last_cons.
  f_equal. unfold advance in He. lia.
Qed.

Lemma sends_ok_sent (h : list io_event) :
  sends_ok h -> Forall (fun g => corrupted g = false) (sent_segments h).
Proof.
  induction h as [|e h IH]; intros H; [constructor|].
  inversion H as [|e' h' He Hh]; subst.
  destruct e; cbn; auto. constructor; [apply He | auto].
Qed.

(** The receiver with an empty queue takes the segment that is next in
    sequence: it is written out and acknowledged at once. *)
Lemma ctcp_receive_next_in_order (state : ctcp_state) (g : ctcp_segment)
      (len : Z) :
  roomy ->
  unoutput state = [] ->
  corrupted g = false ->
  chained (ackno state) [g] ->
  0 <= ackno state ->
  advance (ackno state) g < 2 ^ 32 ->
  let state' := ctcp_receive state g len in
  ackno state' = advance (ackno state) g
  /\ unoutput state' = []
  /\ delivered_bytes (conn state') = delivered_bytes (conn state) ++ seg_data g
  /\ exists ack,
       pure_ack ack (advance (ackno state) g)
       /\ corrupted ack = false
       /\ sent_segments (conn state') = sent_segments (conn state) ++ [ack].
Proof.
  intros Hroom Hun Hcorr Hc Ha Hend state'.
  destruct Hc as (Hseq & Hok & Hp & Hnil).
  destruct (ctcp_receive_blocks state g) as (Hc1 & Ha1 & Hun1).
  cbv zeta in Hc1, Ha1, Hun1. rewrite Hp, Hun in Hun1. cbn in Hun1.
  assert (Hst : state' = ctcp_output
            (ctcp_receive_insert (ctcp_receive_fin (ctcp_receive_ack state g) g) g)).
  { unfold state', ctcp_receive. rewrite Hcorr, Hseq, Z.ltb_irrefl.
    cbn [andb]. unfold duplicate_in_unoutput. rewrite Hun. reflexivity. }
  set (state1 := ctcp_receive_insert _ g) in *.
  destruct (ctcp_output_delivers state1 [g] [] Hroom Hun1) as (Hk & Hu & Hd & _ & Hs).
  - rewrite Ha1. split; [exact Hseq|]. split; [exact Hok|].
    split; [exact Hp | exact I].
  - lia.
  - rewrite Ha1. exact Hend.
  - exact I.
  - rewrite Ha1 in Hk, Hs. rewrite Hc1 in Hd, Hs. cbn in Hk, Hd, Hs.
    rewrite app_nil_r in Hd.
    destruct Hs as (ack & Hpure & Hsent); [discriminate|].
    rewrite Hst. split; [exact Hk|]. split; [exact Hu|]. split; [exact Hd|].
    exists ack. split; [exact Hpure|]. split; [|exact Hsent].
    destruct (ctcp_output_history state1) as (new & Hnew & Hok').
    rewrite Hnew, Hc1, sent_segments_app in Hsent.
    apply app_inv_head in Hsent.
    apply sends_ok_sent in Hok'. rewrite Hsent in Hok'.
    inversion Hok'. assumption.
Qed.

(** What [ctcp_read] does when the window is open and the application hands
    over [n] bytes. *)
Lemma ctcp_read_data (state : ctcp_state) (n : Z) (buf : list Z) :
  on_air state < send_window (cfg state) ->
  send_fin state = false ->
  conn_input (conn state) MAX_SEG_DATA_SIZE = (n, buf) ->
  0 < n <= MAX_SEG_DATA_SIZE ->
  n <= Z.of_nat (length buf) ->
  0 <= seqno state ->
  seqno state + n < 2 ^ 32 ->
  exists g,
    unacked (ctcp_read state) = unacked state ++ [g]
    /\ sent_segments (conn (ctcp_read state)) = sent_segments (conn state) ++ [g]
    /\ seqno (ctcp_read state) = seqno state + n
    /\ ackno (ctcp_read state) = ackno state
    /\ unoutput (ctcp_read state) = unoutput state
    /\ send_fin (ctcp_read state) = false
    /\ seg_seqno g = seqno state
    /\ seg_data g = firstn (Z.to_nat n) buf
    /\ data_len g = n
    /\ payload_ok g
    /\ has_payload g = true /\ has_fin g = false
    /\ corrupted g = false.
Proof.
  intros Hwin Hsf Hin Hn Hbuf Hs0 Hs1. unfold MAX_SEG_DATA_SIZE in *.
  assert (Hlen : u16 (sizeof_ctcp_segment_t + n) = 20 + n).
  { unfold sizeof_ctcp_segment_t. apply u16_small. lia. }
  unfold ctcp_read.
  destruct (Z.leb_spec (send_window (cfg state)) (on_air state)); [lia|].
  rewrite Hsf. unfold MAX_SEG_DATA_SIZE. rewrite Hin.
  destruct (Z.eqb_spec n 0); [lia|]. destruct (Z.eqb_spec n (-1)); [lia|].
  eexists. cbn -[Z.add Z.sub u16 u32 Z.pow].
  rewrite !sent_segments_app. cbn -[Z.add Z.sub u16 u32 Z.pow].
  rewrite !app_nil_r.
  split; [reflexivity|]. split; [reflexivity|].
  split; [unfold u32; apply Z.mod_small; lia|].
  split; [reflexivity|]. split; [reflexivity|]. split; [exact Hsf|].
  split; [reflexivity|]. split; [reflexivity|].
  unfold data_len, payload_ok, has_payload, has_fin, corrupted, data_len.
  cbn -[Z.add Z.sub u16 u32 Z.pow size_t].
  rewrite Hlen, length_firstn, Z.eqb_refl.
  unfold sizeof_ctcp_segment_t, size_t.
  replace (20 + n - 20) with n by lia.
  rewrite Z.mod_small by lia.
  split; [reflexivity|]. split; [lia|].
  split; [apply Z.gtb_lt; lia|]. split; reflexivity.
Qed.

(** One segment there and its acknowledgement back.  A sender with
    nothing outstanding reads [n] bytes from its application; the receiver
    that expects the sender's seqno, with room in its sink, hands exactly
    those bytes to its application and answers with one ACK for the sender's
    new seqno; on that ACK the sender's unacked queue is empty again, and the
    sender does not answer the ACK. *)
Theorem ctcp_loopback_round_trip (A B : ctcp_state) (n : Z) (buf : list Z) :
  roomy ->
  0 < send_window (cfg A) ->
  send_fin A = false ->
  unacked A = [] ->
  unoutput A = [] ->
  conn_input (conn A) MAX_SEG_DATA_SIZE = (n, buf) ->
  0 < n <= MAX_SEG_DATA_SIZE ->
  n <= Z.of_nat (length buf) ->
  0 <= seqno A ->
  seqno A + n < 2 ^ 32 ->
  unoutput B = [] ->
  ackno B = seqno A ->
  exists g ack,
    let A1 := ctcp_read A in
    let B1 := ctcp_receive B g (seg_len g) in
    let A2 := ctcp_receive A1 ack (seg_len ack) in
    sent_segments (conn A1) = sent_segments (conn A) ++ [g]
    /\ unacked A1 = [g]
    /\ delivered_bytes (conn B1)
       = delivered_bytes (conn B) ++ firstn (Z.to_nat n) buf
    /\ sent_segments (conn B1) = sent_segments (conn B) ++ [ack]
    /\ ackno B1 = seqno A1
    /\ seqno A1 = seqno A + n
    /\ unacked A2 = []
    /\ sent_segments (conn A2) = sent_segments (conn A1).
Proof.
  intros Hroom Hwin Hsf HuA HoA Hin Hn Hbuf Hs0 Hs1 HoB HaB.
  destruct (ctcp_read_data A n buf) as
    (g & Hq & Hsent & Hseq & _ & Hun1 & Hsf1 & Hg & Hdata & Hdl & Hok & Hp & Hf & Hcorr);
    try assumption.
  { unfold on_air. rewrite HuA. exact Hwin. }
  assert (Hadv : advance (ackno B) g = seqno A + n).
  { unfold advance. rewrite Hf, Hdl, HaB. lia. }
  destruct (ctcp_receive_next_in_order B g (seg_len g) Hroom HoB Hcorr)
    as (HaB1 & _ & HdB & ack & Hpure & Hcack & HsB).
  { cbn. rewrite Hp. repeat split; try assumption; try apply Hok. congruence. }
  { lia. }
  { lia. }
  rewrite Hadv in *.
  exists g, ack. cbv zeta.
  rewrite HuA in Hq. cbn [app] in Hq.
  split; [exact Hsent|]. split; [exact Hq|].
  split; [rewrite HdB, Hdata; reflexivity|].
  split; [exact HsB|]. split; [congruence|]. split; [exact Hseq|].
  destruct Hpure as (Hackno & Hflags & Hlen & _).
  assert (Hnp : has_payload ack = false).
  { unfold has_payload. rewrite Hlen. reflexivity. }
  assert (Hnf : has_fin ack = false).
  { unfold has_fin. rewrite Hflags. reflexivity. }
  assert (Hya : has_ack ack = true).
  { unfold has_ack. rewrite Hflags. reflexivity. }
  unfold ctcp_receive. rewrite Hcack, Hnp, Hnf. cbn [orb].
  rewrite andb_false_r.
  unfold duplicate_in_unoutput. rewrite Hun1, HoA. cbn [length firstn existsb].
  change (Z.to_nat (u16 (Z.of_nat 0))) with 0%nat. cbn [firstn existsb].
  unfold ctcp_receive_insert, ctcp_receive_fin, ctcp_receive_ack.
  rewrite Hnp, Hnf, Hya. cbn [orb].
  cbn [send_fin set_unacked]. rewrite Hsf1.
  unfold ctcp_output. cbn [unoutput set_unacked]. rewrite Hun1, HoA.
  cbn [ctcp_output_loop]. cbn [unacked set_unoutput set_unacked conn].
  rewrite Hq, Hackno. cbn [remove_acked].
  destruct (Z.ltb_spec (seg_seqno g) (seqno A + n)); [|lia].
  split; reflexivity.
Qed.

(** A FIN that arrives in sequence at a receiver with an empty queue
    reaches the application as two empty writes (one for the segment's
    zero bytes of data, one as the end-of-file mark), takes one sequence
    number, sets [receive_fin], and is answered by one ACK. *)
Theorem ctcp_receive_fin_in_sequence (state : ctcp_state) (g : ctcp_segment)
        (len : Z) :
  corrupted g = false ->
  unoutput state = [] ->
  seg_seqno g = ackno state ->
  has_fin g = true ->
  seg_len g = sizeof_ctcp_segment_t ->
  0 <= conn_bufspace (conn state) ->
  0 <= ackno state ->
  ackno state + 1 < 2 ^ 32 ->
  let state' := ctcp_receive state g len in
  output_writes (conn state') = output_writes (conn state) ++ [[]; []]
  /\ ackno state' = ackno state + 1
  /\ receive_fin state' = true
  /\ unoutput state' = []
  /\ exists ack,
       sent_segments (conn state') = sent_segments (conn state) ++ [ack]
       /\ pure_ack ack (ackno state + 1).
Proof.
  intros Hcorr Hun Hseq Hfin Hlen Hroom Ha0 Ha1 state'. subst state'.
  assert (Hnp : has_payload g = false).
  { unfold has_payload. rewrite Hlen. reflexivity. }
  destruct (ctcp_receive_blocks state g) as (Hc1 & Ha & Hun1).
  cbv zeta in Hc1, Ha, Hun1. rewrite Hnp, Hfin, Hun in Hun1. cbn in Hun1.
  assert (Hrf : receive_fin
            (ctcp_receive_insert (ctcp_receive_fin (ctcp_receive_ack state g) g) g)
            = true).
  { unfold ctcp_receive_insert, ctcp_receive_fin. rewrite Hnp, Hfin. reflexivity. }
  unfold ctcp_receive. rewrite Hcorr, Hseq, Z.ltb_irrefl. cbn [andb].
  unfold duplicate_in_unoutput. rewrite Hun.
  change (existsb _ (firstn _ [])) with false. cbv iota.
  set (state1 := ctcp_receive_insert _ g) in *.
  unfold ctcp_output. rewrite Hun1. cbn [ctcp_output_loop].
  rewrite Ha, Hseq, Z.eqb_refl, Hlen, Hc1, Hfin.
  change (u16 (size_t (sizeof_ctcp_segment_t - sizeof_ctcp_segment_t))) with 0.
  destruct (Z.ltb_spec (conn_bufspace (conn state)) 0) as [Hlt|_]; [lia|].
  cbn -[u32 Z.add]. rewrite Ha, Hc1, Hrf.
  rewrite !output_writes_app, !sent_segments_app. cbn -[u32 Z.add].
  rewrite !app_nil_r, <- !app_assoc. cbn -[u32 Z.add].
  assert (Hu : u32 (u32 (ackno state + 0) + 1) = ackno state + 1).
  { unfold u32. rewrite Z.add_0_r, (Z.mod_small (ackno state)) by lia.
    apply Z.mod_small. lia. }
  rewrite Hu.
  repeat split. eexists. split; [reflexivity|]. repeat split.
Qed.

Lemma chained_In (l : list ctcp_segment) :
  forall a g, chained a l -> In g l ->
  has_payload g || has_fin g = true /\ seg_seqno g < end_ackno a l.
Proof.
  induction l as [|x l IH]; intros a g Hc Hin; [destruct Hin|].
  destruct Hin as [Hg | Hg].
  - subst x. destruct Hc as (Hs & Hok & Hp & Hc). split; [exact Hp|].
    cbn [end_ackno]. pose proof (advance_gt a g Hok Hp).
    pose proof (end_ackno_ge l _ Hc). lia.
  - destruct Hc as (_ & _ & _ & Hc). exact (IH _ g Hc Hg).
Qed.

(** A segment of the stream that was received before is answered by an ACK
    and changes nothing else. *)
Lemma ctcp_receive_again (a0 : Z) (d0 : list Z) (segs : list ctcp_segment)
      (recv : list Z) (state : ctcp_state) (g : ctcp_segment) (len : Z) :
  chained a0 segs ->
  Z.of_nat (length segs) < 2 ^ 16 ->
  pipeline_inv a0 d0 segs recv state ->
  In g segs -> mem_seqno recv g = true -> corrupted g = false ->
  ctcp_receive state g len = send_ack_segment state.
Proof.
  intros Hc Hlen (done & rest & Hsegs & Hack & _ & _ & Hq & _) Hg Hm Hcorr.
  unfold ctcp_receive. rewrite Hcorr.
  destruct (_ && _) eqn:Hstale; [reflexivity|].
  assert (Hrest : In g rest).
  { rewrite Hsegs in Hg, Hc. apply in_app_or in Hg. destruct Hg as [Hg|Hg]; [|exact Hg].
    exfalso. apply chained_app in Hc. destruct Hc as (Hc & _).
    destruct (chained_In done a0 g Hc Hg) as (Hp & Hlt).
    rewrite Hp, andb_true_r in Hstale. apply Z.ltb_ge in Hstale. lia. }
  assert (Hdup : duplicate_in_unoutput state g = true).
  { unfold duplicate_in_unoutput.
    assert (Hl : (length (unoutput state) <= length segs)%nat).
    { rewrite Hq, Hsegs, length_app.
      pose proof (filter_length_le (mem_seqno recv) rest). lia. }
    rewrite u16_small, Nat2Z.id, firstn_all by lia.
    apply existsb_exists. exists g. split; [|apply Z.eqb_refl].
    rewrite Hq. apply filter_In. split; assumption. }
  rewrite Hdup. reflexivity.
Qed.

Lemma pipeline_inv_send_ack (a0 : Z) (d0 : list Z) (segs : list ctcp_segment)
      (recv : list Z) (state : ctcp_state) :
  pipeline_inv a0 d0 segs recv state ->
  pipeline_inv a0 d0 segs recv (send_ack_segment state).
Proof.
  intros (done & rest & Hsegs & Hack & Hd & Hdone & Hq & Hhd).
  exists done, rest. unfold send_ack_segment, call, set_conn.
  cbn [conn ackno unoutput].
  rewrite delivered_bytes_app.
  change (delivered_bytes [ConnSend _ _]) with (@nil Z). rewrite app_nil_r.
  repeat split; assumption.
Qed.

Lemma receive_all_duplicates_inv (a0 : Z) (d0 : list Z)
      (segs : list ctcp_segment) :
  roomy ->
  chained a0 segs -> 0 <= a0 -> end_ackno a0 segs < 2 ^ 32 ->
  Z.of_nat (length segs) < 2 ^ 16 ->
  forall arrivals recv state,
  pipeline_inv a0 d0 segs recv state ->
  Forall (fun g => corrupted g = true \/ In g segs) arrivals ->
  exists recv',
    pipeline_inv a0 d0 segs recv' (receive_all state arrivals)
    /\ (forall g, In g arrivals -> corrupted g = false -> mem_seqno recv' g = true)
    /\ (forall x, mem_seqno recv x = true -> mem_seqno recv' x = true).
Proof.
  intros Hroom Hc Ha Hend Hlen.
  induction arrivals as [|g arrivals IH]; intros recv state Hinv Hall.
  - exists recv. split; [exact Hinv|]. split; [intros g []|auto].
  - inversion Hall as [|g' l' Hg Hrest]; subst.
    change (receive_all state (g :: arrivals))
      with (receive_all (ctcp_receive state g (seg_len g)) arrivals).
    destruct (corrupted g) eqn:Hcorr.
    + assert (Hsame : ctcp_receive state g (seg_len g) = state).
      { unfold ctcp_receive. rewrite Hcorr. reflexivity. }
      rewrite Hsame.
      destruct (IH recv state Hinv Hrest) as (recv' & Hinv' & Hcov & Hmono).
      exists recv'. split; [exact Hinv'|]. split; [|exact Hmono].
      intros x [-> | Hx] Hxc; [congruence | exact (Hcov x Hx Hxc)].
    + destruct Hg as [Hg|Hg]; [discriminate|].
      destruct (mem_seqno recv g) eqn:Hm.
      * rewrite (ctcp_receive_again a0 d0 segs recv state g _ Hc Hlen Hinv Hg Hm Hcorr).
        destruct (IH recv _ (pipeline_inv_send_ack _ _ _ _ _ Hinv) Hrest)
          as (recv' & Hinv' & Hcov & Hmono).
        exists recv'. split; [exact Hinv'|]. split; [|exact Hmono].
        intros x [-> | Hx] Hxc; [exact (Hmono _ Hm) | exact (Hcov x Hx Hxc)].
      * pose proof (ctcp_receive_keeps_inv a0 d0 segs recv state g (seg_len g)
                      Hroom Hc Ha Hend Hinv Hg Hm Hcorr) as Hinv1.
        destruct (IH _ _ Hinv1 Hrest) as (recv' & Hinv' & Hcov & Hmono).
        exists recv'. split; [exact Hinv'|]. split.
        -- intros x [-> | Hx] Hxc; [|exact (Hcov x Hx Hxc)].
           apply Hmono. rewrite mem_seqno_cons, Z.eqb_refl. reflexivity.
        -- intros x Hx. apply Hmono. rewrite mem_seqno_cons, Hx.
           apply orb_true_r.
Qed.

(** Exactly-once, in-order delivery under reordering, duplication and
    corruption.  Let the receiver get, in any order and any number of times,
    segments that are either corrupted or belong to a gap-free stream that
    starts at its ackno, every segment of the stream arriving intact at least
    once; with room in the sink, the application has then received the
    payload of the stream exactly once and in seqno order, the ackno stands
    behind the stream, and the unoutput queue is empty. *)
Theorem receive_all_with_duplicates (state : ctcp_state)
        (segs arrivals : list ctcp_segment) :
  roomy ->
  unoutput state = [] ->
  0 <= ackno state ->
  chained (ackno state) segs ->
  end_ackno (ackno state) segs < 2 ^ 32 ->
  Z.of_nat (length segs) < 2 ^ 16 ->
  Forall (fun g => corrupted g = false) segs ->
  Forall (fun g => corrupted g = true \/ In g segs) arrivals ->
  incl segs arrivals ->
  let state' := receive_all state arrivals in
  delivered_bytes (conn state')
  = delivered_bytes (conn state) ++ concat (map seg_data segs)
  /\ ackno state' = end_ackno (ackno state) segs
  /\ unoutput state' = [].
Proof.
  intros Hroom Hun Ha Hchain Hend Hlen Hcorr Harr Hincl state'.
  assert (Hinv0 : pipeline_inv (ackno state) (delivered_bytes (conn state))
                               segs [] state).
  { exists [], segs. cbn [app end_ackno map concat].
    rewrite app_nil_r.
    repeat split; try reflexivity.
    - intros g [].
    - rewrite Hun. clear. induction segs as [|x l IH]; [reflexivity | exact IH].
    - destruct segs; reflexivity. }
  destruct (receive_all_duplicates_inv _ _ segs Hroom Hchain Ha Hend Hlen
              arrivals [] state Hinv0 Harr)
    as (recv' & (done & rest & Hsegs & Hack & Hdel & _ & Hq & Hhd) & Hcov & _).
  fold state' in Hack, Hdel, Hq.
  assert (Hrest : rest = []).
  { destruct rest as [|y rest]; [reflexivity|]. exfalso.
    assert (Hy : In y segs).
    { rewrite Hsegs. apply in_or_app. right. left. reflexivity. }
    rewrite Forall_forall in Hcorr.
    pose proof (Hcov y (Hincl y Hy) (Hcorr y Hy)). congruence. }
  subst rest. rewrite app_nil_r in Hsegs. subst done.
  repeat split; assumption.
Qed.

End FurtherCtcpProperties.

Section FurtherTimerProperties.
Import Ctcp CtcpTimer.
Context {lib : CtcpLib}.

(** The retransmission block on a connection with unacknowledged segments
    and fewer than five retransmissions: the head segment is sent once more,
    or only the clock is read. *)
Lemma ctcp_timer_retransmit_facts (state : ctcp_state) (g : ctcp_segment)
      (rest : list ctcp_segment) :
  unacked state = g :: rest ->
  0 <= retransmition state < 5 ->
  let s := ctcp_timer_retransmit state in
  unacked s = unacked state
  /\ handshake_done s = handshake_done state
  /\ ((retransmition s = retransmition state
       /\ sent_segments (conn s) = sent_segments (conn state))
      \/ (retransmition s = retransmition state + 1
          /\ sent_segments (conn s) = sent_segments (conn state) ++ [g])).
Proof.
  intros Hq Hr s. subst s. unfold ctcp_timer_retransmit. rewrite Hq.
  cbn [last_retransmit_time call set_conn].
  destruct (_ >=? _); cbn -[u16 Z.add]; rewrite !sent_segments_app;
    cbn -[u16 Z.add]; rewrite ?app_nil_r.
  - split; [exact Hq|]. split; [reflexivity|]. right.
    split; [apply u16_small; lia | reflexivity].
  - split; [exact Hq|]. split; [reflexivity|]. left. split; reflexivity.
Qed.

Lemma ticks_retransmissions (g : ctcp_segment) (rest : list ctcp_segment)
      (n : nat) :
  forall state,
  unacked state = g :: rest ->
  0 <= retransmition state <= 5 ->
  handshake_done state = false ->
  exists k,
    retransmition (outcome_state (ticks n state))
    = retransmition state + Z.of_nat k
    /\ retransmition (outcome_state (ticks n state)) <= 5
    /\ sent_segments (conn (outcome_state (ticks n state)))
       = sent_segments (conn state) ++ repeat g k
    /\ unacked (outcome_state (ticks n state)) = g :: rest
    /\ match ticks n state with
       | Running _ => True
       | TornDown _ => False
       | GivenUp s => retransmition s = 5
       end.
Proof.
  induction n as [|n IH]; intros state Hq Hr Hh.
  - exists 0%nat. cbn. rewrite app_nil_r, Z.add_0_r.
    repeat split; [lia | exact Hq].
  - cbn [ticks]. unfold ctcp_timer_state. rewrite Hq.
    cbn [length Nat.eqb negb andb].
    destruct (Z.eqb_spec (retransmition state) 5) as [H5|H5].
    + exists 0%nat. cbn. rewrite app_nil_r, Z.add_0_r.
      repeat split; [lia | exact Hq | exact H5].
    + destruct (ctcp_timer_retransmit_facts state g rest Hq ltac:(lia))
        as (Hq1 & Hh1 & Hstep).
      unfold handshake_done in Hh, Hh1. rewrite Hh1, Hh.
      destruct (IH (ctcp_timer_retransmit state)) as (k & Hk & H5' & Hs & Hu & Hm).
      * rewrite Hq1. exact Hq.
      * destruct Hstep as [(-> & _) | (-> & _)]; lia.
      * unfold handshake_done. rewrite Hh1. exact Hh.
      * destruct Hstep as [(Hrt & Hsent) | (Hrt & Hsent)].
        -- exists k. rewrite Hk, Hs, Hrt, Hsent.
           repeat split; try assumption. lia.
        -- exists (S k). rewrite Hk, Hs, Hrt, Hsent, <- app_assoc.
           repeat split; try assumption; lia.
Qed.

(** The retransmission limit.  On a connection that has something
    unacknowledged and is not in the teardown, any number of timer ticks
    after a transmission sends nothing but copies of the head of the unacked
    queue, at most five of them, and never tears the connection down; when
    the connection is given up, exactly five copies have been sent. *)
Theorem ctcp_timer_gives_up_after_five (n : nat) (state : ctcp_state)
        (g : ctcp_segment) (rest : list ctcp_segment) :
  unacked state = g :: rest ->
  retransmition state = 0 ->
  handshake_done state = false ->
  exists k,
    (k <= 5)%nat
    /\ retransmition (outcome_state (ticks n state)) = Z.of_nat k
    /\ sent_segments (conn (outcome_state (ticks n state)))
       = sent_segments (conn state) ++ repeat g k
    /\ unacked (outcome_state (ticks n state)) = g :: rest
    /\ match ticks n state with
       | Running _ => True
       | TornDown _ => False
       | GivenUp _ => k = 5%nat
       end.
Proof.
  intros Hq Hr Hh.
  destruct (ticks_retransmissions g rest n state Hq ltac:(lia) Hh)
    as (k & Hk & H5 & Hs & Hu & Hm).
  exists k. rewrite Hr in Hk. cbn [Z.add] in Hk.
  split; [lia|]. split; [exact Hk|]. split; [exact Hs|]. split; [exact Hu|].
  destruct (ticks n state); try exact Hm. cbn in Hk. lia.
Qed.

Lemma ctcp_timer_flush_history (q : list ctcp_segment) :
  forall state,
  conn (fold_left (fun st u => call st (ConnSend u (u16 (seg_len u)))) q state)
  = conn state ++ map (fun u => ConnSend u (u16 (seg_len u))) q.
Proof.
  induction q as [|u q IH]; intros state; cbn [fold_left map].
  - rewrite app_nil_r. reflexivity.
  - rewrite IH. cbn [call set_conn conn]. rewrite <- app_assoc. reflexivity.
Qed.

(** The teardown.  Once our FIN is sent and acknowledged and the peer's
    FIN is received, with nothing left unacknowledged, the next timer tick
    removes the connection; the segments still waiting in the unoutput queue
    are handed to [conn_send], in queue order, and none of them to
    [conn_output]: the application never receives them. *)
Theorem ctcp_timer_teardown_flushes (state : ctcp_state) :
  handshake_done state = true ->
  unacked state = [] ->
  exists state',
    ctcp_timer_state state = TornDown state'
    /\ sent_segments (conn state')
       = sent_segments (conn state) ++ unoutput state
    /\ output_writes (conn state') = output_writes (conn state)
    /\ unoutput state' = [].
Proof.
  intros Hh Hq. unfold ctcp_timer_state, ctcp_timer_retransmit. rewrite Hq.
  cbn [length Nat.eqb negb andb].
  unfold handshake_done in Hh. rewrite Hh.
  eexists. split; [reflexivity|].
  unfold ctcp_timer_flush. cbn [conn unoutput set_unoutput].
  rewrite ctcp_timer_flush_history, sent_segments_app, output_writes_app.
  split; [|split; [|reflexivity]].
  - f_equal. induction (unoutput state) as [|u q IH]; [reflexivity|].
    cbn. rewrite IH. reflexivity.
  - rewrite <- (app_nil_r (output_writes (conn state))) at 2. f_equal.
    induction (unoutput state) as [|u q IH]; [reflexivity | exact IH].
Qed.

End FurtherTimerProperties.

(* ================================================================= *)
(** * Further properties of the congestion controller *)

Section FurtherBbrProperties.
Import Bbr BbrFilter.

Lemma array_set_middle (pre : list Z) (x : Z) (r : list Z) (v : Z) :
  array_set (pre ++ x :: r) (length pre) v = pre ++ v :: r.
Proof. induction pre as [|y pre IH]; cbn; [reflexivity | rewrite IH; reflexivity]. Qed.

Lemma nth_middle_next (pre : list Z) (x y : Z) (r : list Z) :
  nth (length pre + 1) (pre ++ x :: y :: r) 0 = y.
Proof. induction pre as [|z pre IH]; cbn; [reflexivity | exact IH]. Qed.

(** The loop of [bbr_update_bw] moves every slot one place down and folds
    the moved values into the running maximum. *)
Lemma max_bw_loop_shift (rest : list Z) :
  forall pre x m,
  max_bw_loop (seq (length pre) (length rest)) (pre ++ x :: rest) m
  = (pre ++ rest ++ [last rest x],
     fold_left (fun m v => if m <? v then v else m) rest m).
Proof.
  induction rest as [|y rest IH]; intros pre x m; [reflexivity|].
  cbn [length seq max_bw_loop fold_left].
  rewrite nth_middle_next, array_set_middle, nth_middle.
  replace (S (length pre)) with (length (pre ++ [y]))
    by (rewrite length_app; cbn; lia).
  replace (pre ++ y :: y :: rest) with ((pre ++ [y]) ++ y :: rest)
    by (rewrite <- app_assoc; reflexivity).
  rewrite IH, <- app_assoc. cbn [app].
  rewrite (last_cons rest y x). reflexivity.
Qed.

Lemma min_rtt_loop_shift (rest : list Z) :
  forall pre x m,
  min_rtt_loop (seq (length pre) (length rest)) (pre ++ x :: rest) m
  = (pre ++ rest ++ [last rest x],
     fold_left (fun m v => if m >? v then v else m) rest m).
Proof.
  induction rest as [|y rest IH]; intros pre x m; [reflexivity|].
  cbn [length seq min_rtt_loop fold_left].
  rewrite nth_middle_next, array_set_middle, nth_middle.
  replace (S (length pre)) with (length (pre ++ [y]))
    by (rewrite length_app; cbn; lia).
  replace (pre ++ y :: y :: rest) with ((pre ++ [y]) ++ y :: rest)
    by (rewrite <- app_assoc; reflexivity).
  rewrite IH, <- app_assoc. cbn [app].
  rewrite (last_cons rest y x). reflexivity.
Qed.

Lemma fold_max_largest (l : list Z) :
  forall m, largest_of (fold_left (fun m v => if m <? v then v else m) l m)
                       (l ++ [m]).
Proof.
  induction l as [|v l IH]; intros m; cbn [fold_left app].
  - split; [left; reflexivity | repeat constructor; lia].
  - destruct (IH (if m <? v then v else m)) as (Hin & Hall).
    rewrite Forall_app in Hall. destruct Hall as (Hl & Hm).
    inversion Hm as [|? ? Hm' _]; subst.
    split.
    + apply in_app_or in Hin. destruct Hin as [Hin | [Hin | []]].
      * right. apply in_or_app. left. exact Hin.
      * rewrite <- Hin. destruct (Z.ltb_spec m v).
        -- left. reflexivity.
        -- right. apply in_or_app. right. left. reflexivity.
    + constructor; [destruct (Z.ltb_spec m v); lia|].
      apply Forall_app. split; [exact Hl|].
      repeat constructor. destruct (Z.ltb_spec m v); lia.
Qed.

Lemma fold_min_smallest (l : list Z) :
  forall m, smallest_of (fold_left (fun m v => if m >? v then v else m) l m)
                        (l ++ [m]).
Proof.
  induction l as [|v l IH]; intros m; cbn [fold_left app].
  - split; [left; reflexivity | repeat constructor; lia].
  - destruct (IH (if m >? v then v else m)) as (Hin & Hall).
    rewrite Forall_app in Hall. destruct Hall as (Hl & Hm).
    inversion Hm as [|? ? Hm' _]; subst.
    split.
    + apply in_app_or in Hin. destruct Hin as [Hin | [Hin | []]].
      * right. apply in_or_app. left. exact Hin.
      * rewrite <- Hin. destruct (Z.gtb_spec m v).
        -- left. reflexivity.
        -- right. apply in_or_app. right. left. reflexivity.
    + constructor; [destruct (Z.gtb_spec m v); lia|].
      apply Forall_app. split; [exact Hl|].
      repeat constructor. destruct (Z.gtb_spec m v); lia.
Qed.

(** One call of [bbr_update_bw] on the ten-slot filter. *)
Lemma bbr_update_bw_step (bbr : bbr_state) (bw_sample now : Z) :
  length (BtlBwFilter bbr) = 10%nat ->
  BtlBwFilter (bbr_update_bw bbr bw_sample now)
  = tl (BtlBwFilter bbr) ++ [bw_sample]
  /\ largest_of (max_btlbw (bbr_update_bw bbr bw_sample now))
                (tl (BtlBwFilter bbr) ++ [bw_sample]).
Proof.
  intros Hlen. unfold bbr_update_bw.
  destruct (BtlBwFilter bbr) as [|x rest]; [discriminate|].
  injection Hlen as Hlen.
  change (Z.to_nat (CYCLE_LEN + 2 - 1)) with 9%nat. rewrite <- Hlen.
  pose proof (max_bw_loop_shift rest [] x bw_sample) as Hs.
  cbn [length app] in Hs. rewrite Hs. cbn [app tl].
  cbn [BtlBwFilter max_btlbw].
  rewrite (array_set_middle rest (last rest x) [] bw_sample).
  split; [reflexivity | apply fold_max_largest].
Qed.

Lemma skipn_S_tl {A : Type} (n : nat) :
  forall l : list A, skipn (S n) l = tl (skipn n l).
Proof.
  induction n as [|n IH]; intros l; [destruct l; reflexivity|].
  destruct l as [|x l]; [reflexivity|]. exact (IH l).
Qed.

Lemma feed_bw_filter (samples : list (Z * Z)) (bbr : bbr_state) :
  length (BtlBwFilter bbr) = 10%nat ->
  BtlBwFilter (feed_bw bbr samples)
  = skipn (length samples) (BtlBwFilter bbr ++ map fst samples)
  /\ (samples <> [] ->
      largest_of (max_btlbw (feed_bw bbr samples))
                 (BtlBwFilter (feed_bw bbr samples))).
Proof.
  intros Hlen. induction samples as [|x samples IH] using rev_ind.
  - cbn. rewrite app_nil_r. split; [reflexivity | congruence].
  - destruct IH as (Hf & _).
    assert (Hl : length (BtlBwFilter (feed_bw bbr samples)) = 10%nat).
    { rewrite Hf, length_skipn, length_app, length_map. lia. }
    unfold feed_bw in *. rewrite fold_left_app. cbn [fold_left].
    destruct (bbr_update_bw_step _ (fst x) (snd x) Hl) as (Hstep & Hmax).
    rewrite Hstep. split; [|intros _; exact Hmax].
    rewrite Hf, <- skipn_S_tl, length_app, map_app. cbn [length map].
    rewrite Nat.add_1_r, app_assoc.
    rewrite (skipn_app (S (length samples)) (_ ++ _) [fst x]).
    rewrite length_app, length_map, Hlen.
    replace (S (length samples) - (10 + length samples))%nat with 0%nat by lia.
    reflexivity.
Qed.

(** The bandwidth estimate is a windowed maximum.  After at least ten
    calls of [bbr_update_bw] the filter holds exactly the last ten samples,
    oldest first, and [bbr_bw] is the largest of them, whatever the filter
    held before. *)
Theorem bbr_bw_is_windowed_max (bbr : bbr_state) (samples : list (Z * Z)) :
  length (BtlBwFilter bbr) = 10%nat ->
  (10 <= length samples)%nat ->
  BtlBwFilter (feed_bw bbr samples) = last_ten (map fst samples)
  /\ largest_of (bbr_bw (feed_bw bbr samples)) (last_ten (map fst samples)).
Proof.
  intros Hlen Hn.
  destruct (feed_bw_filter samples bbr Hlen) as (Hf & Hmax).
  assert (Hw : BtlBwFilter (feed_bw bbr samples) = last_ten (map fst samples)).
  { rewrite Hf, skipn_app, Hlen, skipn_all2 by lia.
    unfold last_ten. rewrite length_map. reflexivity. }
  split; [exact Hw|]. unfold bbr_bw. rewrite <- Hw. apply Hmax.
  destruct samples; [cbn in Hn; lia | discriminate].
Qed.

(** The RTT estimate is a windowed minimum.  One call of
    [bbr_update_min_rtt] on the ten-slot filter drops the oldest sample,
    appends the new one, stamps the estimate with the first clock reading,
    and leaves in [min_rtt_us] the smallest sample of the new window,
    whichever mode changes the call makes besides. *)
Theorem bbr_rtt_is_windowed_min (bbr : bbr_state) (rtt_sample t1 t2 t3 r : Z) :
  length (RTpropFilter bbr) = 10%nat ->
  let bbr' := bbr_update_min_rtt bbr rtt_sample t1 t2 t3 r in
  RTpropFilter bbr' = tl (RTpropFilter bbr) ++ [rtt_sample]
  /\ smallest_of (bbr_rtt bbr') (RTpropFilter bbr')
  /\ min_rtt_stamp bbr' = t1.
Proof.
  intros Hlen bbr'. subst bbr'.
  unfold bbr_rtt, bbr_update_min_rtt, bbr_exit_probe_rtt, bbr_enter_probe_rtt.
  destruct (RTpropFilter bbr) as [|x rest] eqn:Hf; [discriminate|].
  injection Hlen as Hlen.
  change (Z.to_nat (CYCLE_LEN + 2 - 1)) with 9%nat. rewrite <- Hlen.
  pose proof (min_rtt_loop_shift rest [] x rtt_sample) as Hs.
  cbn [length app] in Hs. rewrite Hs. cbn [app tl].
  rewrite (array_set_middle rest (last rest x) [] rtt_sample).
  pose proof (fold_min_smallest rest rtt_sample) as Hmin.
  set (m := fold_left _ rest rtt_sample) in *.
  unfold bbr_reset_mode, bbr_reset_startup_mode, bbr_reset_probe_bw_mode,
    bbr_save_cwnd.
  destruct (_ && _ && _); cbn -[Z.add]; repeat (destruct (_ && _); cbn -[Z.add]);
    repeat match goal with
           | |- context [negb ?b] => destruct b; cbn -[Z.add]
           | |- context [if ?b then _ else _] => destruct b; cbn -[Z.add]
           end;
    (split; [reflexivity|]; split; [exact Hmin | reflexivity]).
Qed.

(** PROBE_RTT is never observed.  Unless the clock advances by more than
    200 ms between two of its readings inside one call, a controller that is
    not in PROBE_RTT is not in PROBE_RTT after [bbr_update_min_rtt] either:
    the call that enters the mode leaves it again. *)
Theorem bbr_probe_rtt_never_observed (bbr : bbr_state)
        (rtt_sample t1 t2 t3 r : Z) :
  mode bbr <> BBR_PROBE_RTT ->
  t3 <= t2 + bbr_probe_rtt_mode_ms ->
  bbr_mode_eqb (mode (bbr_update_min_rtt bbr rtt_sample t1 t2 t3 r))
               BBR_PROBE_RTT = false.
Proof.
  intros Hm Ht.
  pose proof (bbr_update_min_rtt_never_holds bbr rtt_sample t1 t2 t3 r Hm Ht) as H.
  destruct (bbr_mode_eqb _ BBR_PROBE_RTT) eqn:He; [|reflexivity].
  apply bbr_mode_eqb_eq in He. contradiction.
Qed.

(** A controller that is in PROBE_RTT once its 200 ms are over is never
    released: [bbr_update_min_rtt] leaves the mode only while the deadline
    has not passed. *)
Theorem bbr_probe_rtt_never_released (bbr : bbr_state)
        (rtt_sample t1 t2 t3 r : Z) :
  mode bbr = BBR_PROBE_RTT ->
  probe_rtt_done_stamp bbr < t3 ->
  let bbr' := bbr_update_min_rtt bbr rtt_sample t1 t2 t3 r in
  mode bbr' = BBR_PROBE_RTT
  /\ probe_rtt_done_stamp bbr' = probe_rtt_done_stamp bbr
  /\ cwnd bbr' = cwnd bbr.
Proof.
  intros Hm Ht bbr'. subst bbr'.
  unfold bbr_update_min_rtt, bbr_exit_probe_rtt, bbr_enter_probe_rtt.
  destruct (min_rtt_loop _ _ _) as [filter min_rtt].
  cbn [mode set_min_rtt min_rtt_us]. rewrite Hm. cbn [bbr_mode_eqb negb].
  rewrite andb_false_r. cbn [mode set_min_rtt probe_rtt_done_stamp andb].
  rewrite Hm. cbn [bbr_mode_eqb andb].
  destruct (Z.geb_spec (probe_rtt_done_stamp bbr) t3) as [Hge|_]; [lia|].
  cbn. split; [exact Hm|]. split; reflexivity.
Qed.

Lemma cycle_indices_range (n : nat) :
  forall bbr, mode bbr = BBR_PROBE_BW -> 0 <= cycle_idx bbr ->
  Forall (fun i => 0 <= i < CYCLE_LEN - 1) (cycle_indices n bbr).
Proof.
  induction n as [|n IH]; intros bbr Hm Hi; [constructor|].
  cbn [cycle_indices]. unfold bbr_update_cycle_phase. rewrite Hm.
  cbn [bbr_mode_eqb].
  pose proof (bbr_advance_cycle_phase_range bbr Hi) as Hr.
  constructor; [exact Hr|].
  apply IH; [exact Hm | lia].
Qed.

(** The gain table is never read out of bounds.  After PROBE_BW is
    entered, with whatever [rand()] returns, the cycle index of every later
    round lies in 0..6: the last slot of the eight-slot table can be held at
    entry only and is never returned to. *)
Theorem bbr_cycle_idx_stays_in_table (bbr : bbr_state) (r : Z) (n : nat) :
  0 <= r < 2 ^ 32 ->
  0 <= cycle_idx (bbr_reset_probe_bw_mode bbr r) <= CYCLE_LEN - 1
  /\ Forall (fun i => 0 <= i < CYCLE_LEN - 1)
            (cycle_indices n (bbr_reset_probe_bw_mode bbr r)).
Proof.
  intros Hr.
  destruct (bbr_reset_probe_bw_mode_entry bbr r Hr) as (Hm & _ & Hi).
  pose proof (Z.mod_pos_bound r 7 ltac:(lia)) as Hb.
  unfold CYCLE_LEN in *.
  split; [lia|]. apply cycle_indices_range; [exact Hm | lia].
Qed.

(** [bbr_check_drain] never leaves the controller in DRAIN with the
    in-flight data within the window: such a controller is moved on to
    PROBE_BW in the same call, also when the call itself has just taken it
    from STARTUP to DRAIN.  The call changes neither cwnd nor the in-flight
    count, and leaves PROBE_BW and PROBE_RTT controllers as they are. *)
Theorem bbr_check_drain_never_rests_drained (bbr : bbr_state)
        (bw_sample rtt_sample rand_value : Z) :
  let bbr' := bbr_check_drain bbr bw_sample rtt_sample rand_value in
  bbr_mode_eqb (mode bbr') BBR_DRAIN && (inflight bbr' <=? cwnd bbr') = false
  /\ inflight bbr' = inflight bbr
  /\ cwnd bbr' = cwnd bbr
  /\ (bbr_mode_eqb (mode bbr) BBR_PROBE_BW
      || bbr_mode_eqb (mode bbr) BBR_PROBE_RTT = true -> bbr' = bbr).
Proof.
  intros bbr'. subst bbr'. unfold bbr_check_drain, bbr_reset_probe_bw_mode.
  destruct (mode bbr) eqn:Hm; cbn [bbr_mode_eqb andb orb];
    try (destruct (bbr_full_bw_reached bbr));
    cbn [mode inflight cwnd set_gains bbr_mode_eqb andb];
    rewrite ?Hm; cbn [bbr_mode_eqb andb];
    try (destruct (inflight bbr <=? cwnd bbr) eqn:Hle);
    cbn [mode inflight cwnd set_gains set_cycle_idx bbr_mode_eqb andb];
    rewrite ?Hm, ?Hle; cbn [bbr_mode_eqb andb];
    repeat split; try reflexivity; try discriminate.
Qed.

End FurtherBbrProperties.

(* ================================================================= *)
(** * The further properties at concrete inputs *)

Section FurtherRibWitnesses.
Import Router.

Lemma sr_rt_for_dst_longest_match_witness :
  match sr_rt_for_dst layered_sr (ipv4 192 168 2 5) with
  | None =>
      Forall (fun r => ~ matches (ipv4 192 168 2 5) r) (routing_table layered_sr)
  | Some e =>
      In e (routing_table layered_sr) /\ matches (ipv4 192 168 2 5) e
      /\ forall e', In e' (routing_table layered_sr) ->
                    matches (ipv4 192 168 2 5) e' -> mask e' <= mask e
  end.
Proof.
  apply (sr_rt_for_dst_longest_match layered_sr (ipv4 192 168 2 5)).
  repeat constructor; vm_compute; discriminate.
Defined.

Lemma sr_rt_for_dst_first_of_nonzero_tie_witness :
  exists pre post,
    routing_table two_ties_sr = pre ++ tie_a :: post
    /\ forall e', In e' pre -> matches (ipv4 192 168 2 5) e' ->
                  mask e' < mask tie_a.
Proof.
  apply (sr_rt_for_dst_first_of_nonzero_tie two_ties_sr (ipv4 192 168 2 5) tie_a).
  - repeat constructor; vm_compute; discriminate.
  - reflexivity.
  - vm_compute. reflexivity.
Defined.

Lemma sr_rt_for_dst_last_of_zero_tie_witness :
  exists pre post,
    routing_table two_defaults_sr = pre ++ default_b :: post
    /\ Forall (fun r => ~ matches (ipv4 8 8 8 8) r) post.
Proof.
  apply (sr_rt_for_dst_last_of_zero_tie two_defaults_sr (ipv4 8 8 8 8) default_b).
  - repeat constructor; vm_compute; discriminate.
  - reflexivity.
  - reflexivity.
Defined.

End FurtherRibWitnesses.

Section FurtherCtcpWitnesses.
Import Ctcp CtcpTimer.

Lemma insert_unoutput_keeps_order_witness :
  ascending (insert_unoutput seg_b [seg_a; seg_c])
  /\ Permutation (seg_b :: [seg_a; seg_c]) (insert_unoutput seg_b [seg_a; seg_c]).
Proof.
  apply (insert_unoutput_keeps_order seg_b [seg_a; seg_c]).
  - repeat split; repeat constructor; vm_compute; reflexivity.
  - intros x [<- | [<- | []]]; vm_compute; discriminate.
Defined.

Lemma ctcp_receive_keeps_unoutput_ascending_witness :
  ascending (unoutput (ctcp_receive (lib := roomy_lib) state_gap seg_b 30))
  /\ forall x, In x (unoutput (ctcp_receive (lib := roomy_lib) state_gap seg_b 30)) ->
               x = seg_b \/ In x (unoutput state_gap).
Proof.
  apply (ctcp_receive_keeps_unoutput_ascending (lib := roomy_lib) state_gap seg_b 30).
  - repeat split; constructor.
  - vm_compute. reflexivity.
Defined.

Lemma ctcp_keeps_sender_inv_witness :
  sender_inv (ctcp_read (lib := loop_lib) state_after_exchange)
  /\ sender_inv (ctcp_receive (lib := loop_lib) state_after_exchange
                              late_pure_ack 20).
Proof.
  apply (ctcp_keeps_sender_inv (lib := loop_lib) state_after_exchange
           late_pure_ack 20).
  - repeat split; vm_compute; first [reflexivity | discriminate].
  - right. right. repeat split; vm_compute; first [reflexivity | discriminate].
  - vm_compute. discriminate.
  - vm_compute. reflexivity.
Defined.

Lemma on_air_counts_sequence_space_witness :
  on_air state_fin_sent
  = u16 (seqno state_fin_sent - seg_seqno own_data
         - (if has_fin (last [own_fin] own_data) then 1 else 0)).
Proof.
  apply (on_air_counts_sequence_space state_fin_sent own_data [own_fin]).
  - repeat split; vm_compute; first [reflexivity | discriminate].
  - reflexivity.
Defined.

Lemma ctcp_loopback_round_trip_witness :
  exists g ack,
    let A := ctcp_init (test_cfg 1440) in
    let B := ctcp_init (test_cfg 1440) in
    let A1 := ctcp_read (lib := loop_lib) A in
    let B1 := ctcp_receive (lib := loop_lib) B g (seg_len g) in
    let A2 := ctcp_receive (lib := loop_lib) A1 ack (seg_len ack) in
    sent_segments (conn A1) = [g]
    /\ unacked A1 = [g]
    /\ delivered_bytes (conn B1) = small_chunk
    /\ sent_segments (conn B1) = [ack]
    /\ ackno B1 = seqno A1
    /\ seqno A1 = 11
    /\ unacked A2 = []
    /\ sent_segments (conn A2) = sent_segments (conn A1).
Proof.
  apply (ctcp_loopback_round_trip (lib := loop_lib)
           (ctcp_init (test_cfg 1440)) (ctcp_init (test_cfg 1440))
           10 small_chunk).
  - intros h. vm_compute. discriminate.
  - vm_compute. reflexivity.
  - reflexivity.
  - reflexivity.
  - reflexivity.
  - reflexivity.
  - split; vm_compute; [reflexivity | discriminate].
  - vm_compute. discriminate.
  - vm_compute. discriminate.
  - vm_compute. reflexivity.
  - reflexivity.
  - reflexivity.
Defined.

Lemma ctcp_receive_fin_in_sequence_witness :
  let state' :=
    ctcp_receive (lib := roomy_lib) (ctcp_init (test_cfg 1440)) peer_fin 20 in
  output_writes (conn state') = [[]; []]
  /\ ackno state' = 2
  /\ receive_fin state' = true
  /\ unoutput state' = []
  /\ exists ack,
       sent_segments (conn state') = [ack] /\ pure_ack ack 2.
Proof.
  apply (ctcp_receive_fin_in_sequence (lib := roomy_lib)
           (ctcp_init (test_cfg 1440)) peer_fin 20).
  - vm_compute. reflexivity.
  - reflexivity.
  - reflexivity.
  - reflexivity.
  - reflexivity.
  - vm_compute. discriminate.
  - vm_compute. discriminate.
  - vm_compute. reflexivity.
Defined.

Lemma receive_all_with_duplicates_witness :
  let state' :=
    receive_all (lib := roomy_lib) (ctcp_init (test_cfg 1440))
                [seg_b; garbled; seg_b; seg_a; seg_a] in
  delivered_bytes (conn state')
  = [1; 2; 3; 4; 5; 6; 7; 8; 9; 10; 11; 12; 13; 14; 15; 16; 17; 18; 19; 20]
  /\ ackno state' = 21
  /\ unoutput state' = [].
Proof.
  apply (receive_all_with_duplicates (lib := roomy_lib)
           (ctcp_init (test_cfg 1440)) [seg_a; seg_b]
           [seg_b; garbled; seg_b; seg_a; seg_a]).
  - intros h. vm_compute. discriminate.
  - reflexivity.
  - vm_compute. discriminate.
  - repeat split; vm_compute; first [reflexivity | discriminate].
  - vm_compute. reflexivity.
  - vm_compute. reflexivity.
  - repeat constructor; vm_compute; reflexivity.
  - repeat constructor;
      first [ left; vm_compute; reflexivity
            | right; left; reflexivity
            | right; right; left; reflexivity ].
  - intros x [<- | [<- | []]]; cbn; auto 10.
Defined.

Lemma ctcp_timer_gives_up_after_five_witness :
  exists k,
    (k <= 5)%nat
    /\ retransmition (outcome_state (ticks (lib := sink_lib 0 []) 8 state_unacked))
       = Z.of_nat k
    /\ sent_segments (conn (outcome_state (ticks (lib := sink_lib 0 []) 8 state_unacked)))
       = sent_segments (conn state_unacked) ++ repeat own_data k
    /\ unacked (outcome_state (ticks (lib := sink_lib 0 []) 8 state_unacked))
       = [own_data]
    /\ match ticks (lib := sink_lib 0 []) 8 state_unacked with
       | Running _ => True
       | TornDown _ => False
       | GivenUp _ => k = 5%nat
       end.
Proof.
  apply (ctcp_timer_gives_up_after_five (lib := sink_lib 0 []) 8 state_unacked
           own_data []); reflexivity.
Defined.

Lemma ctcp_timer_teardown_flushes_witness :
  exists state',
    ctcp_timer_state (lib := roomy_lib) state_closing = TornDown state'
    /\ sent_segments (conn state') = [seg_b]
    /\ output_writes (conn state') = []
    /\ unoutput state' = [].
Proof.
  apply (ctcp_timer_teardown_flushes (lib := roomy_lib) state_closing);
    reflexivity.
Defined.

End FurtherCtcpWitnesses.

Section FurtherBbrWitnesses.
Import Bbr BbrFilter.

Lemma bbr_bw_is_windowed_max_witness :
  BtlBwFilter (feed_bw startup_state bw_samples) = last_ten (map fst bw_samples)
  /\ largest_of (bbr_bw (feed_bw startup_state bw_samples))
                (last_ten (map fst bw_samples)).
Proof.
  apply (bbr_bw_is_windowed_max startup_state bw_samples).
  - reflexivity.
  - cbn. lia.
Defined.

Lemma bbr_rtt_is_windowed_min_witness :
  let bbr' := bbr_update_min_rtt startup_state 50 2000 2000 2000 0 in
  RTpropFilter bbr' = tl (RTpropFilter startup_state) ++ [50]
  /\ smallest_of (bbr_rtt bbr') (RTpropFilter bbr')
  /\ min_rtt_stamp bbr' = 2000.
Proof.
  apply (bbr_rtt_is_windowed_min startup_state 50 2000 2000 2000 0).
  reflexivity.
Defined.

Lemma bbr_probe_rtt_never_observed_witness :
  bbr_mode_eqb (mode (bbr_update_min_rtt startup_state 50 2000 2000 2000 0))
               BBR_PROBE_RTT = false.
Proof.
  apply (bbr_probe_rtt_never_observed startup_state 50 2000 2000 2000 0).
  - discriminate.
  - vm_compute. discriminate.
Defined.

Lemma bbr_probe_rtt_never_released_witness :
  let bbr' := bbr_update_min_rtt probe_rtt_state 50 5000 5000 5000 0 in
  mode bbr' = BBR_PROBE_RTT
  /\ probe_rtt_done_stamp bbr' = probe_rtt_done_stamp probe_rtt_state
  /\ cwnd bbr' = cwnd probe_rtt_state.
Proof.
  apply (bbr_probe_rtt_never_released probe_rtt_state 50 5000 5000 5000 0).
  - reflexivity.
  - vm_compute. reflexivity.
Defined.

Lemma bbr_cycle_idx_stays_in_table_witness :
  0 <= cycle_idx (bbr_reset_probe_bw_mode startup_state 12345) <= CYCLE_LEN - 1
  /\ Forall (fun i => 0 <= i < CYCLE_LEN - 1)
            (cycle_indices 10 (bbr_reset_probe_bw_mode startup_state 12345)).
Proof.
  apply (bbr_cycle_idx_stays_in_table startup_state 12345 10).
  split; vm_compute; [discriminate | reflexivity].
Defined.

End FurtherBbrWitnesses.
